(** * antigravity2claudecode: request translation, routing, failover and
      the streaming translator, embedded from the Python sources.

    Layout: Python values and the result type ([Py]), then one module per
    source file ([Converter], [Rules], [Failover], [Streaming]), then the
    properties. *)

From Stdlib Require Import String Ascii List ZArith Bool Lia SpecFloat.
Import ListNotations.

Local Open Scope Z_scope.
Local Open Scope string_scope.
Local Open Scope list_scope.
Set Warnings "-register-all".

(** ** Python values *)

Module Py.

(** What [json.loads] produces, and what the request payload holds.  A
    [dict] keeps its insertion order, so it is an association list; a key
    occurs once in any dict Python builds.  Strings are sequences of code
    points below 256. *)
Inductive json : Type :=
| JNull
| JBool (b : bool)
| JInt (z : Z)
| JFloat (f : spec_float)
| JStr (s : string)
| JList (l : list json)
| JDict (d : list (string * json)).

Definition dict := list (string * json).

Section JsonInduction.

Variable P : json -> Prop.
Hypothesis HNull : P JNull.
Hypothesis HBool : forall b, P (JBool b).
Hypothesis HInt : forall z, P (JInt z).
Hypothesis HFloat : forall f, P (JFloat f).
Hypothesis HStr : forall s, P (JStr s).
Hypothesis HList : forall l, Forall P l -> P (JList l).
Hypothesis HDict : forall d, Forall (fun kv => P (snd kv)) d -> P (JDict d).

(** Induction over a value with the hypothesis on every element of a list
    and every value of a dict. *)
Fixpoint json_nested_ind (j : json) : P j :=
  match j with
  | JNull => HNull
  | JBool b => HBool b
  | JInt z => HInt z
  | JFloat f => HFloat f
  | JStr s => HStr s
  | JList l =>
      HList l
        ((fix all (l : list json) : Forall P l :=
            match l with
            | [] => Forall_nil P
            | x :: rest => Forall_cons x (json_nested_ind x) (all rest)
            end) l)
  | JDict d =>
      HDict d
        ((fix all (d : list (string * json))
            : Forall (fun kv => P (snd kv)) d :=
            match d with
            | [] => Forall_nil _
            | kv :: rest =>
                Forall_cons kv (json_nested_ind (snd kv)) (all rest)
            end) d)
  end.

End JsonInduction.

(** The exceptions the modelled code can raise. *)
Inductive exn : Type :=
| AttributeError | TypeError | KeyError | ValueError | OverflowError.

Inductive result (A : Type) : Type :=
| Ok (a : A)
| Raise (e : exn).
Arguments Ok {A} a.
Arguments Raise {A} e.

Definition rbind {A B} (r : result A) (f : A -> result B) : result B :=
  match r with Ok a => f a | Raise e => Raise e end.

Notation "x <-! r ;; k" := (rbind r (fun x => k))
  (at level 61, r at next level, right associativity).

(** A [for] loop whose body may raise: the accumulator is threaded, the
    first exception ends the loop. *)
Fixpoint for_result {A S} (body : S -> A -> result S) (xs : list A) (s : S)
  : result S :=
  match xs with
  | [] => Ok s
  | x :: rest => s' <-! body s x ;; for_result body rest s'
  end.

(** [bool(x)] *)
Definition truthy (j : json) : bool :=
  match j with
  | JNull => false
  | JBool b => b
  | JInt z => negb (z =? 0)%Z
  | JFloat (S754_zero _) => false
  | JFloat _ => true
  | JStr s => negb (s =? "")
  | JList l => match l with [] => false | _ => true end
  | JDict d => match d with [] => false | _ => true end
  end.

(** [x or y] *)
Definition py_or (x y : json) : json := if truthy x then x else y.

Definition is_dict (j : json) : bool :=
  match j with JDict _ => true | _ => false end.
Definition is_list (j : json) : bool :=
  match j with JList _ => true | _ => false end.
Definition is_str (j : json) : bool :=
  match j with JStr _ => true | _ => false end.

(** [j == s] for a string literal [s] *)
Definition eq_str (j : json) (s : string) : bool :=
  match j with JStr s' => (s' =? s) | _ => false end.

(** *** dict operations *)

Fixpoint dict_get (k : string) (d : dict) : option json :=
  match d with
  | [] => None
  | (k', v) :: rest => if k' =? k then Some v else dict_get k rest
  end.

(** [k in d] *)
Definition dict_has (k : string) (d : dict) : bool :=
  match dict_get k d with Some _ => true | None => false end.

(** [d.get(k, default)] *)
Definition dict_get_default (k : string) (default : json) (d : dict) : json :=
  match dict_get k d with Some v => v | None => default end.

(** [d[k] = v]: an existing key keeps its place, a new one goes last. *)
Fixpoint dict_set (k : string) (v : json) (d : dict) : dict :=
  match d with
  | [] => [(k, v)]
  | (k', v') :: rest =>
      if k' =? k then (k', v) :: rest else (k', v') :: dict_set k v rest
  end.

(** [x.get(k, default)] on an arbitrary value: only a dict has the method. *)
Definition py_get (x : json) (k : string) (default : json) : result json :=
  match x with
  | JDict d => Ok (dict_get_default k default d)
  | _ => Raise AttributeError
  end.

(** *** str operations *)

(** [str.isspace] on one code point below 256. *)
Definition is_space (c : ascii) : bool :=
  let n := nat_of_ascii c in
  ((9 <=? n) && (n <=? 13) || (28 <=? n) && (n <=? 32)
   || (n =? 133) || (n =? 160))%nat.

Fixpoint lstrip (s : string) : string :=
  match s with
  | EmptyString => EmptyString
  | String c s' => if is_space c then lstrip s' else s
  end.

Fixpoint rstrip (s : string) : string :=
  match s with
  | EmptyString => EmptyString
  | String c s' =>
      let r := rstrip s' in
      if is_space c && (r =? "") then EmptyString else String c r
  end.

(** [s.strip()] *)
Definition strip (s : string) : string := rstrip (lstrip s).

(** [str.lower] on one code point below 256. *)
Definition lower_char (c : ascii) : ascii :=
  let n := nat_of_ascii c in
  if ((65 <=? n) && (n <=? 90)
      || (192 <=? n) && (n <=? 222) && negb (n =? 215))%nat
  then ascii_of_nat (n + 32) else c.

Fixpoint lower (s : string) : string :=
  match s with
  | EmptyString => EmptyString
  | String c s' => String (lower_char c) (lower s')
  end.

(** [s[n:]] *)
Fixpoint drop (n : nat) (s : string) : string :=
  match n, s with
  | O, _ => s
  | S n', String _ s' => drop n' s'
  | S _, EmptyString => EmptyString
  end.

(** [sep.join(xs)] *)
Fixpoint join (sep : string) (xs : list string) : string :=
  match xs with
  | [] => ""
  | [x] => x
  | x :: rest => (x ++ sep ++ join sep rest)%string
  end.

Definition is_digit (c : ascii) : bool :=
  let n := nat_of_ascii c in ((48 <=? n) && (n <=? 57))%nat.

Fixpoint all_digits (s : string) : bool :=
  match s with
  | EmptyString => true
  | String c s' => is_digit c && all_digits s'
  end.

(** [x in xs] for a list of strings *)
Fixpoint mem (x : string) (xs : list string) : bool :=
  match xs with
  | [] => false
  | y :: rest => (y =? x) || mem x rest
  end.

(** *** numbers *)

(** Decimal text of an integer, as [str] prints an [int]. *)
Fixpoint digits_of_pos (fuel : nat) (n : Z) (acc : string) : string :=
  match fuel with
  | O => acc
  | S fuel' =>
      let d := ascii_of_nat (48 + Z.to_nat (n mod 10)) in
      if (n <? 10)%Z then String d acc
      else digits_of_pos fuel' (n / 10) (String d acc)
  end.

Definition str_of_int (z : Z) : string :=
  if (z <? 0)%Z
  then String "-" (digits_of_pos (S (Z.to_nat (Z.log2 (- z)))) (- z) "")
  else digits_of_pos (S (Z.to_nat (Z.log2 z))) z "".

(** [int(f)] for a float: truncation toward zero; [nan] and the
    infinities raise. *)
Definition int_of_float (f : spec_float) : result Z :=
  match f with
  | S754_zero _ => Ok 0%Z
  | S754_infinity _ => Raise OverflowError
  | S754_nan => Raise ValueError
  | S754_finite s m e =>
      let mag := if (0 <=? e)%Z then (Z.pos m * 2 ^ e)%Z
                 else (Z.pos m / 2 ^ (- e))%Z in
      Ok (if s then (- mag)%Z else mag)
  end.

(** [isinstance(x, int)], with the value: [bool] is a subclass of [int]. *)
Definition as_int (j : json) : option Z :=
  match j with
  | JInt z => Some z
  | JBool b => Some (if b then 1 else 0)%Z
  | _ => None
  end.

(** [str(x)].  The text of a float or of a container is the
    interpreter's [repr], taken as [py_repr]. *)
Definition py_str (py_repr : json -> string) (j : json) : string :=
  match j with
  | JStr s => s
  | JNull => "None"
  | JBool true => "True"
  | JBool false => "False"
  | JInt z => str_of_int z
  | _ => py_repr j
  end.

End Py.
Export Py.

(** ** src/a2c/core/converter.py *)

Module Converter.

Definition DEFAULT_THINKING_BUDGET : Z := 1024.
(** 0.4 as a double *)
Definition DEFAULT_TEMPERATURE : spec_float :=
  S754_finite false 7205759403792794 (-54).

Definition thinking_on_default : dict :=
  [("includeThoughts", JBool true);
   ("thinkingBudget", JInt DEFAULT_THINKING_BUDGET)].

Definition get_thinking_config (thinking : json) : dict :=
  match thinking with
  | JNull => thinking_on_default
  | JBool b =>
      if b then thinking_on_default else [("includeThoughts", JBool false)]
  | JDict d =>
      let thinking_type := dict_get_default "type" (JStr "enabled") d in
      let is_enabled := eq_str thinking_type "enabled" in
      if negb is_enabled then [("includeThoughts", JBool false)]
      else
        let budget :=
          dict_get_default "budget_tokens" (JInt DEFAULT_THINKING_BUDGET) d in
        [("includeThoughts", JBool true); ("thinkingBudget", budget)]
  | _ => thinking_on_default
  end.

(** The match of [^(claude-(?:opus|sonnet|haiku)-4-5)-\d{8}$] at the start
    of [s]: group 1 when it matches.  [$] also matches before one final
    newline. *)
Definition dated_model_bases : list string :=
  ["claude-opus-4-5"; "claude-sonnet-4-5"; "claude-haiku-4-5"].

Definition newline : string := String (ascii_of_nat 10) EmptyString.

Definition match_dated_base (base s : string) : bool :=
  let head := (base ++ "-")%string in
  String.prefix head s
  && (let rest := drop (String.length head) s in
      let date := substring 0 8 rest in
      (String.length date =? 8)%nat && all_digits date
      && ((drop 8 rest =? "") || (drop 8 rest =? newline))).

Definition match_dated (s : string) : option string :=
  List.find (fun base => match_dated_base base s) dated_model_bases.

Definition supported_models : list string :=
  ["gemini-2.5-flash"; "gemini-2.5-flash-thinking"; "gemini-2.5-pro";
   "gemini-3-pro-low"; "gemini-3-pro-high"; "gemini-3-pro-image";
   "gemini-2.5-flash-lite"; "gemini-2.5-flash-image";
   "claude-sonnet-4-5"; "claude-sonnet-4-5-thinking";
   "claude-opus-4-5-thinking"; "gpt-oss-120b-medium"].

Definition model_mapping : list (string * string) :=
  [("claude-sonnet-4.5", "claude-sonnet-4-5");
   ("claude-3-5-sonnet-20241022", "claude-sonnet-4-5");
   ("claude-3-5-sonnet-20240620", "claude-sonnet-4-5");
   ("claude-opus-4", "gemini-3-pro-high");
   ("claude-haiku-4", "claude-haiku-4.5");
   ("claude-3-haiku-20240307", "gemini-2.5-flash")].

Fixpoint mapping_get (k default : string) (m : list (string * string))
  : string :=
  match m with
  | [] => default
  | (k', v) :: rest => if k' =? k then v else mapping_get k default rest
  end.

Definition map_claude_model_to_gemini (claude_model : string) : string :=
  let claude_model := strip claude_model in
  if claude_model =? "" then "claude-sonnet-4-5"
  else
    let claude_model :=
      match match_dated claude_model with
      | Some group1 => group1
      | None => claude_model
      end in
    if claude_model =? "claude-opus-4-5" then "claude-opus-4-5-thinking"
    else if claude_model =? "claude-sonnet-4-5" then "claude-sonnet-4-5"
    else if claude_model =? "claude-haiku-4-5" then "gemini-2.5-flash"
    else if mem claude_model supported_models then claude_model
    else mapping_get claude_model "claude-sonnet-4-5" model_mapping.

(** *** clean_json_schema *)

Definition unsupported_keys : list string :=
  ["$schema"; "$id"; "$ref"; "$defs"; "definitions"; "title"; "example";
   "examples"; "readOnly"; "writeOnly"; "default"; "exclusiveMaximum";
   "exclusiveMinimum"; "oneOf"; "anyOf"; "allOf"; "const";
   "additionalItems"; "contains"; "patternProperties"; "dependencies";
   "propertyNames"; "if"; "then"; "else"; "contentEncoding";
   "contentMediaType"].

Definition validation_fields : list (string * string) :=
  [("minLength", "minLength"); ("maxLength", "maxLength");
   ("minimum", "minimum"); ("maximum", "maximum");
   ("minItems", "minItems"); ("maxItems", "maxItems")].

Definition fields_to_remove : list string := ["additionalProperties"].

(** The test that makes the loop of [clean_json_schema] skip a key. *)
Definition key_dropped (key : string) : bool :=
  mem key unsupported_keys || mem key fields_to_remove
  || mem key (map fst validation_fields).

(** [isinstance(t, str) and t.strip() and t.strip().lower() == "null"] *)
Definition is_null_type (t : json) : bool :=
  match t with
  | JStr s => negb (strip s =? "") && (lower (strip s) =? "null")
  | _ => false
  end.

(** The elements [t.strip()] of [non_null_types]. *)
Fixpoint non_null_types (value : list json) : list string :=
  match value with
  | [] => []
  | t :: rest =>
      match t with
      | JStr s =>
          if negb (strip s =? "") && negb (lower (strip s) =? "null")
          then strip s :: non_null_types rest
          else non_null_types rest
      | _ => non_null_types rest
      end
  end.

Section WithBuiltins.

(** [repr] of floats and containers, and [json.dumps(x, ensure_ascii=False)]:
    the interpreter's. *)
Variable py_repr : json -> string.
Variable json_dumps : json -> string.

Let str := py_str py_repr.

Definition collect_validations (schema : dict) : list string :=
  fold_left
    (fun validations fl =>
       let '(field, label) := fl in
       match dict_get field schema with
       | Some v => validations ++ [(label ++ ": " ++ str v)%string]
       | None => validations
       end)
    validation_fields [].

(** The body of the loop over [schema.items()]: [cleaned] after the entry
    [kv]; [clean] is the recursive call. *)
Definition clean_entry (clean : json -> json) (validations : list string)
    (cleaned : dict) (kv : string * json) : dict :=
  let '(key, value) := kv in
  if key_dropped key then cleaned
  else if (key =? "type") && is_list value then
    match value with
    | JList l =>
        let has_null := existsb is_null_type l in
        let cleaned :=
          dict_set key
            (JStr (match non_null_types l with
                   | t :: _ => t
                   | [] => "string"
                   end)) cleaned in
        if has_null then dict_set "nullable" (JBool true) cleaned
        else cleaned
    | _ => cleaned
    end
  else if (key =? "description")
          && match validations with [] => false | _ => true end then
    dict_set key
      (JStr (str value ++ " (" ++ join ", " validations ++ ")")%string)
      cleaned
  else
    match value with
    | JDict _ => dict_set key (clean value) cleaned
    | JList l =>
        dict_set key
          (JList (map (fun item => if is_dict item then clean item else item)
                    l))
          cleaned
    | _ => dict_set key value cleaned
    end.

(** What follows the loop. *)
Definition clean_finish (validations : list string) (cleaned : dict) : dict :=
  let cleaned :=
    if match validations with [] => false | _ => true end
       && negb (dict_has "description" cleaned)
    then dict_set "description"
           (JStr ("Validation: " ++ join ", " validations)%string) cleaned
    else cleaned in
  if dict_has "properties" cleaned && negb (dict_has "type" cleaned)
  then dict_set "type" (JStr "object") cleaned
  else cleaned.

Fixpoint clean_json_schema (schema : json) : json :=
  match schema with
  | JDict d =>
      let validations := collect_validations d in
      JDict (clean_finish validations
               (fold_left (clean_entry clean_json_schema validations) d []))
  | _ => schema
  end.

(** *** messages to contents *)

Definition _is_non_whitespace_text (value : json) : bool :=
  match value with
  | JNull => false
  | _ => negb (strip (str value) =? "")
  end.

Definition _extract_tool_result_output (content : json) : string :=
  match content with
  | JList [] => ""
  | JList (first :: _) =>
      match first with
      | JDict fd =>
          if eq_str (dict_get_default "type" JNull fd) "text"
          then str (dict_get_default "text" (JStr "") fd)
          else str first
      | _ => str first
      end
  | JNull => ""
  | _ => str content
  end.

(** One pass of the loop over the blocks of a list content: [parts] after
    the block [item]. *)
Definition convert_item (include_thinking : bool) (parts : list json)
    (item : json) : result (list json) :=
  match item with
  | JDict it =>
      let get k := dict_get_default k JNull it in
      let item_type := get "type" in
      if eq_str item_type "thinking" then
        if negb include_thinking then Ok parts
        else
          let signature := get "signature" in
          if negb (truthy signature) then Ok parts
          else
            let thinking_text := dict_get_default "thinking" (JStr "") it in
            let thinking_text :=
              match thinking_text with JNull => JStr "" | t => t end in
            Ok (parts ++ [JDict [("text", JStr (str thinking_text));
                                 ("thought", JBool true);
                                 ("thoughtSignature", signature)]])
      else if eq_str item_type "redacted_thinking" then
        if negb include_thinking then Ok parts
        else
          let signature := get "signature" in
          if negb (truthy signature) then Ok parts
          else
            let thinking_text := get "thinking" in
            let thinking_text :=
              match thinking_text with
              | JNull => dict_get_default "data" (JStr "") it
              | t => t
              end in
            Ok (parts ++ [JDict [("text",
                                  JStr (str (py_or thinking_text (JStr ""))));
                                 ("thought", JBool true);
                                 ("thoughtSignature", signature)]])
      else if eq_str item_type "text" then
        let text := dict_get_default "text" (JStr "") it in
        if _is_non_whitespace_text text
        then Ok (parts ++ [JDict [("text", JStr (str text))]])
        else Ok parts
      else if eq_str item_type "image" then
        let source := py_or (dict_get_default "source" (JDict []) it)
                        (JDict []) in
        source_type <-! py_get source "type" JNull ;;
        if eq_str source_type "base64" then
          media_type <-! py_get source "media_type" (JStr "image/png") ;;
          data <-! py_get source "data" (JStr "") ;;
          Ok (parts ++ [JDict [("inlineData",
                                JDict [("mimeType", media_type);
                                       ("data", data)])]])
        else Ok parts
      else if eq_str item_type "tool_use" then
        Ok (parts ++ [JDict [("functionCall",
                              JDict [("id", get "id");
                                     ("name", get "name");
                                     ("args",
                                      py_or
                                        (dict_get_default "input" (JDict []) it)
                                        (JDict []))])]])
      else if eq_str item_type "tool_result" then
        let output := _extract_tool_result_output (get "content") in
        Ok (parts ++ [JDict [("functionResponse",
                              JDict [("id", get "tool_use_id");
                                     ("name",
                                      dict_get_default "name" (JStr "") it);
                                     ("response",
                                      JDict [("output", JStr output)])])]])
      else Ok (parts ++ [JDict [("text", JStr (json_dumps item))]])
  | _ =>
      if _is_non_whitespace_text item
      then Ok (parts ++ [JDict [("text", JStr (str item))]])
      else Ok parts
  end.

(** The body of the loop over [messages]: [contents] after [msg]. *)
Definition convert_message (include_thinking : bool) (contents : list json)
    (msg : json) : result (list json) :=
  role <-! py_get msg "role" (JStr "user") ;;
  let gemini_role := if eq_str role "assistant" then "model" else "user" in
  raw_content <-! py_get msg "content" (JStr "") ;;
  parts <-!
    match raw_content with
    | JList items => for_result (convert_item include_thinking) items []
    | _ =>
        if _is_non_whitespace_text raw_content
        then Ok [JDict [("text", JStr (str raw_content))]]
        else Ok []
    end ;;
  match parts with
  | [] => Ok contents
  | _ => Ok (contents ++ [JDict [("role", JStr gemini_role);
                                 ("parts", JList parts)]])
  end.

Definition convert_messages_to_contents
    (messages : list json) (include_thinking : bool) : result (list json) :=
  for_result (convert_message include_thinking) messages [].

(** *** build_generation_config *)

Definition default_stop_sequences : list json :=
  [JStr "<|user|>"; JStr "<|bot|>"; JStr "<|context_request|>";
   JStr "<|endoftext|>"; JStr "<|end_of_turn|>"].

(** [reversed(x)] as the list it iterates over: a list from its end, a str
    by characters, a dict by keys; other values are not reversible. *)
Definition chars (s : string) : list json :=
  map (fun c => JStr (String c EmptyString)) (list_ascii_of_string s).

Definition reversed (x : json) : result (list json) :=
  match x with
  | JList l => Ok (rev l)
  | JStr s => Ok (rev (chars s))
  | JDict d => Ok (rev (map (fun kv => JStr (fst kv)) d))
  | _ => Raise TypeError
  end.

(** The loop that looks for the last assistant message with a non-empty
    list content: the [type] of its first block, [None] when that block is
    no dict or no message qualifies. *)
Fixpoint last_assistant_first_block_type (msgs : list json) : json :=
  match msgs with
  | [] => JNull
  | msg :: rest =>
      match msg with
      | JDict m =>
          if negb (eq_str (dict_get_default "role" JNull m) "assistant")
          then last_assistant_first_block_type rest
          else
            match dict_get_default "content" JNull m with
            | JList (first_block :: _) =>
                match first_block with
                | JDict fb => dict_get_default "type" JNull fb
                | _ => JNull
                end
            | _ => last_assistant_first_block_type rest
            end
      | _ => last_assistant_first_block_type rest
      end
  end.

(** [x not in {None, "thinking", "redacted_thinking"}]: the test hashes
    [x], which a list or a dict does not allow. *)
Definition not_in_thinking_types (x : json) : result bool :=
  match x with
  | JList _ | JDict _ => Raise TypeError
  | JNull => Ok false
  | JStr s => Ok (negb ((s =? "thinking") || (s =? "redacted_thinking")))
  | _ => Ok true
  end.

(** [if v is not None: config[k] = v] *)
Definition set_unless_none (k : string) (v : json) (config : dict) : dict :=
  match v with
  | JNull => config
  | _ => dict_set k v config
  end.

(** [build_generation_config] up to the comment that opens its thinking
    section: [config] at that point. *)
Definition generation_config_base (payload : dict) : dict :=
  let config : dict :=
    [("topP", JInt 1); ("topK", JInt 40); ("candidateCount", JInt 1);
     ("stopSequences", JList default_stop_sequences)] in
  let temperature := dict_get_default "temperature" JNull payload in
  let config :=
    dict_set "temperature"
      (match temperature with
       | JNull => JFloat DEFAULT_TEMPERATURE
       | t => t
       end) config in
  let top_p := dict_get_default "top_p" JNull payload in
  let config := set_unless_none "topP" top_p config in
  let top_k := dict_get_default "top_k" JNull payload in
  let config := set_unless_none "topK" top_k config in
  let max_tokens := dict_get_default "max_tokens" JNull payload in
  let config := set_unless_none "maxOutputTokens" max_tokens config in
  let stop_sequences := dict_get_default "stop_sequences" JNull payload in
  match stop_sequences with
  | JList (s :: ss) =>
      dict_set "stopSequences"
        (JList (default_stop_sequences
                ++ map (fun s => JStr (str s)) (s :: ss))) config
  | _ => config
  end.

Definition build_generation_config (payload : dict) : result (dict * bool) :=
  let config := generation_config_base payload in
  let max_tokens := dict_get_default "max_tokens" JNull payload in
  if dict_has "thinking" payload then
    let thinking_value := dict_get_default "thinking" JNull payload in
    match thinking_value with
    | JNull => Ok (config, false)
    | _ =>
        let thinking_config := get_thinking_config thinking_value in
        let include_thoughts :=
          truthy (dict_get_default "includeThoughts" (JBool false)
                    thinking_config) in
        msgs <-! reversed (py_or (dict_get_default "messages" JNull payload)
                             (JList [])) ;;
        let block_type := last_assistant_first_block_type msgs in
        mismatch <-! (if include_thoughts then not_in_thinking_types block_type
                      else Ok false) ;;
        if mismatch then Ok (config, false)
        else
          let finish (thinking_config : dict) : result (dict * bool) :=
            Ok (dict_set "thinkingConfig" (JDict thinking_config) config,
                include_thoughts) in
          match (if include_thoughts then as_int max_tokens else None) with
          | Some mt =>
              match as_int (dict_get_default "thinkingBudget" JNull
                              thinking_config) with
              | Some budget =>
                  if (budget >=? mt)%Z then
                    let adjusted_budget := Z.max 0 (mt - 1) in
                    if (adjusted_budget <=? 0)%Z then Ok (config, false)
                    else finish (dict_set "thinkingBudget"
                                   (JInt adjusted_budget) thinking_config)
                  else finish thinking_config
              | None => finish thinking_config
              end
          | None => finish thinking_config
          end
    end
  else Ok (config, false).

(** *** convert_tools *)

(** [for x in v] as the list of the values [x] takes: the elements of a
    list, the characters of a str, the keys of a dict; other values are not
    iterable. *)
Definition for_in (v : json) : result (list json) :=
  match v with
  | JList l => Ok l
  | JStr s => Ok (chars s)
  | JDict d => Ok (map (fun kv => JStr (fst kv)) d)
  | _ => Raise TypeError
  end.

Definition function_declarations (name description parameters : json)
  : json :=
  JDict [("functionDeclarations",
          JList [JDict [("name", name); ("description", description);
                        ("parameters", parameters)]])].

(** The body of the loop of [convert_tools]: [gemini_tools] after [tool]. *)
Definition convert_tool (gemini_tools : list json) (tool : json)
  : result (list json) :=
  name <-! py_get tool "name" JNull ;;
  if negb (truthy name) then Ok gemini_tools
  else
    description <-! py_get tool "description" (JStr "") ;;
    input_schema <-! py_get tool "input_schema" (JDict []) ;;
    let input_schema := py_or input_schema (JDict []) in
    let parameters := clean_json_schema input_schema in
    Ok (gemini_tools ++ [function_declarations name description parameters]).

(** The list of tools, or [None]. *)
Definition convert_tools (anthropic_tools : json) : result json :=
  if negb (truthy anthropic_tools) then Ok JNull
  else
    tools <-! for_in anthropic_tools ;;
    gemini_tools <-! for_result convert_tool tools [] ;;
    Ok (py_or (JList gemini_tools) JNull).

(** *** reorganize_tool_messages *)

(** [msg.get("parts", []) or []], iterated. *)
Definition parts_of (msg : json) : result (list json) :=
  parts <-! py_get msg "parts" (JList []) ;;
  for_in (py_or parts (JList [])).

(** [isinstance(part, dict) and k in part] *)
Definition has_key (k : string) (part : json) : bool :=
  match part with
  | JDict p => dict_has k p
  | _ => false
  end.

(** [(part.get(k) or {}).get("id")] *)
Definition tool_id_of (k : string) (part : json) : result json :=
  v <-! py_get part k JNull ;;
  py_get (py_or v (JDict [])) "id" JNull.

(** The body of the inner loop that collects the [functionResponse] parts:
    [tool_results] after [part]. *)
Definition collect_tool_result (tool_results : dict) (part : json)
  : result dict :=
  if has_key "functionResponse" part then
    tool_id <-! tool_id_of "functionResponse" part ;;
    if truthy tool_id then Ok (dict_set (str tool_id) part tool_results)
    else Ok tool_results
  else Ok tool_results.

Definition collect_tool_results (tool_results : dict) (msg : json)
  : result dict :=
  parts <-! parts_of msg ;;
  for_result collect_tool_result parts tool_results.

(** A message of [flattened], [{"role": role, "parts": [part]}], is kept
    as the pair of its role and its part. *)
Definition single_part_message (role part : json) : json :=
  JDict [("role", role); ("parts", JList [part])].

Definition flatten_message (flattened : list (json * json)) (msg : json)
  : result (list (json * json)) :=
  role <-! py_get msg "role" JNull ;;
  parts <-! parts_of msg ;;
  Ok (flattened ++ map (fun part => (role, part)) parts).

(** The body of the [while] loop, which visits the messages of
    [flattened] one by one: [new_contents] after [msg]. *)
Definition place_message (tool_results : dict) (new_contents : list json)
    (msg : json * json) : result (list json) :=
  let '(role, part) := msg in
  if has_key "functionResponse" part then Ok new_contents
  else if has_key "functionCall" part then
    tool_id <-! tool_id_of "functionCall" part ;;
    let new_contents :=
      new_contents ++ [single_part_message (JStr "model") part] in
    match tool_id with
    | JNull => Ok new_contents
    | _ =>
        match dict_get (str tool_id) tool_results with
        | Some tool_result =>
            Ok (new_contents ++ [single_part_message (JStr "user") tool_result])
        | None => Ok new_contents
        end
    end
  else Ok (new_contents ++ [single_part_message role part]).

Definition reorganize_tool_messages (contents : list json)
  : result (list json) :=
  tool_results <-! for_result collect_tool_results contents [] ;;
  flattened <-! for_result flatten_message contents [] ;;
  for_result (place_message tool_results) flattened [].

(** *** build_system_instruction *)

(** The body of the loop over a list [system]: [parts] after [item]. *)
Definition system_item (parts : list json) (item : json) : list json :=
  match item with
  | JDict it =>
      if eq_str (dict_get_default "type" JNull it) "text" then
        let text := dict_get_default "text" (JStr "") it in
        if _is_non_whitespace_text text
        then parts ++ [JDict [("text", JStr (str text))]]
        else parts
      else parts
  | _ => parts
  end.

(** The instruction, or [None]. *)
Definition build_system_instruction (system : json) : json :=
  if negb (truthy system) then JNull
  else
    let parts :=
      match system with
      | JList items => fold_left system_item items []
      | _ =>
          if _is_non_whitespace_text system
          then [JDict [("text", JStr (str system))]]
          else []
      end in
    match parts with
    | [] => JNull
    | _ => JDict [("role", JStr "user"); ("parts", JList parts)]
    end.

(** *** convert_anthropic_request_to_antigravity_components *)

Definition convert_anthropic_request_to_antigravity_components
    (payload : dict) : result dict :=
  let model :=
    map_claude_model_to_gemini
      (str (dict_get_default "model" (JStr "") payload)) in
  let messages :=
    match py_or (dict_get_default "messages" JNull payload) (JList []) with
    | JList l => l
    | _ => []
    end in
  config_and_flag <-! build_generation_config payload ;;
  let '(generation_config, should_include_thinking) := config_and_flag in
  contents <-! convert_messages_to_contents messages should_include_thinking ;;
  contents <-! reorganize_tool_messages contents ;;
  let system_instruction :=
    build_system_instruction (dict_get_default "system" JNull payload) in
  tools <-! convert_tools (dict_get_default "tools" JNull payload) ;;
  Ok [("model", JStr model); ("contents", JList contents);
      ("system_instruction", system_instruction); ("tools", tools);
      ("generation_config", JDict generation_config)].

End WithBuiltins.

End Converter.

(** ** src/a2c/router/failover.py *)

Module Failover.

(** [FailoverService.build_failover_chain]; [self] is not read. *)
Definition build_failover_chain
    (primary : string) (fallback : option string) (available : list string)
  : list string :=
  let chain : list string := [] in
  let chain := if mem primary available then chain ++ [primary] else chain in
  let chain :=
    match fallback with
    | Some f =>
        if negb (f =? "") && mem f available && negb (mem f chain)
        then chain ++ [f] else chain
    | None => chain
    end in
  fold_left
    (fun chain provider =>
       if negb (mem provider chain) then chain ++ [provider] else chain)
    available chain.

(** The attributes [FailoverService.__init__] stores that
    [get_retry_delay] reads, ints as annotated. *)
Record FailoverService : Type := {
  max_retries : Z;
  retry_delay_ms : Z;
  max_retry_delay_ms : Z }.

Section WithFloats.

(** The interpreter's mixed arithmetic, met when [attempt - 1] is
    negative: [2 ** e] for [e < 0] is a float; an int times a float is a
    float, or raises when the int has no float; [i < f] compares an int
    with a float. *)
Variable two_to_the : Z -> spec_float.
Variable int_times_float : Z -> spec_float -> result spec_float.
Variable int_lt_float : Z -> spec_float -> bool.

(** [FailoverService.get_retry_delay].  [min(a, b)] is [b] when [b < a]
    and [a] otherwise. *)
Definition get_retry_delay (self : FailoverService) (attempt : Z)
  : result json :=
  if (0 <=? attempt - 1)%Z then
    let delay := (retry_delay_ms self * 2 ^ (attempt - 1))%Z in
    Ok (JInt (if (max_retry_delay_ms self <? delay)%Z
              then max_retry_delay_ms self else delay))
  else
    delay <-! int_times_float (retry_delay_ms self)
                (two_to_the (attempt - 1)) ;;
    Ok (if int_lt_float (max_retry_delay_ms self) delay
        then JInt (max_retry_delay_ms self) else JFloat delay).

End WithFloats.

End Failover.

(** ** src/a2c/router/rules.py *)

Module Rules.

Record RoutingRule : Type := {
  name : string;
  provider : string;
  priority : Z;
  agent_type : option string;
  model_pattern : option string;
  thinking_enabled : option bool;
  min_context_tokens : option Z;
  max_context_tokens : option Z;
  fallback_provider : option string }.

(** The truth value of an optional string: [None] and [""] are false. *)
Definition set_str (o : option string) : option string :=
  match o with
  | Some s => if s =? "" then None else Some s
  | None => None
  end.

(** The [is_thinking] the rule computes from [request.get("thinking", {})]. *)
Definition is_thinking (request : dict) : bool :=
  match dict_get_default "thinking" (JDict []) request with
  | JDict t => eq_str (dict_get_default "type" JNull t) "enabled"
  | JBool true => true
  | _ => false
  end.

Section WithRe.

(** [re.match(pattern, s, re.IGNORECASE)] as a truth value; a pattern that
    does not compile raises. *)
Variable re_match_ignorecase : string -> string -> result bool.

Definition matches (self : RoutingRule) (request : dict)
    (agent_type_arg : option string) (context_tokens : Z) : result bool :=
  let given :=
    match set_str agent_type_arg with Some a => a | None => "default" end in
  if match set_str (agent_type self) with
     | Some a => negb (a =? given)
     | None => false
     end
  then Ok false
  else
    model_ok <-!
      match set_str (model_pattern self) with
      | Some pattern =>
          match dict_get_default "model" (JStr "") request with
          | JStr model => re_match_ignorecase pattern model
          | _ => Raise TypeError
          end
      | None => Ok true
      end ;;
    if negb model_ok then Ok false
    else if match thinking_enabled self with
            | Some want => negb (Bool.eqb want (is_thinking request))
            | None => false
            end
    then Ok false
    else if match min_context_tokens self with
            | Some lo => (context_tokens <? lo)%Z
            | None => false
            end
    then Ok false
    else if match max_context_tokens self with
            | Some hi => (context_tokens >? hi)%Z
            | None => false
            end
    then Ok false
    else Ok true.

End WithRe.

(** *** Router *)

Record Router : Type := {
  rules : list RoutingRule;
  default_provider : string }.

(** [rules.sort(key=lambda r: r.priority, reverse=True)]: the list by
    falling priority, rules of one priority in the order they had.
    [place_rule r sorted] is the sorted list of [r :: sorted]. *)
Fixpoint place_rule (r : RoutingRule) (sorted : list RoutingRule)
  : list RoutingRule :=
  match sorted with
  | [] => [r]
  | y :: rest =>
      if (priority r <? priority y)%Z then y :: place_rule r rest
      else r :: y :: rest
  end.

Definition sort_by_priority (rs : list RoutingRule) : list RoutingRule :=
  fold_right place_rule [] rs.

Definition add_rule (self : Router) (rule : RoutingRule) : Router :=
  {| rules := sort_by_priority (rules self ++ [rule]);
     default_provider := default_provider self |}.

(** The loop of [remove_rule]: the list without the first rule of that
    name, [None] when no rule has it. *)
Fixpoint remove_first (rule_name : string) (rs : list RoutingRule)
  : option (list RoutingRule) :=
  match rs with
  | [] => None
  | r :: rest =>
      if name r =? rule_name then Some rest
      else
        match remove_first rule_name rest with
        | Some rest' => Some (r :: rest')
        | None => None
        end
  end.

(** The value returned, and the router afterwards. *)
Definition remove_rule (self : Router) (rule_name : string)
  : bool * Router :=
  match remove_first rule_name (rules self) with
  | Some rs =>
      (true, {| rules := rs; default_provider := default_provider self |})
  | None => (false, self)
  end.

(** What [create_default_router] reads of [settings.routing]. *)
Record RoutingSettings : Type := {
  long_context_threshold : Z;
  settings_default_provider : string;
  background_provider : string;
  think_provider : string;
  long_context_provider : string;
  websearch_provider : string }.

(** A rule built with keyword arguments: the fields that are not given
    have their defaults. *)
Definition create_default_router (settings : RoutingSettings) : Router :=
  let router :=
    {| rules := []; default_provider := settings_default_provider settings |} in
  let router :=
    add_rule router
      {| name := "thinking-requests"; provider := think_provider settings;
         priority := 100; agent_type := None; model_pattern := None;
         thinking_enabled := Some true; min_context_tokens := None;
         max_context_tokens := None; fallback_provider := None |} in
  let router :=
    add_rule router
      {| name := "long-context"; provider := long_context_provider settings;
         priority := 90; agent_type := None; model_pattern := None;
         thinking_enabled := None;
         min_context_tokens := Some (long_context_threshold settings);
         max_context_tokens := None; fallback_provider := None |} in
  let router :=
    add_rule router
      {| name := "websearch"; provider := websearch_provider settings;
         priority := 80; agent_type := Some "websearch";
         model_pattern := None; thinking_enabled := None;
         min_context_tokens := None; max_context_tokens := None;
         fallback_provider := None |} in
  let router :=
    add_rule router
      {| name := "background"; provider := background_provider settings;
         priority := 70; agent_type := Some "background";
         model_pattern := None; thinking_enabled := None;
         min_context_tokens := None; max_context_tokens := None;
         fallback_provider := None |} in
  let router :=
    add_rule router
      {| name := "think-agent"; provider := think_provider settings;
         priority := 60; agent_type := Some "think"; model_pattern := None;
         thinking_enabled := None; min_context_tokens := None;
         max_context_tokens := None; fallback_provider := None |} in
  add_rule router
    {| name := "opus-models"; provider := "antigravity"; priority := 50;
       agent_type := None; model_pattern := Some ".*opus.*";
       thinking_enabled := None; min_context_tokens := None;
       max_context_tokens := None; fallback_provider := None |}.

Section RouterWithRe.

Variable re_match_ignorecase : string -> string -> result bool.

(** The loop of [get_matching_rule]. *)
Fixpoint matching_rule_name (rs : list RoutingRule) (request : dict)
    (agent_type_arg : option string) (context_tokens : Z)
  : result (option string) :=
  match rs with
  | [] => Ok None
  | rule :: rest =>
      matched <-! matches re_match_ignorecase rule request agent_type_arg
                    context_tokens ;;
      if matched then Ok (Some (name rule))
      else matching_rule_name rest request agent_type_arg context_tokens
  end.

Definition get_matching_rule (self : Router) (request : dict)
    (agent_type_arg : option string) (context_tokens : Z)
  : result (option string) :=
  matching_rule_name (rules self) request agent_type_arg context_tokens.

(** The loop of [select_provider], and the [return] that follows it. *)
Fixpoint provider_of_match (rs : list RoutingRule) (default : string)
    (request : dict) (agent_type_arg : option string) (context_tokens : Z)
  : result string :=
  match rs with
  | [] => Ok default
  | rule :: rest =>
      matched <-! matches re_match_ignorecase rule request agent_type_arg
                    context_tokens ;;
      if matched then Ok (provider rule)
      else provider_of_match rest default request agent_type_arg
             context_tokens
  end.

Definition select_provider (self : Router) (request : dict)
    (agent_type_arg : option string) (context_tokens : Z) : result string :=
  provider_of_match (rules self) (default_provider self) request
    agent_type_arg context_tokens.

End RouterWithRe.

End Rules.

(** ** src/a2c/core/streaming.py *)

Module Streaming.

(** An event as [_sse_event] receives it: the event name and the data
    dict.  On the wire it is [event: <name>\ndata: <json.dumps(data)>\n\n]. *)
Definition event : Type := (string * json)%type.

Definition _sse_event (name : string) (data : dict) : event :=
  (name, JDict data).

Record _StreamingState : Type := mkState {
  message_id : string;
  model : string;
  _current_block_type : option string;
  _current_block_index : Z;
  _current_thinking_signature : json;
  has_tool_use : bool;
  input_tokens : Z;
  output_tokens : Z;
  has_input_tokens : bool;
  has_output_tokens : bool;
  finish_reason : option string }.

Definition init_state (message_id model : string) : _StreamingState :=
  mkState message_id model None (-1) JNull false 0 0 false false None.

Definition set_block (t : option string) (i : Z) (sig : json)
    (s : _StreamingState) : _StreamingState :=
  mkState (message_id s) (model s) t i sig (has_tool_use s) (input_tokens s)
    (output_tokens s) (has_input_tokens s) (has_output_tokens s)
    (finish_reason s).

Definition set_has_tool_use (s : _StreamingState) : _StreamingState :=
  mkState (message_id s) (model s) (_current_block_type s)
    (_current_block_index s) (_current_thinking_signature s) true
    (input_tokens s) (output_tokens s) (has_input_tokens s)
    (has_output_tokens s) (finish_reason s).

Definition set_input_tokens (n : Z) (s : _StreamingState) : _StreamingState :=
  mkState (message_id s) (model s) (_current_block_type s)
    (_current_block_index s) (_current_thinking_signature s) (has_tool_use s)
    n (output_tokens s) true (has_output_tokens s) (finish_reason s).

Definition set_output_tokens (n : Z) (s : _StreamingState) : _StreamingState :=
  mkState (message_id s) (model s) (_current_block_type s)
    (_current_block_index s) (_current_thinking_signature s) (has_tool_use s)
    (input_tokens s) n (has_input_tokens s) true (finish_reason s).

Definition set_finish_reason (r : string) (s : _StreamingState)
  : _StreamingState :=
  mkState (message_id s) (model s) (_current_block_type s)
    (_current_block_index s) (_current_thinking_signature s) (has_tool_use s)
    (input_tokens s) (output_tokens s) (has_input_tokens s)
    (has_output_tokens s) (Some r).

(** The generator's frame: [state], the closure variables the nested
    functions share, the [ready_output] of the current iteration, and what
    has been yielded so far. *)
Record Frame : Type := mkFrame {
  state : _StreamingState;
  message_start_sent : bool;
  pending_output : list event;
  thinking_text_buffer : string;
  ready_output : list event;
  yielded : list event }.

Definition with_state (f : _StreamingState -> _StreamingState) (fr : Frame)
  : Frame :=
  mkFrame (f (state fr)) (message_start_sent fr) (pending_output fr)
    (thinking_text_buffer fr) (ready_output fr) (yielded fr).

Definition with_sent (b : bool) (fr : Frame) : Frame :=
  mkFrame (state fr) b (pending_output fr) (thinking_text_buffer fr)
    (ready_output fr) (yielded fr).

Definition with_pending (p : list event) (fr : Frame) : Frame :=
  mkFrame (state fr) (message_start_sent fr) p (thinking_text_buffer fr)
    (ready_output fr) (yielded fr).

Definition with_buffer (b : string) (fr : Frame) : Frame :=
  mkFrame (state fr) (message_start_sent fr) (pending_output fr) b
    (ready_output fr) (yielded fr).

Definition with_ready (r : list event) (fr : Frame) : Frame :=
  mkFrame (state fr) (message_start_sent fr) (pending_output fr)
    (thinking_text_buffer fr) r (yielded fr).

Definition with_yielded (y : list event) (fr : Frame) : Frame :=
  mkFrame (state fr) (message_start_sent fr) (pending_output fr)
    (thinking_text_buffer fr) (ready_output fr) y.

(** Code that reads and writes the frame and may raise; the frame at the
    point of the exception is kept, the handler reads it. *)
Definition M (A : Type) : Type := Frame -> result A * Frame.

Definition ret {A} (a : A) : M A := fun fr => (Ok a, fr).

Definition bind {A B} (m : M A) (f : A -> M B) : M B :=
  fun fr =>
    match m fr with
    | (Ok a, fr') => f a fr'
    | (Raise e, fr') => (Raise e, fr')
    end.

Definition lift {A} (r : result A) : M A := fun fr => (r, fr).

Definition gets {A} (f : Frame -> A) : M A := fun fr => (Ok (f fr), fr).

Definition modify (f : Frame -> Frame) : M unit := fun fr => (Ok tt, f fr).

Notation "x <- m ;; k" := (bind m (fun x => k))
  (at level 61, m at next level, right associativity).
Notation "m ;; k" := (bind m (fun _ => k))
  (at level 61, right associativity).

Fixpoint for_each {A} (body : A -> M unit) (xs : list A) : M unit :=
  match xs with
  | [] => ret tt
  | x :: rest => body x ;; for_each body rest
  end.

(** *** the methods of [_StreamingState] *)

Definition _next_index : M Z :=
  modify (with_state (fun s =>
    set_block (_current_block_type s) (_current_block_index s + 1)
      (_current_thinking_signature s) s)) ;;
  gets (fun fr => _current_block_index (state fr)).

Definition content_block_stop (idx : Z) : event :=
  _sse_event "content_block_stop"
    [("type", JStr "content_block_stop"); ("index", JInt idx)].

Definition content_block_start (idx : Z) (block : dict) : event :=
  _sse_event "content_block_start"
    [("type", JStr "content_block_start"); ("index", JInt idx);
     ("content_block", JDict block)].

Definition content_block_delta (idx : Z) (delta : dict) : event :=
  _sse_event "content_block_delta"
    [("type", JStr "content_block_delta"); ("index", JInt idx);
     ("delta", JDict delta)].

Definition close_block_if_open : M (option event) :=
  s <- gets state ;;
  match _current_block_type s with
  | None => ret None
  | Some _ =>
      let event := content_block_stop (_current_block_index s) in
      modify (with_state (set_block None (_current_block_index s) JNull)) ;;
      ret (Some event)
  end.

Definition open_text_block : M event :=
  idx <- _next_index ;;
  modify (with_state (fun s =>
    set_block (Some "text") (_current_block_index s)
      (_current_thinking_signature s) s)) ;;
  ret (content_block_start idx [("type", JStr "text"); ("text", JStr "")]).

Definition open_thinking_block (signature : json) : M event :=
  idx <- _next_index ;;
  modify (with_state (fun s =>
    set_block (Some "thinking") (_current_block_index s) signature s)) ;;
  let block := [("type", JStr "thinking"); ("thinking", JStr "")] in
  let block :=
    if truthy signature then dict_set "signature" signature block
    else block in
  ret (content_block_start idx block).

(** *** helpers of the translator *)

Definition usage_fields : list string :=
  ["promptTokenCount"; "candidatesTokenCount"; "totalTokenCount"].

Definition usage_of (d : dict) : dict :=
  match py_or (dict_get_default "usageMetadata" (JDict []) d) (JDict []) with
  | JDict u => u
  | _ => []
  end.

Definition score (d : dict) : nat :=
  List.length
    (filter (fun f => match dict_get f d with
                      | Some JNull | None => false
                      | Some _ => true
                      end) usage_fields).

Definition pick_usage_metadata (response candidate : dict) : dict :=
  let response_usage := usage_of response in
  let candidate_usage := usage_of candidate in
  if (score response_usage <? score candidate_usage)%nat
  then candidate_usage else response_usage.

(** Modelled from the spec: [remove_nulls_for_tool_input] of
    [a2c/core/helpers.py], which is not among the sources.  "The arguments
    object is recursively walked and keys whose value is null are
    removed." *)
Fixpoint remove_nulls_for_tool_input (x : json) : json :=
  match x with
  | JDict d =>
      JDict
        ((fix walk (kvs : list (string * json)) : list (string * json) :=
            match kvs with
            | [] => []
            | (k, v) :: rest =>
                match v with
                | JNull => walk rest
                | _ => (k, remove_nulls_for_tool_input v) :: walk rest
                end
            end) d)
  | JList l => JList (map remove_nulls_for_tool_input l)
  | _ => x
  end.

(** [for x in v]: the elements of a list, the characters of a str, the
    keys of a dict; other values are not iterable. *)
Definition iterate (v : json) : result (list json) :=
  match v with
  | JList l => Ok l
  | JStr s => Ok (Converter.chars s)
  | JDict d => Ok (map (fun kv => JStr (fst kv)) d)
  | _ => Raise TypeError
  end.

(** [(candidates or [{}])[0]] *)
Definition first_candidate (candidates : json) : result json :=
  match py_or candidates (JList [JDict []]) with
  | JList (c :: _) => Ok c
  | JStr (String c _) => Ok (JStr (String c EmptyString))
  | JDict _ => Raise KeyError
  | _ => Raise TypeError
  end.

(** What the translator uses of a credential manager: the awaited call
    [record_api_call_result(credential_name, success, is_antigravity=...)],
    which returns or raises; what it returns is not read. *)
Record CredentialManager : Type := mkCredentialManager {
  record_api_call_result : string -> bool -> bool -> result unit }.

Section Translator.

(** The interpreter's and the libraries' functions: [json.loads] ([None]
    when it raises), [json.dumps(x, ensure_ascii=False, separators=(",",
    ":"))], [repr] of floats and containers, [int(s)] of a str ([None] when
    it raises), [str(e)] of an exception, and [uuid.uuid4().hex], a fresh
    value per call: the calls of one stream are told apart by the block
    index they follow. *)
Variable json_loads : string -> option json.
Variable json_dumps : json -> string.
Variable py_repr : json -> string.
Variable int_of_str : string -> option Z.
Variable exn_str : exn -> string.
Variable uuid4_hex : Z -> string.

(** The keyword arguments.  [credential_manager] is [None] or a manager,
    which is true as a condition. *)
Variable model_arg : string.
Variable message_id_arg : string.
Variable initial_input_tokens : Z.
Variable credential_manager : option CredentialManager.
Variable credential_name : option string.
Variable client_thinking_enabled : bool.
Variable thinking_to_text : bool.

Let str := py_str py_repr.

(** [int(x)] *)
Definition py_int (x : json) : result Z :=
  match x with
  | JInt z => Ok z
  | JBool b => Ok (if b then 1 else 0)%Z
  | JFloat f => int_of_float f
  | JStr s => match int_of_str s with Some z => Ok z | None => Raise ValueError end
  | _ => Raise TypeError
  end.

Definition initial_input_tokens_int : Z := Z.max 0 initial_input_tokens.

Definition enqueue (evt : event) : M unit :=
  modify (fun fr => with_pending (pending_output fr ++ [evt]) fr).

Definition ready_append (evt : event) : M unit :=
  modify (fun fr => with_ready (ready_output fr ++ [evt]) fr).

Definition flush_pending_ready : M unit :=
  modify (fun fr =>
    match pending_output fr with
    | [] => fr
    | pending => with_pending [] (with_ready (ready_output fr ++ pending) fr)
    end).

Definition message_start (tokens : Z) : event :=
  _sse_event "message_start"
    [("type", JStr "message_start");
     ("message",
      JDict [("id", JStr message_id_arg); ("type", JStr "message");
             ("role", JStr "assistant"); ("model", JStr model_arg);
             ("content", JList []); ("stop_reason", JNull);
             ("stop_sequence", JNull);
             ("usage", JDict [("input_tokens", JInt tokens);
                              ("output_tokens", JInt 0)])])].

Definition send_message_start (tokens : Z) : M unit :=
  sent <- gets message_start_sent ;;
  if sent then ret tt
  else
    modify (with_sent true) ;;
    ready_append (message_start tokens) ;;
    flush_pending_ready.

(** The statement the loop body repeats after building an event:
    [if message_start_sent: ready_output.append(evt) else: enqueue(evt)]. *)
Definition emit (evt : event) : M unit :=
  sent <- gets message_start_sent ;;
  if sent then ready_append evt else enqueue evt.

(** [stop_evt = state.close_block_if_open()] followed by the emission of
    [stop_evt] when there is one. *)
Definition close_and_emit : M unit :=
  stop_evt <- close_block_if_open ;;
  match stop_evt with
  | Some evt => emit evt
  | None => ret tt
  end.

Definition block_is (t : string) (fr : Frame) : bool :=
  match _current_block_type (state fr) with
  | Some t' => t' =? t
  | None => false
  end.

Definition wrap_thinking (buffer tail : string) : string :=
  ("<assistant_thinking>" ++ Converter.newline ++ buffer
   ++ "</assistant_thinking>" ++ tail)%string.

(** The capture of [usageMetadata]. *)
Definition capture_usage (response candidate : dict) : M unit :=
  let usage := pick_usage_metadata response candidate in
  (match dict_get "promptTokenCount" usage with
   | Some v =>
       n <- lift (py_int (py_or v (JInt 0))) ;;
       modify (with_state (set_input_tokens n))
   | None => ret tt
   end) ;;
  match dict_get "candidatesTokenCount" usage with
  | Some v =>
      n <- lift (py_int (py_or v (JInt 0))) ;;
      modify (with_state (set_output_tokens n))
  | None => ret tt
  end.

(** One pass of [for part in parts]. *)
Definition process_part (part : json) : M unit :=
  match part with
  | JDict p =>
      let signature := dict_get_default "thoughtSignature" JNull p in
      fr <- gets (fun fr => fr) ;;
      (if truthy signature && block_is "thinking" fr
          && negb (truthy (_current_thinking_signature (state fr)))
       then
         let idx := _current_block_index (state fr) in
         let evt :=
           content_block_delta idx
             [("type", JStr "signature_delta"); ("signature", signature)] in
         modify (with_state (fun s =>
           set_block (_current_block_type s) (_current_block_index s)
             (JStr (str signature)) s)) ;;
         emit evt
       else ret tt) ;;
      match dict_get "thought" p with
      | Some (JBool true) =>
          let thinking_text := dict_get_default "text" (JStr "") p in
          if negb client_thinking_enabled then
            if thinking_to_text && truthy thinking_text then
              match thinking_text with
              | JStr t =>
                  modify (fun fr =>
                    with_buffer (thinking_text_buffer fr ++ t)%string fr)
              | _ => lift (Raise TypeError)
              end
            else ret tt
          else
            is_thinking <- gets (block_is "thinking") ;;
            (if negb is_thinking then
               close_and_emit ;;
               let signature := dict_get_default "thoughtSignature" JNull p in
               evt <- open_thinking_block signature ;;
               emit evt
             else ret tt) ;;
            if truthy thinking_text then
              idx <- gets (fun fr => _current_block_index (state fr)) ;;
              emit (content_block_delta idx
                      [("type", JStr "thinking_delta");
                       ("thinking", thinking_text)])
            else ret tt
      | _ =>
          if dict_has "text" p then
            let text := dict_get_default "text" (JStr "") p in
            if match text with
               | JStr t => strip t =? ""
               | _ => false
               end
            then ret tt
            else
              is_text <- gets (block_is "text") ;;
              (if negb is_text then
                 close_and_emit ;;
                 evt <- open_text_block ;;
                 emit evt
               else ret tt) ;;
              buffer <- gets thinking_text_buffer ;;
              (if negb (buffer =? "") then
                 idx <- gets (fun fr => _current_block_index (state fr)) ;;
                 emit (content_block_delta idx
                         [("type", JStr "text_delta");
                          ("text",
                           JStr (wrap_thinking buffer
                                   (Converter.newline ++ Converter.newline)))]) ;;
                 modify (with_buffer "")
               else ret tt) ;;
              if truthy text then
                idx <- gets (fun fr => _current_block_index (state fr)) ;;
                emit (content_block_delta idx
                        [("type", JStr "text_delta"); ("text", text)])
              else ret tt
          else if dict_has "inlineData" p then
            close_and_emit ;;
            let inline :=
              py_or (dict_get_default "inlineData" (JDict []) p) (JDict []) in
            idx <- _next_index ;;
            media_type <- lift (py_get inline "mimeType" (JStr "image/png")) ;;
            data <- lift (py_get inline "data" (JStr "")) ;;
            let block :=
              [("type", JStr "image");
               ("source", JDict [("type", JStr "base64");
                                 ("media_type", media_type);
                                 ("data", data)])] in
            emit (content_block_start idx block) ;;
            emit (content_block_stop idx)
          else if dict_has "functionCall" p then
            close_and_emit ;;
            modify (with_state set_has_tool_use) ;;
            let fc :=
              py_or (dict_get_default "functionCall" (JDict []) p)
                (JDict []) in
            fc_id <- lift (py_get fc "id" JNull) ;;
            before <- gets (fun fr => _current_block_index (state fr)) ;;
            let tool_id :=
              py_or fc_id (JStr ("toolu_" ++ uuid4_hex before)%string) in
            fc_name <- lift (py_get fc "name" JNull) ;;
            let tool_name := py_or fc_name (JStr "") in
            fc_args <- lift (py_get fc "args" (JDict [])) ;;
            let tool_args :=
              remove_nulls_for_tool_input (py_or fc_args (JDict [])) in
            idx <- _next_index ;;
            let input_json := json_dumps tool_args in
            emit (content_block_start idx
                    [("type", JStr "tool_use"); ("id", tool_id);
                     ("name", tool_name); ("input", JDict [])]) ;;
            emit (content_block_delta idx
                    [("type", JStr "input_json_delta");
                     ("partial_json", JStr input_json)]) ;;
            emit (content_block_stop idx)
          else ret tt
      end
  | _ => ret tt
  end.

(** The body of the loop from [response = data.get(...)] to
    [finish_reason = candidate.get("finishReason")], whose value it
    returns. *)
Definition process_chunk (data : json) : M json :=
  response0 <- lift (py_get data "response" (JDict [])) ;;
  let response := py_or response0 (JDict []) in
  candidates <- lift (py_get response "candidates" (JList [])) ;;
  candidate0 <- lift (first_candidate candidates) ;;
  let candidate := py_or candidate0 (JDict []) in
  content0 <- lift (py_get candidate "content" (JDict [])) ;;
  parts0 <- lift (py_get (py_or content0 (JDict [])) "parts" (JList [])) ;;
  let parts := py_or parts0 (JList []) in
  (match response, candidate with
   | JDict r, JDict c => capture_usage r c
   | _, _ => ret tt
   end) ;;
  fr <- gets (fun fr => fr) ;;
  (if has_input_tokens (state fr) && negb (message_start_sent fr)
   then send_message_start (input_tokens (state fr))
   else ret tt) ;;
  items <- lift (iterate parts) ;;
  for_each process_part items ;;
  lift (py_get candidate "finishReason" JNull).

(** [for evt in ready_output: yield evt] *)
Definition yield_ready (fr : Frame) : Frame :=
  with_yielded (yielded fr ++ ready_output fr) fr.

(** [if not success_recorded and credential_manager and credential_name:
       await credential_manager.record_api_call_result(
           credential_name, True, is_antigravity=True)
       success_recorded = True]:
    [success_recorded] afterwards, or the exception of the call. *)
Definition record_success (success_recorded : bool) : result bool :=
  if success_recorded then Ok true
  else
    match credential_manager, Rules.set_str credential_name with
    | Some manager, Some name =>
        _ <-! record_api_call_result manager name true true ;;
        Ok true
    | _, _ => Ok false
    end.

(** [async for line in lines]: the frame when the loop ends, or the
    exception with the frame it left, and [success_recorded]. *)
Fixpoint read_lines (lines : list string) (success_recorded : bool)
    (fr : Frame) : (result unit * Frame) * bool :=
  match lines with
  | [] => ((Ok tt, fr), success_recorded)
  | line :: rest =>
      let fr := with_ready [] fr in
      if (line =? "") || negb (String.prefix "data: " line)
      then read_lines rest success_recorded fr
      else
        let raw := strip (drop 6 line) in
        if raw =? "[DONE]" then ((Ok tt, fr), success_recorded)
        else
          match record_success success_recorded with
          | Raise e => ((Raise e, fr), success_recorded)
          | Ok success_recorded =>
              match json_loads raw with
              | None => read_lines rest success_recorded fr
              | Some data =>
                  match process_chunk data fr with
                  | (Raise e, fr') => ((Raise e, fr'), success_recorded)
                  | (Ok finish_reason, fr') =>
                      let fr' := yield_ready fr' in
                      if truthy finish_reason
                      then ((Ok tt,
                             with_state
                               (set_finish_reason (str finish_reason)) fr'),
                            success_recorded)
                      else read_lines rest success_recorded fr'
                  end
              end
          end
  end.

(** The statement the epilogue repeats:
    [if message_start_sent: yield evt else: enqueue(evt)]. *)
Definition yield_or_enqueue (evt : event) : M unit :=
  sent <- gets message_start_sent ;;
  if sent then modify (fun fr => with_yielded (yielded fr ++ [evt]) fr)
  else enqueue evt.

Definition message_delta (stop_reason : string) (s : _StreamingState)
  : event :=
  _sse_event "message_delta"
    [("type", JStr "message_delta");
     ("delta", JDict [("stop_reason", JStr stop_reason);
                      ("stop_sequence", JNull)]);
     ("usage",
      JDict [("input_tokens",
              JInt (if has_input_tokens s then input_tokens s
                    else initial_input_tokens_int));
             ("output_tokens",
              JInt (if has_output_tokens s then output_tokens s else 0))])].

Definition message_stop : event :=
  _sse_event "message_stop" [("type", JStr "message_stop")].

(** What follows the loop inside the [try]. *)
Definition epilogue : M unit :=
  buffer <- gets thinking_text_buffer ;;
  (if negb (buffer =? "") then
     stop_evt <- close_block_if_open ;;
     (match stop_evt with
      | Some evt => yield_or_enqueue evt
      | None => ret tt
      end) ;;
     evt <- open_text_block ;;
     yield_or_enqueue evt ;;
     idx <- gets (fun fr => _current_block_index (state fr)) ;;
     yield_or_enqueue
       (content_block_delta idx
          [("type", JStr "text_delta");
           ("text", JStr (wrap_thinking buffer ""))])
   else ret tt) ;;
  stop_evt <- close_block_if_open ;;
  (match stop_evt with
   | Some evt => yield_or_enqueue evt
   | None => ret tt
   end) ;;
  sent <- gets message_start_sent ;;
  (if negb sent then
     modify (with_ready []) ;;
     send_message_start initial_input_tokens_int ;;
     modify yield_ready
   else ret tt) ;;
  s <- gets state ;;
  let stop_reason := if has_tool_use s then "tool_use" else "end_turn" in
  let stop_reason :=
    if match finish_reason s with
       | Some r => r =? "MAX_TOKENS"
       | None => false
       end && negb (has_tool_use s)
    then "max_tokens" else stop_reason in
  modify (fun fr =>
    with_yielded (yielded fr ++ [message_delta stop_reason s; message_stop])
      fr).

Definition error_event (e : exn) : event :=
  _sse_event "error"
    [("type", JStr "error");
     ("error", JDict [("type", JStr "api_error");
                      ("message", JStr (exn_str e))])].

(** The [except Exception] handler. *)
Definition on_exception (e : exn) (fr : Frame) : list event :=
  yielded fr
  ++ (if message_start_sent fr then []
      else [message_start initial_input_tokens_int])
  ++ [error_event e].

Definition init_frame : Frame :=
  mkFrame (init_state message_id_arg model_arg) false [] "" [] [].

(** The events the generator yields, in order, and how it ended: [None]
    when it ran to its end, the exception it caught otherwise. *)
Definition antigravity_sse_to_anthropic_sse (lines : list string)
  : list event * option exn :=
  match fst (read_lines lines false init_frame) with
  | (Raise e, fr) => (on_exception e fr, Some e)
  | (Ok _, fr) =>
      match epilogue fr with
      | (Raise e, fr') => (on_exception e fr', Some e)
      | (Ok _, fr') => (yielded fr', None)
      end
  end.

End Translator.

End Streaming.

(** ** src/a2c/core/token_estimator.py *)

Module TokenEstimator.

(** The two counters of [estimate_input_tokens] that [count_str] updates:
    [total_chars] and [image_count]. *)
Record counters : Type := mkCounters {
  total_chars : Z;
  image_count : Z }.

(** The nested function [count_str]: the counters after the call. *)
Fixpoint count_str (obj : json) (c : counters) : counters :=
  match obj with
  | JStr s => mkCounters (total_chars c + Z.of_nat (String.length s))
                (image_count c)
  | JDict d =>
      let c :=
        if eq_str (dict_get_default "type" JNull d) "image"
           || dict_has "inlineData" d
        then mkCounters (total_chars c) (image_count c + 1)
        else c in
      (fix values (kvs : list (string * json)) (c : counters) : counters :=
         match kvs with
         | [] => c
         | kv :: rest => values rest (count_str (snd kv) c)
         end) d c
  | JList l =>
      (fix items (l : list json) (c : counters) : counters :=
         match l with
         | [] => c
         | item :: rest => items rest (count_str item c)
         end) l c
  | _ => c
  end.

Definition estimate_input_tokens (payload : dict) : Z :=
  let c := count_str (JDict payload) (mkCounters 0 0) in
  Z.max 1 (total_chars c / 4 + image_count c * 300).

End TokenEstimator.

(** ** What the specification says, in its own words

    The definitions below follow the specification or name what a
    statement further down talks about; none of them is code of the
    repository. *)

Module Spec.

(** Each name once, in the order of first appearance. *)
Fixpoint dedup (xs : list string) : list string :=
  match xs with
  | [] => []
  | x :: rest => x :: filter (fun y => negb (y =? x)) (dedup rest)
  end.

(** The front of a failover chain: the primary when available, then the
    fallback when it is set, available and not the primary. *)
Definition chain_head (primary : string) (fallback : option string)
    (available : list string) : list string :=
  (if mem primary available then [primary] else [])
  ++ match fallback with
     | Some f =>
         if negb (f =? "") && mem f available && negb (f =? primary)
         then [f] else []
     | None => []
     end.

(** The names [map_claude_model_to_gemini] can return, the target of
    ["claude-haiku-4"] apart. *)
Definition stable_targets : list string :=
  ["claude-sonnet-4-5"; "claude-opus-4-5-thinking"; "gemini-2.5-flash";
   "gemini-3-pro-high"] ++ Converter.supported_models.

(** Section 4.B: "want = (thinking is absent) -> false; (null) -> false;
    (bool) -> bool; (dict of type=enabled) -> true; else -> false". *)
Definition want (payload : dict) : bool :=
  match dict_get "thinking" payload with
  | None => false
  | Some JNull => false
  | Some (JBool b) => b
  | Some (JDict d) => eq_str (dict_get_default "type" JNull d) "enabled"
  | Some _ => false
  end.

(** The requests for which the code itself leaves thinking off: the field
    is absent, null, [false], or a dict whose [type] is given and is not
    ["enabled"]. *)
Definition thinking_off (payload : dict) : bool :=
  match dict_get "thinking" payload with
  | None | Some JNull | Some (JBool false) => true
  | Some (JDict d) =>
      match dict_get "type" d with
      | Some t => negb (eq_str t "enabled")
      | None => false
      end
  | Some _ => false
  end.

(** [messages] is a list, or absent. *)
Definition messages_listed (payload : dict) : bool :=
  match dict_get "messages" payload with
  | None | Some (JList _) => true
  | Some _ => false
  end.

(** An assistant message whose content is a non-empty list: the messages
    the history check of [build_generation_config] stops at. *)
Definition qualifies (msg : json) : bool :=
  match msg with
  | JDict m =>
      eq_str (dict_get_default "role" JNull m) "assistant"
      && match dict_get_default "content" JNull m with
         | JList (_ :: _) => true
         | _ => false
         end
  | _ => false
  end.

(** A block [type] that is given, can be hashed, and is neither
    ["thinking"] nor ["redacted_thinking"]. *)
Definition other_block_type (t : json) : bool :=
  match t with
  | JStr s => negb ((s =? "thinking") || (s =? "redacted_thinking"))
  | JBool _ | JInt _ | JFloat _ => true
  | JNull | JList _ | JDict _ => false
  end.

(** The [functionResponse] part of a [tool_result] block [it] whose output
    text is [output]. *)
Definition function_response (it : dict) (output : string) : json :=
  JDict [("functionResponse",
          JDict [("id", dict_get_default "tool_use_id" JNull it);
                 ("name", dict_get_default "name" (JStr "") it);
                 ("response", JDict [("output", JStr output)])])].

(** "The text of the first text part of the block's content when the
    content is a sequence containing a text part". *)
Fixpoint first_text_part (content : list json) : option json :=
  match content with
  | [] => None
  | JDict d :: rest =>
      if eq_str (dict_get_default "type" JNull d) "text"
      then Some (dict_get_default "text" JNull d)
      else first_text_part rest
  | _ :: rest => first_text_part rest
  end.

(** A rule that asks for thinking and nothing else. *)
Definition thinking_rule : Rules.RoutingRule :=
  {| Rules.name := "thinking-requests";
     Rules.provider := "antigravity";
     Rules.priority := 100;
     Rules.agent_type := None;
     Rules.model_pattern := None;
     Rules.thinking_enabled := Some true;
     Rules.min_context_tokens := None;
     Rules.max_context_tokens := None;
     Rules.fallback_provider := None |}.

(** What the code writes as the output of a [tool_result] block. *)
Definition output_as_coded (py_repr : json -> string)
    (content : option json) (output : string) : Prop :=
  let str := py_str py_repr in
  match content with
  | None | Some JNull | Some (JList []) => output = ""
  | Some (JList (JDict first :: _)) =>
      if eq_str (dict_get_default "type" JNull first) "text"
      then output = str (dict_get_default "text" (JStr "") first)
      else output = str (JDict first)
  | Some (JList (first :: _)) => output = str first
  | Some content => output = str content
  end.

(** A tool result whose content starts with an image and goes on with a
    text part. *)
Definition image_then_text : list json :=
  [JDict [("type", JStr "image");
          ("source", JDict [("type", JStr "base64");
                            ("media_type", JStr "image/png");
                            ("data", JStr "AAAA")])];
   JDict [("type", JStr "text"); ("text", JStr "done")]].

(** A user message that returns the result of one tool call. *)
Definition tool_result_block : dict :=
  [("type", JStr "tool_result"); ("tool_use_id", JStr "t1");
   ("content", JList [JDict [("type", JStr "text"); ("text", JStr "42")]])].

Definition tool_result_message : dict :=
  [("role", JStr "user"); ("content", JList [JDict tool_result_block])].

(** A request in which thinking is wanted and the only
    assistant message has a plain string as content. *)
Definition string_history : dict :=
  [("thinking", JBool true);
   ("messages",
    JList [JDict [("role", JStr "user"); ("content", JStr "hello")];
           JDict [("role", JStr "assistant"); ("content", JStr "hi")]])].

(** A history whose last assistant message starts with a text block. *)
Definition text_history : dict :=
  [("thinking", JDict [("type", JStr "enabled"); ("budget_tokens", JInt 2048)]);
   ("messages",
    JList [JDict [("role", JStr "user"); ("content", JStr "hello")];
           JDict [("role", JStr "assistant");
                  ("content", JList [JDict [("type", JStr "text");
                                            ("text", JStr "hi")]])];
           JDict [("role", JStr "user"); ("content", JStr "more")]])].

(** No name twice. *)
Fixpoint distinct (xs : list string) : bool :=
  match xs with
  | [] => true
  | x :: rest => negb (mem x rest) && distinct rest
  end.

(** The shape of what [clean_json_schema] returns: a dict with distinct
    keys, none of them a dropped one, whose [type] is no list, which has a
    [type] when it has [properties], and whose dict values, and dict
    elements of list values, have that shape again. *)
Fixpoint is_clean (j : json) : bool :=
  match j with
  | JDict d =>
      distinct (map fst d)
      && (negb (dict_has "properties" d) || dict_has "type" d)
      && forallb
           (fun kv =>
              negb (Converter.key_dropped (fst kv))
              && negb ((fst kv =? "type") && is_list (snd kv))
              && match snd kv with
                 | JDict _ => is_clean (snd kv)
                 | JList l =>
                     forallb (fun item =>
                                if is_dict item then is_clean item else true)
                       l
                 | _ => true
                 end) d
  | _ => true
  end.

(** The schema of scenario 5 and what the specification expects for it. *)
Definition scenario5_schema : json :=
  JDict [("type", JStr "object");
         ("properties",
          JDict [("n", JDict [("type", JList [JStr "string"; JStr "null"]);
                              ("minLength", JInt 1);
                              ("description", JStr "name")])]);
         ("additionalProperties", JBool false);
         ("$ref", JStr "#/x")].

Definition scenario5_cleaned : json :=
  JDict [("type", JStr "object");
         ("properties",
          JDict [("n", JDict [("type", JStr "string");
                              ("nullable", JBool true);
                              ("description", JStr "name (minLength: 1)")])])].

(** *** The output grammar of the streaming translator (section 4.D) *)

(** What an event is for the grammar: its name and, for the events of a
    content block, the index it carries. *)
Inductive kind : Type :=
| KMessageStart
| KStart (i : Z)
| KDelta (i : Z)
| KStop (i : Z)
| KMessageDelta
| KMessageStop
| KError
| KOther.

Definition index_of (data : json) : Z :=
  match data with
  | JDict d => match dict_get "index" d with Some (JInt i) => i | _ => -1 end
  | _ => -1
  end.

Definition kind_of (e : Streaming.event) : kind :=
  let '(name, data) := e in
  if name =? "message_start" then KMessageStart
  else if name =? "content_block_start" then KStart (index_of data)
  else if name =? "content_block_delta" then KDelta (index_of data)
  else if name =? "content_block_stop" then KStop (index_of data)
  else if name =? "message_delta" then KMessageDelta
  else if name =? "message_stop" then KMessageStop
  else if name =? "error" then KError
  else KOther.

(** One content block of index [i]: its start, its deltas, its stop. *)
Inductive block (i : Z) : list kind -> Prop :=
| block_intro (deltas : list kind) :
    Forall (fun k => k = KDelta i) deltas ->
    block i (KStart i :: deltas ++ [KStop i]).

(** Complete blocks of indices [n], [n + 1], ... one after the other. *)
Inductive blocks : Z -> list kind -> Prop :=
| blocks_nil (n : Z) : blocks n []
| blocks_cons (n : Z) (b rest : list kind) :
    block n b -> blocks (n + 1) rest -> blocks n (b ++ rest).

(** "message_start -> (content_block_start, content_block_delta*,
    content_block_stop)* -> message_delta -> message_stop", the indices
    dense from 0. *)
Definition valid_stream (ks : list kind) : Prop :=
  exists body,
    blocks 0 body /\ ks = KMessageStart :: body ++ [KMessageDelta; KMessageStop].

(** [usage.input_tokens] of the first [message_start] of a stream, and of
    its last [message_delta]. *)
Definition usage_input_tokens (usage_holder : json) : option Z :=
  match usage_holder with
  | JDict d =>
      match dict_get "usage" d with
      | Some (JDict u) =>
          match dict_get "input_tokens" u with
          | Some (JInt n) => Some n
          | _ => None
          end
      | _ => None
      end
  | _ => None
  end.

Definition message_start_input_tokens (events : list Streaming.event)
  : option Z :=
  match find (fun e => fst e =? "message_start") events with
  | Some (_, JDict d) =>
      match dict_get "message" d with
      | Some m => usage_input_tokens m
      | None => None
      end
  | _ => None
  end.


(** The [promptTokenCount] a parsed chunk reports: the value under that
    key in the usage metadata the translator picks for it. *)
Definition reported_prompt_tokens (data : json) : option json :=
  match data with
  | JDict d =>
      match py_or (dict_get_default "response" (JDict []) d) (JDict []) with
      | JDict response =>
          match Streaming.first_candidate
                  (dict_get_default "candidates" (JList []) response) with
          | Ok c0 =>
              match py_or c0 (JDict []) with
              | JDict candidate =>
                  dict_get "promptTokenCount"
                    (Streaming.pick_usage_metadata response candidate)
              | _ => None
              end
          | Raise _ => None
          end
      | _ => None
      end
  | _ => None
  end.

(** A line the loop passes over: it is empty or does not start with
    ["data: "], or its payload is neither ["[DONE]"] nor JSON. *)
Definition ignored_line (json_loads : string -> option json) (line : string)
  : bool :=
  (line =? "") || negb (String.prefix "data: " line)
  || (negb (strip (drop 6 line) =? "[DONE]")
      && match json_loads (strip (drop 6 line)) with
         | None => true
         | Some _ => false
         end).

(** A line with a chunk: it starts with ["data: "] and its payload, which
    is not ["[DONE]"], is the JSON [data]. *)
Definition chunk_line (json_loads : string -> option json) (line : string)
    (data : json) : Prop :=
  String.prefix "data: " line = true
  /\ (strip (drop 6 line) =? "[DONE]") = false
  /\ json_loads (strip (drop 6 line)) = Some data.

(** The record call of the credential manager returns when the loop makes
    it: there is no manager, the credential name is [None] or empty, or
    the call returns. *)
Definition records_quietly
    (credential_manager : option Streaming.CredentialManager)
    (credential_name : option string) : Prop :=
  match credential_manager, Rules.set_str credential_name with
  | Some manager, Some name =>
      Streaming.record_api_call_result manager name true true = Ok tt
  | _, _ => True
  end.

(** *** Example streams *)

Definition quote : string := String (ascii_of_nat 34) EmptyString.

(** The compact JSON text of a value that holds no float and no character
    that needs an escape. *)
Fixpoint json_text (j : json) : string :=
  match j with
  | JNull => "null"
  | JBool true => "true"
  | JBool false => "false"
  | JInt z => str_of_int z
  | JFloat _ => "0.0"
  | JStr s => (quote ++ s ++ quote)%string
  | JList l => ("[" ++ join "," (map json_text l) ++ "]")%string
  | JDict d =>
      ("{"
       ++ join ","
            (map (fun kv =>
                    (quote ++ fst kv ++ quote ++ ":" ++ json_text (snd kv))%string)
               d)
       ++ "}")%string
  end.

(** [json.loads] on the payloads of an example: the values whose text the
    example sends are parsed back, anything else is no JSON. *)
Definition loads_of (values : list json) (raw : string) : option json :=
  find (fun j => json_text j =? raw) values.

Definition data_line (chunk : json) : string :=
  ("data: " ++ json_text chunk)%string.

Definition text_part (t : string) : json := JDict [("text", JStr t)].

Definition chunk (usage : list (string * json)) (parts : list json)
    (finish : list (string * json)) : json :=
  JDict [("response",
          JDict (usage
                 ++ [("candidates",
                      JList [JDict (("content", JDict [("parts", JList parts)])
                                    :: finish)])]))].

Definition prompt_tokens (n : Z) : list (string * json) :=
  [("usageMetadata", JDict [("promptTokenCount", JInt n)])].

Definition finish_stop : list (string * json) :=
  [("finishReason", JStr "STOP")].

(** Scenario 2: text, no thinking. *)
Definition scenario2_chunks : list json :=
  [chunk (prompt_tokens 5) [text_part "Hi"] [];
   chunk [] [text_part " there"] finish_stop].

(** Scenario 3: thinking with a signature, then the answer. *)
Definition scenario3_chunks : list json :=
  [chunk (prompt_tokens 10)
     [JDict [("text", JStr "pondering"); ("thought", JBool true);
             ("thoughtSignature", JStr "SIG1")]] [];
   chunk [] [text_part "answer"] finish_stop].

(** Scenario 4: a tool call with a null argument. *)
Definition scenario4_chunks : list json :=
  [chunk (prompt_tokens 3)
     [JDict [("functionCall",
              JDict [("id", JStr "t1"); ("name", JStr "search");
                     ("args", JDict [("q", JStr "x"); ("y", JNull)])])]]
     finish_stop].



(** The translator on the lines of an example, with the arguments their
    defaults: no credential manager, thinking on, an estimate of 0. *)
Definition run_example (chunks : list json) (extra_lines : list string)
  : list Streaming.event * option exn :=
  Streaming.antigravity_sse_to_anthropic_sse
    (loads_of chunks) json_text (fun _ => "") (fun _ => None) (fun _ => "")
    (fun _ => "0") "claude-sonnet-4-5" "msg_1" 0 None None true false
    (extra_lines ++ map data_line chunks).

(** A credential manager whose record call returns, and one whose record
    call raises. *)
Definition quiet_manager : Streaming.CredentialManager :=
  Streaming.mkCredentialManager (fun _ _ _ => Ok tt).

Definition failing_manager : Streaming.CredentialManager :=
  Streaming.mkCredentialManager (fun _ _ _ => Raise ValueError).

(** The translator with a credential manager and the credential name
    ["cred-1"], the other arguments as in [run_example]. *)
Definition run_with_manager (manager : Streaming.CredentialManager)
    (chunks : list json) (lines : list string)
  : list Streaming.event * option exn :=
  Streaming.antigravity_sse_to_anthropic_sse
    (loads_of chunks) json_text (fun _ => "") (fun _ => None) (fun _ => "")
    (fun _ => "0") "claude-sonnet-4-5" "msg_1" 0 (Some manager)
    (Some "cred-1") true false lines.

(** *** Reading a stream of block events *)

(** The reader of block events: the index of the last block started and
    whether that block is still open. *)
Inductive step : Z * bool -> kind -> Z * bool -> Prop :=
| step_start (i : Z) : step (i, false) (KStart (i + 1)) (i + 1, true)
| step_delta (i : Z) : step (i, true) (KDelta i) (i, true)
| step_stop (i : Z) : step (i, true) (KStop i) (i, false).

Inductive steps : Z * bool -> list kind -> Z * bool -> Prop :=
| steps_nil (c : Z * bool) : steps c [] c
| steps_cons (c c' c'' : Z * bool) (k : kind) (ks : list kind) :
    step c k c' -> steps c' ks c'' -> steps c (k :: ks) c''.

(** Where the translator stands: its block index, and whether a block is
    open. *)
Definition cur (fr : Streaming.Frame) : Z * bool :=
  (Streaming._current_block_index (Streaming.state fr),
   match Streaming._current_block_type (Streaming.state fr) with
   | Some _ => true
   | None => false
   end).

(** [fr'] is [fr] after the events [evs] were handed on, to
    [ready_output] once [message_start] was sent and to [pending_output]
    before; nothing was yielded and the token counts are as they were. *)
Definition appends (fr fr' : Streaming.Frame) (evs : list Streaming.event)
  : Prop :=
  Streaming.message_start_sent fr' = Streaming.message_start_sent fr
  /\ Streaming.yielded fr' = Streaming.yielded fr
  /\ Streaming.ready_output fr'
     = (if Streaming.message_start_sent fr
        then Streaming.ready_output fr ++ evs else Streaming.ready_output fr)
  /\ Streaming.pending_output fr'
     = (if Streaming.message_start_sent fr
        then Streaming.pending_output fr
        else Streaming.pending_output fr ++ evs)
  /\ Streaming.has_input_tokens (Streaming.state fr')
     = Streaming.has_input_tokens (Streaming.state fr)
  /\ Streaming.input_tokens (Streaming.state fr')
     = Streaming.input_tokens (Streaming.state fr).

(** From a frame with [P], [m] raises or hands on block events that the
    reader accepts from where the translator stood to where it stands
    afterwards, and ends with [Q]. *)
Definition writes {A} (P : Streaming.Frame -> Prop) (m : Streaming.M A)
    (Q : A -> Streaming.Frame -> Prop) : Prop :=
  forall fr, P fr ->
    match m fr with
    | (Ok a, fr') =>
        (exists evs,
           appends fr fr' evs
           /\ steps (cur fr) (map kind_of evs) (cur fr'))
        /\ Q a fr'
    | (Raise _, _) => True
    end.

Definition opened (fr : Streaming.Frame) : Prop := snd (cur fr) = true.
Definition closed (fr : Streaming.Frame) : Prop := snd (cur fr) = false.

(** What holds of the frame between two parts: every token count upstream
    reported has [R]; before [message_start] nothing is yielded or ready
    and the pending events are block events read from the start; after it
    nothing is pending and what was yielded or is ready is [message_start]
    followed by such block events.  [linked] adds that [message_start] is
    sent exactly when a token count was reported. *)
Definition frame_ok (message_start : Z -> Streaming.event) (R : Z -> Prop)
    (linked : bool) (fr : Streaming.Frame) : Prop :=
  (if linked
   then Streaming.has_input_tokens (Streaming.state fr)
        = Streaming.message_start_sent fr
   else Streaming.message_start_sent fr = true ->
        Streaming.has_input_tokens (Streaming.state fr) = true)
  /\ (Streaming.has_input_tokens (Streaming.state fr) = true ->
      R (Streaming.input_tokens (Streaming.state fr)))
  /\ if Streaming.message_start_sent fr
     then Streaming.pending_output fr = []
          /\ exists n body,
               R n
               /\ Streaming.yielded fr ++ Streaming.ready_output fr
                  = message_start n :: body
               /\ steps (-1, false) (map kind_of body) (cur fr)
     else Streaming.yielded fr = []
          /\ Streaming.ready_output fr = []
          /\ steps (-1, false) (map kind_of (Streaming.pending_output fr))
               (cur fr).

(** From a frame with [P], [m] raises or ends with [Q]. *)
Definition hoare {A} (P : Streaming.Frame -> Prop) (m : Streaming.M A)
    (Q : A -> Streaming.Frame -> Prop) : Prop :=
  forall fr, P fr ->
    match m fr with
    | (Ok a, fr') => Q a fr'
    | (Raise _, _) => True
    end.

End Spec.

(** ** Further notions

    What the statements on the rest of the code talk about, and the
    requests their examples use; none of it is code of the repository. *)

Module Notions.

(** No character of [s] is white space. *)
Fixpoint no_space (s : string) : bool :=
  match s with
  | EmptyString => true
  | String c s' => negb (is_space c) && no_space s'
  end.

(** A tool [convert_tools] keeps: a dict with a name that is not empty. *)
Definition named_tool (tool : json) : bool :=
  match tool with
  | JDict t => truthy (dict_get_default "name" JNull t)
  | _ => false
  end.

(** The declaration of a tool that is a dict, its schema cleaned by
    [clean]. *)
Definition declaration_of (clean : json -> json) (tool : json) : json :=
  match tool with
  | JDict t =>
      Converter.function_declarations
        (dict_get_default "name" JNull t)
        (dict_get_default "description" (JStr "") t)
        (clean (py_or (dict_get_default "input_schema" (JDict []) t)
                  (JDict [])))
  | _ => JNull
  end.

(** A part [{"text": s}] whose text is not blank. *)
Definition text_part_with_text (part : json) : Prop :=
  exists s, part = JDict [("text", JStr s)] /\ strip s <> "".

(** The parts of the messages of a [contents] list. *)
Definition parts_in (contents : list json) : list json :=
  flat_map
    (fun content =>
       match content with
       | JDict c =>
           match dict_get "parts" c with
           | Some (JList parts) => parts
           | _ => []
           end
       | _ => []
       end) contents.

(** A part marked [thought] is there because thinking is included, and
    carries a signature that is not empty. *)
Definition signed_thought (include_thinking : bool) (part : json) : Prop :=
  Converter.has_key "thought" part = true ->
  include_thinking = true
  /\ exists signature,
       match part with
       | JDict p => dict_get "thoughtSignature" p
       | _ => None
       end = Some signature
       /\ truthy signature = true.

(** *** Tool parts *)

Definition is_response (part : json) : bool :=
  Converter.has_key "functionResponse" part.

Definition is_call (part : json) : bool :=
  negb (is_response part) && Converter.has_key "functionCall" part.

Definition tool_part (part : json) : bool :=
  is_response part || Converter.has_key "functionCall" part.

(** [part] is a [functionResponse] whose id is not empty and reads
    [key]. *)
Definition answers (str : json -> string) (key : string) (part : json)
  : bool :=
  is_response part
  && match Converter.tool_id_of "functionResponse" part with
     | Ok tool_id => truthy tool_id && (str tool_id =? key)
     | Raise _ => false
     end.

(** The last part of [parts] that answers [key]. *)
Fixpoint result_for (str : json -> string) (key : string)
    (parts : list json) : option json :=
  match parts with
  | [] => None
  | part :: rest =>
      match result_for str key rest with
      | Some r => Some r
      | None => if answers str key part then Some part else None
      end
  end.

(** The parts of a message with its role, and those of all the messages
    of [contents], in order. *)
Definition role_and_parts (msg : json) : list (json * json) :=
  match py_get msg "role" JNull with
  | Ok role =>
      match Converter.parts_of msg with
      | Ok parts => map (fun part => (role, part)) parts
      | Raise _ => []
      end
  | Raise _ => []
  end.

Definition flattened (contents : list json) : list (json * json) :=
  flat_map role_and_parts contents.

Definition parts_read (contents : list json) : list json :=
  map snd (flattened contents).

(** What [reorganize_tool_messages] puts out for one part, given all the
    parts it read: nothing for a [functionResponse]; a [functionCall] in a
    [model] message, followed by the result for its id when there is one;
    any other part in a message with its role. *)
Inductive placed (str : json -> string) (all : list json)
  : json * json -> list json -> Prop :=
| placed_response (role part : json) :
    is_response part = true ->
    placed str all (role, part) []
| placed_call (role part tool_id : json) :
    is_call part = true ->
    Converter.tool_id_of "functionCall" part = Ok tool_id ->
    tool_id = JNull \/ result_for str (str tool_id) all = None ->
    placed str all (role, part)
      [Converter.single_part_message (JStr "model") part]
| placed_call_and_result (role part tool_id tool_result : json) :
    is_call part = true ->
    Converter.tool_id_of "functionCall" part = Ok tool_id ->
    tool_id <> JNull ->
    result_for str (str tool_id) all = Some tool_result ->
    placed str all (role, part)
      [Converter.single_part_message (JStr "model") part;
       Converter.single_part_message (JStr "user") tool_result]
| placed_other (role part : json) :
    tool_part part = false ->
    placed str all (role, part) [Converter.single_part_message role part].

(** A message that holds a tool part. *)
Definition tool_message (msg : json) : bool :=
  existsb tool_part (parts_in [msg]).

(** *** Routing *)

(** No rule is followed by one of higher priority. *)
Fixpoint by_falling_priority (rs : list Rules.RoutingRule) : bool :=
  match rs with
  | [] => true
  | r :: rest =>
      forallb (fun r' => (Rules.priority r' <=? Rules.priority r)%Z) rest
      && by_falling_priority rest
  end.

(** The value of [agent_type or "default"]. *)
Definition given_agent_type (agent_type_arg : option string) : string :=
  match Rules.set_str agent_type_arg with
  | Some a => a
  | None => "default"
  end.

(** The decisions of the default router, one after the other. *)
Definition default_route (re_match_ignorecase : string -> string -> result bool)
    (settings : Rules.RoutingSettings) (request : dict)
    (agent_type_arg : option string) (context_tokens : Z) : result string :=
  if Rules.is_thinking request then Ok (Rules.think_provider settings)
  else if (Rules.long_context_threshold settings <=? context_tokens)%Z
  then Ok (Rules.long_context_provider settings)
  else if given_agent_type agent_type_arg =? "websearch"
  then Ok (Rules.websearch_provider settings)
  else if given_agent_type agent_type_arg =? "background"
  then Ok (Rules.background_provider settings)
  else if given_agent_type agent_type_arg =? "think"
  then Ok (Rules.think_provider settings)
  else
    match dict_get_default "model" (JStr "") request with
    | JStr model =>
        opus <-! re_match_ignorecase ".*opus.*" model ;;
        Ok (if opus then "antigravity"
            else Rules.settings_default_provider settings)
    | _ => Raise TypeError
    end.

(** *** Counting text *)

(** The characters of the strings held by a value, keys apart, and the
    dicts it holds that are images. *)
Fixpoint text_length (j : json) : Z :=
  match j with
  | JStr s => Z.of_nat (String.length s)
  | JList l => fold_right (fun item n => text_length item + n)%Z 0%Z l
  | JDict d => fold_right (fun kv n => text_length (snd kv) + n)%Z 0%Z d
  | _ => 0%Z
  end.

Definition is_image (d : dict) : bool :=
  eq_str (dict_get_default "type" JNull d) "image" || dict_has "inlineData" d.

Fixpoint images_in (j : json) : Z :=
  match j with
  | JList l => fold_right (fun item n => images_in item + n)%Z 0%Z l
  | JDict d =>
      ((if is_image d then 1 else 0)
       + fold_right (fun kv n => images_in (snd kv) + n) 0 d)%Z
  | _ => 0%Z
  end.

(** *** Example requests *)

Definition budget_request : dict :=
  [("max_tokens", JInt 500);
   ("thinking", JDict [("type", JStr "enabled");
                       ("budget_tokens", JInt 2000)])].

Definition two_tools : list json :=
  [JDict [("name", JStr "search");
          ("input_schema",
           JDict [("type", JStr "object"); ("title", JStr "Search")])];
   JDict [("description", JStr "no name")]].

Definition thinking_history : list json :=
  [JDict [("role", JStr "user"); ("content", JStr "hello")];
   JDict [("role", JStr "assistant");
          ("content",
           JList [JDict [("type", JStr "thinking");
                         ("thinking", JStr "hm");
                         ("signature", JStr "SIG")];
                  JDict [("type", JStr "thinking");
                         ("thinking", JStr "unsigned")];
                  JDict [("type", JStr "text"); ("text", JStr "hi")]])]].

(** A conversation with two tool calls: the results come in one later
    message, in the other order, with a result that no call asks for. *)
Definition call_part (id : string) : json :=
  JDict [("functionCall", JDict [("id", JStr id); ("name", JStr "f")])].

Definition result_part (id output : string) : json :=
  JDict [("functionResponse",
          JDict [("id", JStr id); ("name", JStr "f");
                 ("response", JDict [("output", JStr output)])])].

Definition tool_conversation : list json :=
  [JDict [("role", JStr "user");
          ("parts", JList [JDict [("text", JStr "go")]])];
   JDict [("role", JStr "model");
          ("parts", JList [call_part "a"; call_part "b"])];
   JDict [("role", JStr "user");
          ("parts", JList [result_part "b" "2"; result_part "z" "0";
                           result_part "a" "1"])]].

Definition tool_conversation_reorganized : list json :=
  [Converter.single_part_message (JStr "user") (JDict [("text", JStr "go")]);
   Converter.single_part_message (JStr "model") (call_part "a");
   Converter.single_part_message (JStr "user") (result_part "a" "1");
   Converter.single_part_message (JStr "model") (call_part "b");
   Converter.single_part_message (JStr "user") (result_part "b" "2")].

(** A request with thinking on whose history starts the last assistant
    turn with a signed thinking block. *)
Definition thinking_request : dict :=
  [("model", JStr "claude-opus-4-5"); ("max_tokens", JInt 4096);
   ("thinking", JBool true); ("messages", JList thinking_history)].

Definition example_settings : Rules.RoutingSettings :=
  {| Rules.long_context_threshold := 100000;
     Rules.settings_default_provider := "anthropic";
     Rules.background_provider := "antigravity";
     Rules.think_provider := "antigravity";
     Rules.long_context_provider := "gemini";
     Rules.websearch_provider := "gemini" |}.

(** *** Streams *)

(** The [finishReason] of the first candidate of a parsed chunk, read the
    way the translator reads it. *)
Definition finish_reason_of (data : json) : option json :=
  match data with
  | JDict d =>
      match py_or (dict_get_default "response" (JDict []) d) (JDict []) with
      | JDict response =>
          match Streaming.first_candidate
                  (dict_get_default "candidates" (JList []) response) with
          | Ok c0 =>
              match py_or c0 (JDict []) with
              | JDict candidate =>
                  Some (dict_get_default "finishReason" JNull candidate)
              | _ => None
              end
          | Raise _ => None
          end
      | _ => None
      end
  | _ => None
  end.

(** Code that keeps [K] of the frame, whether it returns or raises. *)
Definition keeps {A} (K : Streaming.Frame -> Prop) (m : Streaming.M A)
  : Prop :=
  forall fr, K fr -> K (snd (m fr)).

(** What has been yielded is [y], and [message_start] is sent if it was
    when [sent] was read. *)
Definition yielded_as (y : list Streaming.event) (sent : bool)
    (fr : Streaming.Frame) : Prop :=
  Streaming.yielded fr = y
  /\ (sent = true -> Streaming.message_start_sent fr = true).

(** What has been yielded starts with [y]. *)
Definition yielded_from (y : list Streaming.event) (fr : Streaming.Frame)
  : Prop :=
  exists more, Streaming.yielded fr = y ++ more.

(** A chunk that reports a token count and then a part the translator
    cannot read: the [functionCall] is a string. *)
Definition broken_chunk : json :=
  Spec.chunk (Spec.prompt_tokens 5)
    [JDict [("functionCall", JStr "search")]] [].

(** The type of the block or of the delta that an event carries under
    [key]. *)
Definition carried_type (key : string) (e : Streaming.event) : option json :=
  match snd e with
  | JDict d =>
      match dict_get key d with
      | Some (JDict b) => dict_get "type" b
      | _ => None
      end
  | _ => None
  end.

Definition is_str (t : string) (v : option json) : bool :=
  match v with
  | Some (JStr s) => (s =? t)%string
  | _ => false
  end.

(** An event of a thinking block: the start of a block of type
    [thinking], a [thinking_delta] or a [signature_delta]. *)
Definition thinking_event (e : Streaming.event) : bool :=
  is_str "thinking" (carried_type "content_block" e)
  || is_str "thinking_delta" (carried_type "delta" e)
  || is_str "signature_delta" (carried_type "delta" e).

Definition no_thinking (evs : list Streaming.event) : Prop :=
  Forall (fun e => thinking_event e = false) evs.

(** No thinking block is open and no event of one is pending, ready or
    yielded. *)
Definition without_thinking (fr : Streaming.Frame) : Prop :=
  Streaming.block_is "thinking" fr = false
  /\ no_thinking (Streaming.pending_output fr)
  /\ no_thinking (Streaming.ready_output fr)
  /\ no_thinking (Streaming.yielded fr).

(** Code that keeps [K] of the frame, whether it returns or raises, and
    returns a value with [Q]. *)
Definition keeps_giving {A} (K : Streaming.Frame -> Prop)
    (m : Streaming.M A) (Q : A -> Prop) : Prop :=
  forall fr, K fr ->
    K (snd (m fr))
    /\ match fst (m fr) with
       | Ok a => Q a
       | Raise _ => True
       end.

(** The thinking part and the answer of scenario 3, read with thinking
    off. *)
Definition run_without_thinking (thinking_to_text : bool)
  : list Streaming.event * option exn :=
  Streaming.antigravity_sse_to_anthropic_sse
    (Spec.loads_of Spec.scenario3_chunks) Spec.json_text (fun _ => "")
    (fun _ => None) (fun _ => "") (fun _ => "0") "claude-sonnet-4-5"
    "msg_1" 0 None None false thinking_to_text
    (map Spec.data_line Spec.scenario3_chunks).

End Notions.

(* ------------------------------------------------------------------ *)
(** * Properties *)

Example str_of_int_1024 :
  str_of_int 1024 = "1024" /\ str_of_int (-7) = "-7" /\ str_of_int 0 = "0".
Proof. repeat split; reflexivity. Qed.

Example strip_example : strip "  a b	" = "a b".
Proof. reflexivity. Qed.

Example chain_example :
  Failover.build_failover_chain "a" (Some "c") ["a"; "b"; "c"] = ["a"; "c"; "b"]
  /\ Failover.build_failover_chain "a" (Some "c") ["b"; "c"] = ["c"; "b"].
Proof. split; reflexivity. Qed.

(** ** Lists of names *)

Section Names.

Lemma mem_In (x : string) (xs : list string) : mem x xs = true <-> In x xs.
Proof.
  induction xs as [|y ys IH]; simpl.
  - split; [discriminate | tauto].
  - rewrite orb_true_iff, IH, String.eqb_eq. tauto.
Qed.

Lemma mem_app (x : string) (xs ys : list string) :
  mem x (xs ++ ys) = mem x xs || mem x ys.
Proof.
  induction xs as [|y l IH]; simpl; [reflexivity|].
  now rewrite IH, orb_assoc.
Qed.

Lemma mem_false_In (x : string) (xs : list string) :
  mem x xs = false <-> ~ In x xs.
Proof.
  rewrite <- mem_In. destruct (mem x xs); split; intros; congruence.
Qed.

End Names.

(** ** Failover chain (failover.py) *)

Module FailoverFacts.
Import Failover Spec.

Lemma filter_filter_comm {A} (p q : A -> bool) (l : list A) :
  filter p (filter q l) = filter q (filter p l).
Proof.
  induction l as [|a l IH]; simpl; [reflexivity|].
  destruct (p a) eqn:Hp, (q a) eqn:Hq; simpl; rewrite ?Hp, ?Hq, IH; reflexivity.
Qed.

Lemma filter_absorb (p : string -> bool) (x : string) (l : list string) :
  p x = false ->
  filter p (filter (fun y => negb (y =? x)) l) = filter p l.
Proof.
  intros Hx. induction l as [|a l IH]; simpl; [reflexivity|].
  destruct (a =? x) eqn:E; simpl.
  - apply String.eqb_eq in E. subst a. now rewrite Hx.
  - now rewrite IH.
Qed.

Lemma dedup_filter (p : string -> bool) (l : list string) :
  dedup (filter p l) = filter p (dedup l).
Proof.
  induction l as [|x l IH]; simpl; [reflexivity|].
  destruct (p x) eqn:Hp; simpl.
  - rewrite ?Hp, IH. f_equal. apply filter_filter_comm.
  - rewrite ?Hp, IH. symmetry. now apply filter_absorb.
Qed.

Lemma dedup_In (x : string) (l : list string) : In x (dedup l) <-> In x l.
Proof.
  induction l as [|y l IH]; simpl; [tauto|].
  rewrite filter_In, IH, negb_true_iff, String.eqb_neq.
  destruct (String.eqb_spec y x); split; intros; intuition congruence.
Qed.

Lemma NoDup_filter {A} (p : A -> bool) (l : list A) :
  NoDup l -> NoDup (filter p l).
Proof.
  induction 1 as [|a l Hn Hd IH]; simpl; [constructor|].
  destruct (p a); [constructor|]; auto.
  rewrite filter_In. tauto.
Qed.

Lemma dedup_NoDup (l : list string) : NoDup (dedup l).
Proof.
  induction l as [|x l IH]; simpl; constructor.
  - rewrite filter_In, String.eqb_refl. simpl. intros [_ H]. discriminate.
  - now apply NoDup_filter.
Qed.

Lemma filter_not_mem_snoc (chain : list string) (x : string)
    (d : list string) :
  filter (fun y => negb (mem y (chain ++ [x]))) d
  = filter (fun y => negb (mem y chain))
      (filter (fun y => negb (y =? x)) d).
Proof.
  induction d as [|a d IHd]; simpl; [reflexivity|].
  rewrite mem_app. simpl. rewrite orb_false_r, (String.eqb_sym x a).
  destruct (a =? x) eqn:Ex, (mem a chain) eqn:Ha; simpl;
    rewrite ?Ha, IHd; reflexivity.
Qed.

(** The loop over [available], from any chain built so far. *)
Lemma chain_loop (available chain : list string) :
  fold_left
    (fun chain provider =>
       if negb (mem provider chain) then chain ++ [provider] else chain)
    available chain
  = chain ++ dedup (filter (fun x => negb (mem x chain)) available).
Proof.
  revert chain. induction available as [|x l IH]; intros chain; simpl.
  - now rewrite app_nil_r.
  - destruct (mem x chain) eqn:Hm; simpl.
    + apply IH.
    + rewrite IH, <- app_assoc. simpl. do 2 f_equal.
      rewrite dedup_filter, dedup_filter. rewrite <- filter_filter_comm.
      apply filter_not_mem_snoc.
Qed.

Lemma chain_shape (primary : string) (fallback : option string)
    (available : list string) :
  build_failover_chain primary fallback available
  = chain_head primary fallback available
    ++ dedup (filter
                (fun x => negb (mem x (chain_head primary fallback available)))
                available).
Proof.
  unfold build_failover_chain. rewrite chain_loop. unfold chain_head.
  destruct (mem primary available) eqn:Hp; simpl;
    destruct fallback as [f|]; simpl; rewrite ?orb_false_r; try reflexivity.
  - rewrite (String.eqb_sym primary f).
    destruct (negb (f =? "") && mem f available && negb (f =? primary));
      reflexivity.
  - destruct (f =? primary) eqn:E.
    + apply String.eqb_eq in E. subst f. rewrite Hp, andb_false_r. reflexivity.
    + rewrite !andb_true_r.
      destruct (negb (primary =? "") && mem f available),
        (negb (f =? "") && mem f available); reflexivity.
Qed.

Lemma NoDup_incl_length_le (l l' : list string) :
  NoDup l -> incl l l' -> (List.length l <= List.length l')%nat.
Proof. intros. now apply NoDup_incl_length. Qed.

(** C7.  The chain names each provider at most once, holds only available
    providers and no more of them than [available] has; the primary, when
    available, is first; the fallback, when set, available and not the
    primary, comes right after it (first when the primary is not
    available); the other available providers follow, each once, in the
    order in which [available] first gives them. *)
Theorem build_failover_chain_correct (primary : string)
    (fallback : option string) (available : list string) :
  let chain := build_failover_chain primary fallback available in
  let head := chain_head primary fallback available in
  NoDup chain
  /\ (forall x, In x chain -> In x available)
  /\ (List.length chain <= List.length available)%nat
  /\ (In primary available -> nth_error chain 0 = Some primary)
  /\ (forall f, fallback = Some f -> f <> "" -> In f available ->
        f <> primary ->
        nth_error chain (if mem primary available then 1 else 0) = Some f)
  /\ chain = head ++ dedup (filter (fun x => negb (mem x head)) available)
  /\ (forall x, In x available -> In x chain).
Proof.
  intros chain head.
  assert (Hshape : chain
            = head ++ dedup (filter (fun x => negb (mem x head)) available))
    by apply chain_shape.
  assert (Hhead : forall x, In x head -> In x available).
  { intros x. unfold head, chain_head. rewrite in_app_iff.
    destruct (mem primary available) eqn:Hp; simpl.
    - intros [[<-|[]]|H]; [now apply mem_In|].
      destruct fallback as [f|]; [|destruct H].
      destruct (mem f available) eqn:Hf;
        [|rewrite andb_false_r in H; destruct H].
      destruct (negb (f =? "") && true && negb (f =? primary));
        [|destruct H].
      destruct H as [<-|[]]. now apply mem_In.
    - intros [[]|H].
      destruct fallback as [f|]; [|destruct H].
      destruct (mem f available) eqn:Hf;
        [|rewrite andb_false_r in H; destruct H].
      destruct (negb (f =? "") && true && negb (f =? primary));
        [|destruct H].
      destruct H as [<-|[]]. now apply mem_In. }
  assert (Hin : forall x, In x chain -> In x available).
  { intros x. rewrite Hshape, in_app_iff, dedup_In, filter_In.
    intros [H|[H _]]; auto. }
  assert (Hnd : NoDup chain).
  { rewrite Hshape. apply NoDup_app.
    - unfold head, chain_head.
      destruct (mem primary available); simpl;
        destruct fallback as [f|]; simpl;
        try (destruct (negb (f =? "") && mem f available && negb (f =? primary))
               eqn:E);
        repeat constructor; simpl; try tauto.
      intros [H|[]]. subst f. rewrite String.eqb_refl in E.
      now rewrite andb_false_r in E.
    - apply dedup_NoDup.
    - intros x Hx. rewrite dedup_In, filter_In, negb_true_iff, mem_false_In.
      tauto. }
  split; [exact Hnd|]. split; [exact Hin|].
  split; [now apply NoDup_incl_length_le|].
  split; [|split; [|split; [exact Hshape|]]].
  - intros Hp. apply mem_In in Hp. rewrite Hshape. unfold head, chain_head.
    rewrite Hp. reflexivity.
  - intros f -> Hne Hf Hfp. apply mem_In in Hf. rewrite Hshape.
    unfold head, chain_head.
    apply String.eqb_neq in Hne, Hfp. rewrite Hne, Hf, Hfp. simpl.
    destruct (mem primary available); reflexivity.
  - intros x Hx. rewrite Hshape, in_app_iff, dedup_In, filter_In.
    destruct (mem x head) eqn:Hm; [left; now apply mem_In | right; auto].
Qed.

End FailoverFacts.

(** ** Model mapping (converter.py) *)

Module ModelMappingFacts.
Import Converter Spec.

Lemma stable_targets_fixed :
  Forall (fun m => map_claude_model_to_gemini m = m) stable_targets.
Proof. repeat constructor. Qed.

Lemma match_dated_base_in (s g : string) :
  match_dated s = Some g -> In g dated_model_bases.
Proof. intros H. apply find_some in H. tauto. Qed.

Ltac in_list :=
  cbv [stable_targets supported_models app In];
  repeat first [left; reflexivity | right].

Lemma mapping_get_cases (k : string) :
  k <> "claude-haiku-4" ->
  In (mapping_get k "claude-sonnet-4-5" model_mapping) stable_targets.
Proof.
  intros Hk. unfold model_mapping. cbn [mapping_get].
  repeat match goal with
         | |- context [if ?a =? ?b then _ else _] =>
             destruct (String.eqb_spec a b);
             [subst; try congruence; in_list|]
         end.
  in_list.
Qed.

(** Away from ["claude-haiku-4"] the mapping is idempotent. *)
Lemma map_claude_model_idempotent_elsewhere (m : string) :
  strip m <> "claude-haiku-4" ->
  map_claude_model_to_gemini (map_claude_model_to_gemini m)
  = map_claude_model_to_gemini m.
Proof.
  intros Hm.
  assert (H : In (map_claude_model_to_gemini m) stable_targets).
  { unfold map_claude_model_to_gemini.
    destruct (strip m =? ""); [in_list|].
    destruct (match_dated (strip m)) as [g|] eqn:Hd.
    - apply match_dated_base_in in Hd. simpl in Hd.
      destruct Hd as [<-|[<-|[<-|[]]]]; simpl; in_list.
    - destruct (strip m =? "claude-opus-4-5"); [in_list|].
      destruct (strip m =? "claude-sonnet-4-5"); [in_list|].
      destruct (strip m =? "claude-haiku-4-5"); [in_list|].
      destruct (mem (strip m) supported_models) eqn:Hs.
      + apply mem_In in Hs. unfold stable_targets. apply in_or_app. now right.
      + now apply mapping_get_cases. }
  pose proof stable_targets_fixed as F. rewrite Forall_forall in F.
  now apply F.
Qed.

(** C5, the failing input.  ["claude-haiku-4"] is sent to
    ["claude-haiku-4.5"], a name the function itself does not know: mapped
    again it becomes the default. *)
Theorem map_claude_model_haiku_4_not_fixed :
  map_claude_model_to_gemini "claude-haiku-4" = "claude-haiku-4.5"
  /\ map_claude_model_to_gemini (map_claude_model_to_gemini "claude-haiku-4")
     = "claude-sonnet-4-5"
  /\ mem "claude-haiku-4.5" supported_models = false.
Proof. repeat split. Qed.

Example map_dated_models :
  map_claude_model_to_gemini "claude-opus-4-5-20251101"
  = "claude-opus-4-5-thinking"
  /\ map_claude_model_to_gemini "claude-sonnet-4-5-20241022"
     = "claude-sonnet-4-5"
  /\ map_claude_model_to_gemini " claude-haiku-4-5 " = "gemini-2.5-flash"
  /\ map_claude_model_to_gemini "gpt-4" = "claude-sonnet-4-5".
Proof. repeat split. Qed.

End ModelMappingFacts.

(** ** Dicts *)

Section DictFacts.

Lemma dict_get_set (k k' : string) (v : json) (d : dict) :
  dict_get k (dict_set k' v d)
  = if k' =? k then Some v else dict_get k d.
Proof.
  induction d as [|[k0 v0] d IH]; simpl.
  - reflexivity.
  - destruct (k0 =? k') eqn:E0; simpl.
    + apply String.eqb_eq in E0. subst k0.
      destruct (k' =? k); reflexivity.
    + rewrite IH. destruct (k0 =? k) eqn:E1; [|reflexivity].
      apply String.eqb_eq in E1. subst k0. now rewrite String.eqb_sym, E0.
Qed.

Lemma dict_has_set (k k' : string) (v : json) (d : dict) :
  dict_has k (dict_set k' v d) = (k' =? k) || dict_has k d.
Proof.
  unfold dict_has. rewrite dict_get_set. destruct (k' =? k); reflexivity.
Qed.

Lemma dict_get_default_some (k : string) (default v : json) (d : dict) :
  dict_get k d = Some v -> dict_get_default k default d = v.
Proof. unfold dict_get_default. now intros ->. Qed.

Lemma dict_get_default_none (k : string) (default : json) (d : dict) :
  dict_get k d = None -> dict_get_default k default d = default.
Proof. unfold dict_get_default. now intros ->. Qed.

End DictFacts.

(** ** Generation config (converter.py) *)

Module GenerationConfigFacts.
Import Converter Spec.

Section WithRepr.

Variable py_repr : json -> string.

Lemma get_set_unless_none (K k : string) (v : json) (config : dict) :
  (k =? K) = false ->
  dict_get K (set_unless_none k v config) = dict_get K config.
Proof.
  intros H. destruct v; simpl; rewrite ?dict_get_set, ?H; reflexivity.
Qed.

(** Before the thinking section [config] has no [thinkingConfig]. *)
Lemma base_has_no_thinkingConfig (payload : dict) :
  dict_get "thinkingConfig" (generation_config_base py_repr payload) = None.
Proof.
  unfold generation_config_base. cbv zeta.
  assert (H : forall c : dict,
             dict_get "thinkingConfig" c = None ->
             dict_get "thinkingConfig"
               match dict_get_default "stop_sequences" JNull payload with
               | JList (s :: ss) =>
                   dict_set "stopSequences"
                     (JList (default_stop_sequences
                             ++ map (fun s => JStr (py_str py_repr s))
                                  (s :: ss))) c
               | _ => c
               end = None).
  { intros c Hc.
    destruct (dict_get_default "stop_sequences" JNull payload) as
      [| | | | |[|s ss]|]; try exact Hc.
    rewrite dict_get_set. exact Hc. }
  apply H. rewrite !get_set_unless_none by reflexivity.
  rewrite dict_get_set. reflexivity.
Qed.

Lemma reversed_messages_listed (payload : dict) :
  messages_listed payload = true ->
  exists msgs,
    reversed (py_or (dict_get_default "messages" JNull payload) (JList []))
    = Ok msgs.
Proof.
  unfold messages_listed, dict_get_default.
  destruct (dict_get "messages" payload) as [[| | | | |l|]|]; try discriminate;
    intros _.
  - destruct l; simpl; eauto.
  - simpl. eauto.
Qed.

(** C3, as the code has it.  With thinking absent, null, [false] or a dict
    whose [type] is given and not ["enabled"], and [messages] a list or
    absent, the call returns with [include_thinking = false]; the config
    has no [thinkingConfig] when thinking is absent or null, and has
    [thinkingConfig = {includeThoughts: false}] otherwise. *)
Theorem build_generation_config_thinking_off (payload : dict) :
  thinking_off payload = true ->
  messages_listed payload = true ->
  exists cfg,
    build_generation_config py_repr payload = Ok (cfg, false)
    /\ dict_get "thinkingConfig" cfg
       = match dict_get "thinking" payload with
         | None | Some JNull => None
         | Some _ => Some (JDict [("includeThoughts", JBool false)])
         end.
Proof.
  intros Hoff Hmsgs.
  destruct (reversed_messages_listed payload Hmsgs) as [msgs Hrev].
  unfold build_generation_config. cbv zeta.
  unfold thinking_off in Hoff. unfold dict_has.
  destruct (dict_get "thinking" payload) as [tv|] eqn:Ht.
  2:{ eexists. split; [reflexivity|]. apply base_has_no_thinkingConfig. }
  rewrite (dict_get_default_some _ JNull _ _ Ht).
  destruct tv as [|[|]| | | | |d]; try discriminate.
  - eexists. split; [reflexivity|]. apply base_has_no_thinkingConfig.
  - rewrite Hrev. simpl. eexists. split; [reflexivity|].
    rewrite dict_get_set. reflexivity.
  - destruct (dict_get "type" d) as [t|] eqn:Hty; [|discriminate].
    unfold get_thinking_config.
    rewrite (dict_get_default_some _ (JStr "enabled") _ _ Hty), Hoff.
    rewrite Hrev. simpl. eexists. split; [reflexivity|].
    rewrite dict_get_set. reflexivity.
Qed.

Lemma last_assistant_skips (post rest : list json) :
  forallb (fun x => negb (qualifies x)) post = true ->
  last_assistant_first_block_type (rev post ++ rest)
  = last_assistant_first_block_type rest.
Proof.
  induction post as [|x post IH] using rev_ind; intros H; [reflexivity|].
  rewrite forallb_app in H. apply andb_true_iff in H. destruct H as [Hp Hx].
  simpl in Hx. rewrite andb_true_r in Hx. apply negb_true_iff in Hx.
  rewrite rev_app_distr. cbn [rev app]. specialize (IH Hp).
  destruct x as [| | | | | |m]; cbn [last_assistant_first_block_type];
    try exact IH.
  unfold qualifies in Hx.
  destruct (eq_str (dict_get_default "role" JNull m) "assistant");
    cbn [negb]; [|exact IH].
  cbn [andb] in Hx.
  destruct (dict_get_default "content" JNull m) as [| | | | |[|? ?]|];
    try discriminate; exact IH.
Qed.

(** C4, as the code has it.  When thinking is wanted and the most recent
    assistant message whose content is a non-empty list starts with a dict
    block whose [type] is given and is neither ["thinking"] nor
    ["redacted_thinking"], the call returns [include_thinking = false] and
    a config without [thinkingConfig]. *)
Theorem build_generation_config_history_mismatch
    (payload m fb : dict) (pre post rest : list json) (t : json) :
  want payload = true ->
  dict_get "messages" payload = Some (JList (pre ++ JDict m :: post)) ->
  forallb (fun x => negb (qualifies x)) post = true ->
  eq_str (dict_get_default "role" JNull m) "assistant" = true ->
  dict_get "content" m = Some (JList (JDict fb :: rest)) ->
  dict_get "type" fb = Some t ->
  other_block_type t = true ->
  exists cfg,
    build_generation_config py_repr payload = Ok (cfg, false)
    /\ dict_has "thinkingConfig" cfg = false.
Proof.
  intros Hwant Hmsgs Hpost Hrole Hcontent Htype Hother.
  unfold build_generation_config. cbv zeta.
  unfold want in Hwant. unfold dict_has at 1.
  destruct (dict_get "thinking" payload) as [tv|] eqn:Ht; [|discriminate].
  rewrite (dict_get_default_some _ JNull _ _ Ht).
  assert (Hinc : truthy (dict_get_default "includeThoughts" (JBool false)
                           (get_thinking_config tv)) = true).
  { destruct tv as [|[|]| | | | |d]; try discriminate; [reflexivity|].
    unfold get_thinking_config.
    unfold dict_get_default in Hwant |- *.
    destruct (dict_get "type" d) as [ty|]; [|discriminate].
    rewrite Hwant. reflexivity. }
  assert (Hrev : reversed (py_or (dict_get_default "messages" JNull payload)
                             (JList []))
                 = Ok (rev post ++ JDict m :: rev pre)).
  { rewrite (dict_get_default_some _ JNull _ _ Hmsgs). unfold py_or.
    assert (Hne : truthy (JList (pre ++ JDict m :: post)) = true)
      by (destruct pre; reflexivity).
    rewrite Hne. simpl. rewrite rev_app_distr. simpl.
    now rewrite <- app_assoc. }
  assert (Hblock : last_assistant_first_block_type
                     (rev post ++ JDict m :: rev pre) = t).
  { rewrite last_assistant_skips by exact Hpost. simpl.
    rewrite Hrole. simpl.
    rewrite (dict_get_default_some _ JNull _ _ Hcontent).
    now rewrite (dict_get_default_some _ JNull _ _ Htype). }
  assert (Hmis : not_in_thinking_types t = Ok true).
  { destruct t; try discriminate; try reflexivity.
    simpl in *. now rewrite Hother. }
  destruct tv; try discriminate;
    rewrite Hinc, Hrev; cbn [rbind]; rewrite Hblock, Hmis; cbn [rbind];
    (eexists; split; [reflexivity|]);
    unfold dict_has; now rewrite base_has_no_thinkingConfig.
Qed.

End WithRepr.

(** C3 fails as worded: with [thinking: false] the rule of the
    specification gives want = false, and the config does carry a
    [thinkingConfig]; with a value that is neither a bool nor a dict the
    rule gives want = false as well, and thinking is switched on. *)
Lemma build_generation_config_false_keeps_thinkingConfig :
  want [("thinking", JBool false)] = false
  /\ (forall py_repr,
        exists cfg,
          build_generation_config py_repr [("thinking", JBool false)]
          = Ok (cfg, false)
          /\ dict_has "thinkingConfig" cfg = true)
  /\ want [("thinking", JStr "yes")] = false
  /\ (forall py_repr,
        exists cfg,
          build_generation_config py_repr [("thinking", JStr "yes")]
          = Ok (cfg, true)
          /\ dict_has "thinkingConfig" cfg = true).
Proof.
  split; [reflexivity|]. split; [|split; [reflexivity|]].
  - intros py_repr. eexists. split; reflexivity.
  - intros py_repr. eexists. split; reflexivity.
Qed.

Lemma build_generation_config_thinking_off_witness :
  thinking_off [("thinking", JDict [("type", JStr "disabled")]);
                ("messages", JList [])] = true
  /\ exists cfg,
       build_generation_config (fun _ => "")
         [("thinking", JDict [("type", JStr "disabled")]);
          ("messages", JList [])] = Ok (cfg, false)
       /\ dict_get "thinkingConfig" cfg
          = Some (JDict [("includeThoughts", JBool false)]).
Proof.
  split; [reflexivity|].
  exact (build_generation_config_thinking_off (fun _ => "")
           [("thinking", JDict [("type", JStr "disabled")]);
            ("messages", JList [])] eq_refl eq_refl).
Defined.

(** C4 fails as worded: the most recent assistant message exists, its
    content is a plain string, and thinking stays on. *)
Lemma build_generation_config_string_history_keeps_thinking :
  want string_history = true
  /\ (forall py_repr,
        exists cfg,
          build_generation_config py_repr string_history = Ok (cfg, true)
          /\ dict_has "thinkingConfig" cfg = true).
Proof.
  split; [reflexivity|]. intros py_repr. eexists. split; reflexivity.
Qed.

Lemma build_generation_config_history_mismatch_witness :
  exists cfg,
    build_generation_config (fun _ => "") text_history = Ok (cfg, false)
    /\ dict_has "thinkingConfig" cfg = false.
Proof.
  exact (build_generation_config_history_mismatch (fun _ => "") text_history
           [("role", JStr "assistant");
            ("content", JList [JDict [("type", JStr "text");
                                      ("text", JStr "hi")]])]
           [("type", JStr "text"); ("text", JStr "hi")]
           [JDict [("role", JStr "user"); ("content", JStr "hello")]]
           [JDict [("role", JStr "user"); ("content", JStr "more")]]
           [] (JStr "text")
           eq_refl eq_refl eq_refl eq_refl eq_refl eq_refl eq_refl).
Defined.

End GenerationConfigFacts.

(** ** Routing rules (rules.py) *)

Module RulesFacts.
Import Rules Spec.

Section WithRe.

Variable re_match_ignorecase : string -> string -> result bool.

Lemma is_thinking_true (request : dict) :
  is_thinking request = true
  <-> (dict_get "thinking" request = Some (JBool true)
       \/ exists t, dict_get "thinking" request = Some (JDict t)
                    /\ dict_get "type" t = Some (JStr "enabled")).
Proof.
  unfold is_thinking, dict_get_default. split.
  - intros H.
    destruct (dict_get "thinking" request) as [[|[|]| | | | |t]|];
      try discriminate; [now left|].
    right. exists t. split; [reflexivity|].
    destruct (dict_get "type" t) as [[| | | |s| |]|]; try discriminate.
    simpl in H. apply String.eqb_eq in H. now subst s.
  - intros [H|(t & H1 & H2)].
    + now rewrite H.
    + now rewrite H1, H2.
Qed.

(** C6, as the code has it.  A rule matches exactly when each clause it
    carries holds: its agent type is the given one ("default" when none is
    given), its pattern matches [request.model], its bounds enclose
    [context_tokens], and its [thinking_enabled] tells whether the
    request's [thinking] is [true] or a dict whose [type] is ["enabled"].
    A clause is carried when the field is not [None] (and not [""] for the
    two strings). *)
Theorem matches_iff_all_clauses (self : RoutingRule) (request : dict)
    (agent : option string) (context_tokens : Z) :
  matches re_match_ignorecase self request agent context_tokens = Ok true
  <-> (forall a, set_str (agent_type self) = Some a ->
         a = match set_str agent with Some g => g | None => "default" end)
      /\ (forall pattern, set_str (model_pattern self) = Some pattern ->
            exists model,
              dict_get_default "model" (JStr "") request = JStr model
              /\ re_match_ignorecase pattern model = Ok true)
      /\ (forall want, thinking_enabled self = Some want ->
            (want = true
             <-> (dict_get "thinking" request = Some (JBool true)
                  \/ exists t, dict_get "thinking" request = Some (JDict t)
                               /\ dict_get "type" t = Some (JStr "enabled"))))
      /\ (forall lo, min_context_tokens self = Some lo -> lo <= context_tokens)
      /\ (forall hi, max_context_tokens self = Some hi -> context_tokens <= hi).
Proof.
  unfold matches. cbv zeta.
  set (given := match set_str agent with Some g => g | None => "default" end).
  set (agent_fail := match set_str (agent_type self) with
                     | Some a => negb (a =? given)
                     | None => false
                     end).
  set (model_res := match set_str (model_pattern self) with
                    | Some pattern =>
                        match dict_get_default "model" (JStr "") request with
                        | JStr model => re_match_ignorecase pattern model
                        | _ => Raise TypeError
                        end
                    | None => Ok true
                    end).
  set (thinking_fail := match thinking_enabled self with
                        | Some want => negb (Bool.eqb want (is_thinking request))
                        | None => false
                        end).
  set (min_fail := match min_context_tokens self with
                   | Some lo => (context_tokens <? lo)%Z
                   | None => false
                   end).
  set (max_fail := match max_context_tokens self with
                   | Some hi => (context_tokens >? hi)%Z
                   | None => false
                   end).
  assert (Ha : agent_fail = false
               <-> forall a, set_str (agent_type self) = Some a -> a = given).
  { unfold agent_fail. destruct (set_str (agent_type self)) as [a|].
    - rewrite negb_false_iff, String.eqb_eq. split.
      + intros -> a' E. now injection E as <-.
      + intros H. now apply H.
    - split; [discriminate | reflexivity]. }
  assert (Hm : model_res = Ok true
               <-> forall pattern, set_str (model_pattern self) = Some pattern ->
                     exists model,
                       dict_get_default "model" (JStr "") request = JStr model
                       /\ re_match_ignorecase pattern model = Ok true).
  { unfold model_res. destruct (set_str (model_pattern self)) as [pattern|].
    - destruct (dict_get_default "model" (JStr "") request)
        as [| | | |model| |];
        try (split; [discriminate
                    | intros H; destruct (H pattern eq_refl) as (x & E & _);
                      discriminate]).
      split.
      + intros H p E. injection E as <-. eauto.
      + intros H. destruct (H pattern eq_refl) as (x & E & R).
        now injection E as <-.
    - split; [discriminate | reflexivity]. }
  assert (Ht : thinking_fail = false
               <-> forall want, thinking_enabled self = Some want ->
                     (want = true
                      <-> (dict_get "thinking" request = Some (JBool true)
                           \/ exists t,
                                dict_get "thinking" request = Some (JDict t)
                                /\ dict_get "type" t = Some (JStr "enabled")))).
  { unfold thinking_fail. destruct (thinking_enabled self) as [want|].
    - rewrite negb_false_iff, Bool.eqb_true_iff. split.
      + intros -> w E. injection E as <-. now rewrite is_thinking_true.
      + intros H. specialize (H want eq_refl).
        rewrite <- is_thinking_true in H.
        destruct want, (is_thinking request); intuition congruence.
    - split; [discriminate | reflexivity]. }
  assert (Hlo : min_fail = false
                <-> forall lo, min_context_tokens self = Some lo ->
                      lo <= context_tokens).
  { unfold min_fail. destruct (min_context_tokens self) as [lo|].
    - rewrite Z.ltb_ge. split.
      + intros H l E. now injection E as <-.
      + intros H. now apply H.
    - split; [discriminate | reflexivity]. }
  assert (Hhi : max_fail = false
                <-> forall hi, max_context_tokens self = Some hi ->
                      context_tokens <= hi).
  { unfold max_fail. destruct (max_context_tokens self) as [hi|].
    - rewrite Z.gtb_ltb, Z.ltb_ge. split.
      + intros H h E. now injection E as <-.
      + intros H. now apply H.
    - split; [discriminate | reflexivity]. }
  rewrite <- Ha, <- Hm, <- Ht, <- Hlo, <- Hhi.
  destruct agent_fail, model_res as [[|]|e], thinking_fail, min_fail, max_fail;
    simpl; intuition congruence.
Qed.

End WithRe.

(** C6 fails as worded: a dict without a [type] key is enabled thinking
    for the request translator, and the rule that asks for thinking does
    not match it. *)
Lemma thinking_rule_rejects_dict_without_type :
  truthy (dict_get_default "includeThoughts" (JBool false)
            (Converter.get_thinking_config
               (JDict [("budget_tokens", JInt 2048)]))) = true
  /\ (forall re,
        matches re thinking_rule
          [("model", JStr "claude-opus-4-5");
           ("thinking", JDict [("budget_tokens", JInt 2048)])] None 0
        = Ok false)
  /\ (forall re,
        matches re thinking_rule
          [("model", JStr "claude-opus-4-5");
           ("thinking", JDict [("type", JStr "enabled");
                               ("budget_tokens", JInt 2048)])] None 0
        = Ok true).
Proof. repeat split. Qed.

End RulesFacts.

(** ** Tool results (converter.py) *)

Module ToolResultFacts.
Import Converter Spec.

Section WithBuiltins.

Variable py_repr : json -> string.
Variable json_dumps : json -> string.

Let str := py_str py_repr.

Lemma for_result_app {A S} (body : S -> A -> result S) (xs ys : list A)
    (s : S) :
  for_result body (xs ++ ys) s
  = (s' <-! for_result body xs s ;; for_result body ys s').
Proof.
  revert s. induction xs as [|x xs IH]; intros s; simpl; [reflexivity|].
  destruct (body s x); simpl; [apply IH | reflexivity].
Qed.

Lemma for_result_extends {A B} (body : list B -> A -> result (list B))
    (xs : list A) :
  (forall s x s', body s x = Ok s' -> exists n, s' = s ++ n) ->
  forall s s', for_result body xs s = Ok s' -> exists n, s' = s ++ n.
Proof.
  intros Hbody. induction xs as [|x xs IH]; intros s s'; simpl.
  - intros H. injection H as <-. exists []. now rewrite app_nil_r.
  - destruct (body s x) as [s1|e] eqn:E; simpl; [|discriminate].
    intros H. apply IH in H. destruct H as [n ->].
    apply Hbody in E. destruct E as [n1 ->].
    exists (n1 ++ n). now rewrite app_assoc.
Qed.

Lemma convert_item_extends (include_thinking : bool) (parts : list json)
    (item : json) (parts' : list json) :
  convert_item py_repr json_dumps include_thinking parts item = Ok parts' ->
  exists n, parts' = parts ++ n.
Proof.
  unfold convert_item.
  assert (Hsame : exists n : list json, parts = parts ++ n)
    by (exists []; now rewrite app_nil_r).
  destruct item as [| | | | | |it];
    repeat match goal with
           | |- Ok _ = Ok _ -> _ => intros H; injection H as <-; eauto
           | |- Raise _ = Ok _ -> _ => discriminate
           | |- context [rbind ?r _] => destruct r; cbn [rbind]
           | |- context [if ?c then _ else _] => destruct c
           end.
Qed.

Lemma extract_output_as_coded (it : dict) :
  output_as_coded py_repr (dict_get "content" it)
    (_extract_tool_result_output py_repr (dict_get_default "content" JNull it)).
Proof.
  unfold output_as_coded, _extract_tool_result_output. cbv zeta.
  destruct (dict_get "content" it) as [c|] eqn:Hc.
  - rewrite (dict_get_default_some _ JNull _ _ Hc).
    destruct c as [| | | | |[|first l]|]; try reflexivity.
    destruct first; try reflexivity.
    destruct (eq_str (dict_get_default "type" JNull d) "text"); reflexivity.
  - rewrite (dict_get_default_none _ JNull _ Hc). reflexivity.
Qed.

Lemma convert_item_tool_result (include_thinking : bool) (parts : list json)
    (it : dict) :
  dict_get "type" it = Some (JStr "tool_result") ->
  convert_item py_repr json_dumps include_thinking parts (JDict it)
  = Ok (parts ++ [function_response it
                    (_extract_tool_result_output py_repr
                       (dict_get_default "content" JNull it))]).
Proof.
  intros Ht. unfold convert_item. cbv zeta.
  rewrite (dict_get_default_some _ JNull _ _ Ht). reflexivity.
Qed.

(** C9, as the code has it.  A [tool_result] block of a message with a
    list content gives one [functionResponse] part ([function_response])
    of the content the message is converted to; its [id] is the block's
    [tool_use_id], and its output is [""] for an absent, null or empty content, the text of the
    first element when that element is a text part, the stringification of
    the first element of any other non-empty list, and the stringification
    of the content otherwise. *)
Theorem tool_result_function_response (include_thinking : bool)
    (contents contents' : list json) (msg it : dict) (pre post : list json) :
  dict_get "content" msg = Some (JList (pre ++ JDict it :: post)) ->
  dict_get "type" it = Some (JStr "tool_result") ->
  convert_message py_repr json_dumps include_thinking contents (JDict msg)
  = Ok contents' ->
  exists output role before after,
    contents'
    = contents
      ++ [JDict [("role", JStr role);
                 ("parts",
                  JList (before ++ function_response it output :: after))]]
    /\ output_as_coded py_repr (dict_get "content" it) output.
Proof.
  intros Hcontent Htype. unfold convert_message. cbn [py_get rbind].
  rewrite (dict_get_default_some _ (JStr "") _ _ Hcontent).
  rewrite for_result_app. cbn [for_result].
  destruct (for_result _ pre []) as [before|e] eqn:Hpre; cbn [rbind];
    [|discriminate].
  rewrite convert_item_tool_result by exact Htype. cbn [rbind].
  destruct (for_result _ post _) as [parts|e] eqn:Hpost; cbn [rbind];
    [|discriminate].
  apply for_result_extends in Hpost; [|apply convert_item_extends].
  destruct Hpost as [after ->]. rewrite <- app_assoc. cbn [app].
  destruct (before ++ _ :: after) eqn:E;
    [destruct before; discriminate|]. rewrite <- E.
  intros H. injection H as <-.
  eexists _, _, before, after. split; [reflexivity|].
  apply extract_output_as_coded.
Qed.

End WithBuiltins.

(** C9 fails as worded: the content is a sequence containing a text part,
    whose text is ["done"], and the output is the stringification of the
    image before it, which is not ["done"] whatever [repr] writes a dict
    with a brace in front. *)
Lemma tool_result_output_skips_later_text :
  first_text_part image_then_text = Some (JStr "done")
  /\ (forall py_repr,
        _extract_tool_result_output py_repr (JList image_then_text)
        = py_repr (hd JNull image_then_text))
  /\ (forall py_repr rest,
        py_repr (hd JNull image_then_text) = String "{" rest ->
        _extract_tool_result_output py_repr (JList image_then_text)
        <> "done").
Proof.
  split; [reflexivity|]. split; [reflexivity|].
  intros py_repr rest H. cbn. cbn in H. rewrite H. discriminate.
Qed.

Lemma tool_result_function_response_witness :
  exists output role before after,
    [JDict [("role", JStr "user");
            ("parts",
             JList [function_response tool_result_block "42"])]]
    = [] ++ [JDict [("role", JStr role);
                    ("parts",
                     JList (before
                            ++ function_response tool_result_block output
                               :: after))]]
    /\ output_as_coded (fun _ => "") (dict_get "content" tool_result_block)
         output.
Proof.
  exact (tool_result_function_response (fun _ => "") (fun _ => "") true []
           _ tool_result_message tool_result_block [] []
           eq_refl eq_refl eq_refl).
Defined.

End ToolResultFacts.

(** ** Schema sanitizer (converter.py) *)

Module SchemaFacts.
Import Converter Spec.

Lemma json_dict_ind (P : json -> Prop) :
  (forall j, is_dict j = false -> P j) ->
  (forall d,
     Forall (fun kv => P (snd kv)
                       /\ forall l, snd kv = JList l -> Forall P l) d ->
     P (JDict d)) ->
  forall j, P j.
Proof.
  intros Hleaf Hdict j.
  enough (H : P j /\ forall l, j = JList l -> Forall P l) by apply H.
  induction j using json_nested_ind;
    try (split; [now apply Hleaf | discriminate]).
  - split; [now apply Hleaf|]. intros l' E. injection E as <-.
    eapply Forall_impl; [|exact H]. intros a Ha. apply Ha.
  - split; [|discriminate]. now apply Hdict.
Qed.

(** *** dicts under assignment *)

Lemma dict_set_keys (k : string) (v : json) (d : dict) :
  map fst (dict_set k v d)
  = if mem k (map fst d) then map fst d else map fst d ++ [k].
Proof.
  induction d as [|[k0 v0] d IH]; simpl; [reflexivity|].
  destruct (k0 =? k) eqn:E; simpl; [reflexivity|].
  rewrite IH. destruct (mem k (map fst d)); reflexivity.
Qed.

Lemma distinct_snoc (xs : list string) (k : string) :
  distinct (xs ++ [k]) = distinct xs && negb (mem k xs).
Proof.
  induction xs as [|x xs IH]; simpl; [reflexivity|].
  rewrite IH, mem_app. simpl. rewrite orb_false_r, negb_orb.
  rewrite (String.eqb_sym k x).
  destruct (mem x xs), (distinct xs), (x =? k), (mem k xs); reflexivity.
Qed.

Lemma dict_set_distinct (k : string) (v : json) (d : dict) :
  distinct (map fst d) = true -> distinct (map fst (dict_set k v d)) = true.
Proof.
  intros H. rewrite dict_set_keys.
  destruct (mem k (map fst d)) eqn:E; [exact H|].
  now rewrite distinct_snoc, H, E.
Qed.

Lemma dict_set_forallb (p : string * json -> bool) (k : string) (v : json)
    (d : dict) :
  forallb p d = true -> p (k, v) = true -> forallb p (dict_set k v d) = true.
Proof.
  intros Hd Hkv. induction d as [|[k0 v0] d IH]; simpl.
  - now rewrite Hkv.
  - simpl in Hd. apply andb_true_iff in Hd. destruct Hd as [H0 Hd].
    destruct (k0 =? k) eqn:E; simpl.
    + apply String.eqb_eq in E. subst k0. now rewrite Hkv, Hd.
    + now rewrite H0, IH.
Qed.

Lemma dict_set_fresh (k : string) (v : json) (d : dict) :
  mem k (map fst d) = false -> dict_set k v d = d ++ [(k, v)].
Proof.
  induction d as [|[k0 v0] d IH]; simpl; [reflexivity|].
  intros H. apply orb_false_iff in H. destruct H as [H0 H].
  rewrite H0. now rewrite IH.
Qed.

Lemma dict_get_absent (k : string) (d : dict) :
  mem k (map fst d) = false -> dict_get k d = None.
Proof.
  induction d as [|[k0 v0] d IH]; simpl; [reflexivity|].
  intros H. apply orb_false_iff in H. destruct H as [H0 H].
  rewrite H0. now apply IH.
Qed.

Lemma dropped_key_absent (p : string * json -> bool) (k : string) (d : dict) :
  (forall v, p (k, v) = false) -> forallb p d = true -> dict_get k d = None.
Proof.
  intros Hk. induction d as [|[k0 v0] d IH]; simpl; [reflexivity|].
  intros H. apply andb_true_iff in H. destruct H as [H0 H].
  destruct (String.eqb_spec k0 k) as [->|_]; [|now apply IH].
  now rewrite Hk in H0.
Qed.

Section WithRepr.

Variable py_repr : json -> string.

Let clean := clean_json_schema py_repr.

Example clean_scenario5 : clean scenario5_schema = scenario5_cleaned.
Proof. reflexivity. Qed.

(** What [is_clean] asks of one entry. *)
Let entry_ok (kv : string * json) : bool :=
  negb (key_dropped (fst kv))
  && negb ((fst kv =? "type") && is_list (snd kv))
  && match snd kv with
     | JDict _ => is_clean (snd kv)
     | JList l =>
         forallb (fun item => if is_dict item then is_clean item else true) l
     | _ => true
     end.

Let entries_ok (d : dict) : bool :=
  distinct (map fst d) && forallb entry_ok d.

Lemma is_clean_dict (d : dict) :
  is_clean (JDict d)
  = entries_ok d && (negb (dict_has "properties" d) || dict_has "type" d).
Proof.
  unfold entries_ok. cbn [is_clean]. fold entry_ok.
  destruct (distinct (map fst d)), (forallb entry_ok d),
    (negb (dict_has "properties" d) || dict_has "type" d); reflexivity.
Qed.

Lemma entries_ok_set (k : string) (v : json) (d : dict) :
  entries_ok d = true -> entry_ok (k, v) = true ->
  entries_ok (dict_set k v d) = true.
Proof.
  unfold entries_ok. intros H Hkv. apply andb_true_iff in H.
  destruct H as [Hd Hf].
  now rewrite dict_set_distinct, dict_set_forallb.
Qed.

Lemma clean_is_dict (d : dict) : is_dict (clean (JDict d)) = true.
Proof. reflexivity. Qed.

(** One pass of the loop keeps the entries in shape. *)
Lemma clean_entry_ok (validations : list string) (cleaned : dict)
    (kv : string * json) :
  (is_clean (clean (snd kv)) = true
   /\ forall l, snd kv = JList l ->
        Forall (fun item => is_clean (clean item) = true) l) ->
  entries_ok cleaned = true ->
  entries_ok (clean_entry py_repr clean validations cleaned kv) = true.
Proof.
  destruct kv as [key value]. cbn [snd]. intros [Hv Hl] Hc.
  unfold clean_entry.
  destruct (key_dropped key) eqn:Hdrop; [exact Hc|].
  destruct ((key =? "type") && is_list value) eqn:Htype.
  - destruct value as [| | | | |l|]; try exact Hc.
    apply andb_true_iff in Htype. destruct Htype as [Hk _].
    apply String.eqb_eq in Hk. subst key.
    destruct (existsb is_null_type l);
      repeat apply entries_ok_set; try exact Hc; reflexivity.
  - destruct ((key =? "description")
              && match validations with [] => false | _ => true end).
    + apply entries_ok_set; [exact Hc|].
      unfold entry_ok. cbn [fst snd is_list]. now rewrite Hdrop, andb_false_r.
    + destruct value as [| | | | |l|d];
        try (apply entries_ok_set; [exact Hc|];
             unfold entry_ok; cbn [fst snd is_list];
             now rewrite Hdrop, ?andb_false_r).
      apply entries_ok_set; [exact Hc|].
      unfold entry_ok. cbn [fst snd is_list] in *.
      rewrite Hdrop, Htype. cbn [negb andb].
      specialize (Hl l eq_refl). clear Hv Htype.
      induction Hl as [|item l Hitem Hl IH]; cbn [map forallb];
        [reflexivity|].
      rewrite IH, andb_true_r.
      destruct item; try reflexivity. exact Hitem.
Qed.

Lemma clean_loop_ok (validations : list string) (d cleaned : dict) :
  Forall (fun kv =>
            is_clean (clean (snd kv)) = true
            /\ forall l, snd kv = JList l ->
                 Forall (fun item => is_clean (clean item) = true) l) d ->
  entries_ok cleaned = true ->
  entries_ok (fold_left (clean_entry py_repr clean validations) d cleaned)
  = true.
Proof.
  intros Hd. revert cleaned.
  induction Hd as [|kv d Hkv Hd IH]; intros cleaned Hc; [exact Hc|].
  cbn [fold_left]. apply IH. now apply clean_entry_ok.
Qed.

Lemma clean_finish_ok (validations : list string) (cleaned : dict) :
  entries_ok cleaned = true ->
  is_clean (JDict (clean_finish validations cleaned)) = true.
Proof.
  intros Hc. rewrite is_clean_dict. unfold clean_finish. cbv zeta.
  match goal with
  | |- context [if ?c then dict_set "description" ?v cleaned else cleaned] =>
      set (c1 := if c then dict_set "description" v cleaned else cleaned)
  end.
  assert (H1 : entries_ok c1 = true).
  { unfold c1.
    match goal with |- context [if ?c then _ else _] => destruct c end;
      [|exact Hc].
    apply entries_ok_set; [exact Hc | reflexivity]. }
  destruct (dict_has "properties" c1) eqn:Hp; cbn [andb negb orb].
  - destruct (dict_has "type" c1) eqn:Ht; cbn [negb].
    + now rewrite H1, Hp, Ht.
    + rewrite entries_ok_set by (exact H1 || reflexivity).
      rewrite !dict_has_set, Ht. cbn. now rewrite orb_true_r.
  - now rewrite H1, Hp.
Qed.

(** What the sanitizer returns has the shape [is_clean]. *)
Lemma clean_is_clean (x : json) : is_clean (clean x) = true.
Proof.
  induction x as [j Hj | d IH] using json_dict_ind.
  - destruct j; try discriminate; reflexivity.
  - unfold clean. cbn [clean_json_schema]. apply clean_finish_ok.
    now apply clean_loop_ok.
Qed.

(** *** a value in shape is left as it is *)

Lemma collect_validations_clean (d : dict) :
  forallb entry_ok d = true -> collect_validations py_repr d = [].
Proof.
  intros H. unfold collect_validations, validation_fields. cbn [fold_left].
  rewrite !(dropped_key_absent entry_ok _ d) by (exact H || reflexivity).
  reflexivity.
Qed.

Lemma clean_entry_fixed (cleaned : dict) (kv : string * json) :
  (is_clean (snd kv) = true -> clean (snd kv) = snd kv)
  /\ (forall l, snd kv = JList l ->
        Forall (fun item => is_clean item = true -> clean item = item) l) ->
  entry_ok kv = true ->
  clean_entry py_repr clean [] cleaned kv = dict_set (fst kv) (snd kv) cleaned.
Proof.
  destruct kv as [key value]. cbn [fst snd]. intros [Hv Hl] Hok.
  unfold entry_ok in Hok. cbn [fst snd] in Hok.
  apply andb_true_iff in Hok. destruct Hok as [Hok Hval].
  apply andb_true_iff in Hok. destruct Hok as [Hdrop Htype].
  apply negb_true_iff in Hdrop, Htype.
  unfold clean_entry. rewrite Hdrop, Htype, andb_false_r.
  destruct value as [| | | | |l|d]; try reflexivity.
  - f_equal. f_equal. specialize (Hl l eq_refl). clear Hv Htype.
    induction Hl as [|item l Hitem Hl IH]; [reflexivity|].
    cbn [map forallb] in *. apply andb_true_iff in Hval.
    destruct Hval as [Hi Hval]. rewrite IH by exact Hval. f_equal.
    destruct item; try reflexivity. now apply Hitem.
  - f_equal. now apply Hv.
Qed.

Lemma clean_loop_fixed (d cleaned : dict) :
  Forall (fun kv =>
            (is_clean (snd kv) = true -> clean (snd kv) = snd kv)
            /\ (forall l, snd kv = JList l ->
                  Forall (fun item => is_clean item = true -> clean item = item)
                    l)) d ->
  forallb entry_ok d = true ->
  distinct (map fst (cleaned ++ d)) = true ->
  fold_left (clean_entry py_repr clean []) d cleaned = cleaned ++ d.
Proof.
  intros Hd. revert cleaned.
  induction Hd as [|kv d Hkv Hd IH]; intros cleaned Hok Hdis; cbn [fold_left].
  - now rewrite app_nil_r.
  - cbn [forallb] in Hok. apply andb_true_iff in Hok.
    destruct Hok as [Hkv_ok Hok].
    rewrite clean_entry_fixed by assumption.
    assert (Hfresh : mem (fst kv) (map fst cleaned) = false).
    { clear - Hdis. induction cleaned as [|[k0 v0] c IHc]; [reflexivity|].
      cbn [app map fst distinct] in Hdis. apply andb_true_iff in Hdis.
      destruct Hdis as [Hm Hdis]. cbn [map fst mem].
      rewrite (IHc Hdis), orb_false_r.
      apply negb_true_iff in Hm. rewrite map_app, mem_app in Hm.
      apply orb_false_iff in Hm. destruct Hm as [_ Hm]. cbn [map mem] in Hm.
      apply orb_false_iff in Hm. destruct Hm as [Hm _].
      now rewrite String.eqb_sym. }
    rewrite dict_set_fresh by exact Hfresh.
    destruct kv as [k v]. cbn [fst snd].
    rewrite IH; [now rewrite <- app_assoc | exact Hok |].
    now rewrite <- app_assoc.
Qed.

Lemma clean_fixed (x : json) : is_clean x = true -> clean x = x.
Proof.
  induction x as [j Hj | d IH] using json_dict_ind.
  - destruct j; try discriminate; reflexivity.
  - rewrite is_clean_dict. unfold entries_ok. intros H.
    apply andb_true_iff in H. destruct H as [H Hprops].
    apply andb_true_iff in H. destruct H as [Hdis Hok].
    unfold clean. cbn [clean_json_schema]. fold clean.
    rewrite collect_validations_clean by exact Hok.
    rewrite (clean_loop_fixed d []) by assumption.
    cbn [app]. unfold clean_finish. cbn [andb].
    destruct (dict_has "properties" d); [|reflexivity].
    cbn [negb orb] in Hprops. now rewrite Hprops.
Qed.

(** C8.  Cleaning a cleaned schema changes nothing. *)
Theorem clean_json_schema_idempotent (x : json) :
  clean_json_schema py_repr (clean_json_schema py_repr x)
  = clean_json_schema py_repr x.
Proof. apply clean_fixed, clean_is_clean. Qed.

End WithRepr.

End SchemaFacts.

(** ** Streaming translator (streaming.py) *)

Module StreamingFacts.
Import Streaming Spec.

Example scenario2_kinds :
  map kind_of (fst (run_example scenario2_chunks []))
  = [KMessageStart; KStart 0; KDelta 0; KDelta 0; KStop 0;
     KMessageDelta; KMessageStop]
  /\ snd (run_example scenario2_chunks []) = None
  /\ message_start_input_tokens (fst (run_example scenario2_chunks []))
     = Some 5.
Proof. repeat split; vm_compute; reflexivity. Qed.

Example scenario3_events :
  fst (run_example scenario3_chunks [])
  = [message_start "claude-sonnet-4-5" "msg_1" 10;
     content_block_start 0
       [("type", JStr "thinking"); ("thinking", JStr "");
        ("signature", JStr "SIG1")];
     content_block_delta 0
       [("type", JStr "thinking_delta"); ("thinking", JStr "pondering")];
     content_block_stop 0;
     content_block_start 1 [("type", JStr "text"); ("text", JStr "")];
     content_block_delta 1
       [("type", JStr "text_delta"); ("text", JStr "answer")];
     content_block_stop 1;
     _sse_event "message_delta"
       [("type", JStr "message_delta");
        ("delta", JDict [("stop_reason", JStr "end_turn");
                         ("stop_sequence", JNull)]);
        ("usage", JDict [("input_tokens", JInt 10);
                         ("output_tokens", JInt 0)])];
     message_stop].
Proof. vm_compute. reflexivity. Qed.

(** *** the reader of block events *)

Lemma steps_app (c c' c'' : Z * bool) (ks ks' : list kind) :
  steps c ks c' -> steps c' ks' c'' -> steps c (ks ++ ks') c''.
Proof.
  induction 1 as [c|c c1 c2 k ks Hk Hks IH]; intros H; [exact H|].
  cbn [app]. econstructor; [exact Hk | now apply IH].
Qed.

Lemma steps_blocks_from (c c' : Z * bool) (ks : list kind) :
  steps c ks c' -> snd c' = false ->
  (snd c = false -> blocks (fst c + 1) ks)
  /\ (snd c = true ->
      exists deltas rest,
        ks = deltas ++ KStop (fst c) :: rest
        /\ Forall (fun k => k = KDelta (fst c)) deltas
        /\ blocks (fst c + 1) rest).
Proof.
  induction 1 as [c|c c1 c2 k ks Hk Hks IH]; intros Hend.
  - split; [intros _; constructor | congruence].
  - specialize (IH Hend). destruct IH as [IHc IHo].
    destruct Hk as [i|i|i]; cbn [fst snd] in *.
    + split; [intros _|discriminate].
      destruct (IHo eq_refl) as (deltas & rest & -> & Hd & Hb).
      change (KStart (i + 1) :: deltas ++ KStop (i + 1) :: rest)
        with ((KStart (i + 1) :: deltas) ++ [KStop (i + 1)] ++ rest).
      rewrite app_assoc. constructor; [|exact Hb].
      now constructor.
    + split; [discriminate|intros _].
      destruct (IHo eq_refl) as (deltas & rest & -> & Hd & Hb).
      exists (KDelta i :: deltas), rest. repeat split; auto.
    + split; [discriminate|intros _].
      exists [], ks. repeat split; auto.
Qed.

Lemma steps_blocks (ks : list kind) (j : Z) :
  steps (-1, false) ks (j, false) -> blocks 0 ks.
Proof.
  intros H. apply steps_blocks_from in H; [|reflexivity].
  now apply H.
Qed.

(** *** composing writers *)

Lemma appends_trans (fr fr1 fr2 : Frame) (evs1 evs2 : list event) :
  appends fr fr1 evs1 -> appends fr1 fr2 evs2 ->
  appends fr fr2 (evs1 ++ evs2).
Proof.
  unfold appends. intros (S1 & Y1 & R1 & P1 & H1 & I1)
    (S2 & Y2 & R2 & P2 & H2 & I2).
  rewrite S1 in *. repeat split; try congruence.
  - rewrite R2, R1. destruct (message_start_sent fr); [|reflexivity].
    now rewrite app_assoc.
  - rewrite P2, P1. destruct (message_start_sent fr); [reflexivity|].
    now rewrite app_assoc.
Qed.

Lemma appends_refl (fr : Frame) : appends fr fr [].
Proof.
  unfold appends. rewrite !app_nil_r.
  destruct (message_start_sent fr); repeat split; reflexivity.
Qed.

Lemma writes_bind {A B} (P : Frame -> Prop) (m : M A)
    (Q : A -> Frame -> Prop) (f : A -> M B) (R : B -> Frame -> Prop) :
  writes P m Q -> (forall a, writes (Q a) (f a) R) -> writes P (bind m f) R.
Proof.
  intros Hm Hf fr HP. unfold bind. specialize (Hm fr HP).
  destruct (m fr) as [[a|e] fr1]; [|exact I].
  destruct Hm as [(evs1 & Ha1 & Hs1) HQ]. specialize (Hf a fr1 HQ).
  destruct (f a fr1) as [[b|e] fr2]; [|exact I].
  destruct Hf as [(evs2 & Ha2 & Hs2) HR]. split; [|exact HR].
  exists (evs1 ++ evs2). split; [now apply appends_trans with fr1|].
  rewrite map_app. now apply steps_app with (cur fr1).
Qed.

Lemma writes_conseq {A} (P P' : Frame -> Prop) (m : M A)
    (Q Q' : A -> Frame -> Prop) :
  writes P m Q -> (forall fr, P' fr -> P fr) ->
  (forall a fr, Q a fr -> Q' a fr) -> writes P' m Q'.
Proof.
  intros Hm HP HQ fr HP'. specialize (Hm fr (HP fr HP')).
  destruct (m fr) as [[a|e] fr1]; [|exact I].
  destruct Hm as [Hev Hq]. split; [exact Hev | now apply HQ].
Qed.

Lemma writes_ret {A} (P : Frame -> Prop) (a : A) :
  writes P (ret a) (fun _ fr => P fr).
Proof.
  intros fr HP. cbn. split; [|exact HP].
  exists []. split; [apply appends_refl | constructor].
Qed.

Lemma writes_ret_post {A} (P : Frame -> Prop) (a : A)
    (Q : A -> Frame -> Prop) :
  (forall fr, P fr -> Q a fr) -> writes P (ret a) Q.
Proof.
  intros H fr HP. cbn. split; [|now apply H].
  exists []. split; [apply appends_refl | constructor].
Qed.

Lemma writes_lift {A} (P : Frame -> Prop) (r : result A) :
  writes P (lift r) (fun _ fr => P fr).
Proof.
  intros fr HP. unfold lift. destruct r; [|exact I]. split; [|exact HP].
  exists []. split; [apply appends_refl | constructor].
Qed.

Lemma writes_gets {A} (P : Frame -> Prop) (f : Frame -> A) :
  writes P (gets f) (fun a fr => a = f fr /\ P fr).
Proof.
  intros fr HP. cbn. split; [|now split].
  exists []. split; [apply appends_refl | constructor].
Qed.

(** *** the statements of the loop body that hand events on *)

Ltac open_frame fr :=
  destruct fr as
    [[mid mdl btype bidx sig tool itok otok hin hout fin] sent pend buf rdy yld].

Ltac run_frame :=
  cbv beta iota zeta delta
    [epilogue bind gets modify ret lift close_block_if_open open_text_block
     _next_index yield_or_enqueue enqueue send_message_start ready_append
     yield_ready with_state with_sent with_pending
     with_buffer with_ready with_yielded state message_start_sent
     pending_output thinking_text_buffer ready_output yielded set_block
     message_id model _current_block_type _current_block_index
     _current_thinking_signature has_tool_use input_tokens output_tokens
     has_input_tokens has_output_tokens finish_reason negb].

Ltac handed_on :=
  unfold appends; cbn;
  rewrite <- ?app_assoc; cbn [app];
  first [ exists []; rewrite ?app_nil_r; split;
          [repeat split; reflexivity | constructor]
        | eexists; split;
          [repeat split; reflexivity | cbn; repeat econstructor] ].

Lemma writes_emit_delta (idx : Z) (delta : dict) :
  writes (fun fr => idx = _current_block_index (state fr) /\ opened fr)
    (emit (content_block_delta idx delta)) (fun _ fr => opened fr).
Proof.
  intros fr [-> Hopen]. open_frame fr. unfold opened in *. cbn in *.
  destruct btype; [|discriminate].
  destruct sent; cbn; (split; [handed_on | reflexivity]).
Qed.

Lemma writes_close_and_emit :
  writes (fun _ => True) close_and_emit (fun _ fr => closed fr).
Proof.
  intros fr _. open_frame fr. unfold closed. cbn.
  destruct btype, sent; cbn; (split; [handed_on | reflexivity]).
Qed.

Lemma writes_open_text :
  writes closed (evt <- open_text_block ;; emit evt) (fun _ fr => opened fr).
Proof.
  intros fr Hc. open_frame fr. unfold closed, opened in *. cbn in *.
  destruct btype; [discriminate|].
  destruct sent; cbn; (split; [handed_on | reflexivity]).
Qed.

Lemma writes_open_thinking (signature : json) :
  writes closed (evt <- open_thinking_block signature ;; emit evt)
    (fun _ fr => opened fr).
Proof.
  intros fr Hc. open_frame fr. unfold closed, opened in *. cbn in *.
  destruct btype; [discriminate|].
  destruct sent, (truthy signature); cbn;
    (split; [handed_on | reflexivity]).
Qed.

Lemma writes_any {A} (P : Frame -> Prop) (m : M A) (Q : A -> Frame -> Prop) :
  writes P m Q -> writes P m (fun _ _ => True).
Proof.
  intros H. eapply writes_conseq; [exact H | |].
  - intros fr HP. exact HP.
  - intros a fr _. exact I.
Qed.

Lemma writes_weaken {A} (P : Frame -> Prop) (m : M A)
    (Q : A -> Frame -> Prop) :
  writes (fun _ => True) m Q -> writes P m Q.
Proof.
  intros H. eapply writes_conseq; [exact H | |].
  - intros fr _. exact I.
  - intros a fr HQ. exact HQ.
Qed.

Lemma block_is_opened (t : string) (fr : Frame) :
  block_is t fr = true -> opened fr.
Proof.
  unfold block_is, opened, cur. cbn.
  destruct (_current_block_type (state fr)); [reflexivity | discriminate].
Qed.

Lemma writes_set_buffer (P : Frame -> Prop) (g : Frame -> string) :
  (forall fr, P fr -> P (with_buffer (g fr) fr)) ->
  writes P (modify (fun fr => with_buffer (g fr) fr)) (fun _ fr => P fr).
Proof.
  intros HP fr Hfr. cbn. split; [|now apply HP].
  open_frame fr. destruct sent; handed_on.
Qed.

Lemma writes_delta_here (delta : dict) :
  writes opened
    (idx <- gets (fun fr => _current_block_index (state fr)) ;;
     emit (content_block_delta idx delta))
    (fun _ fr => opened fr).
Proof.
  eapply writes_bind; [apply writes_gets|].
  intros idx. apply writes_emit_delta.
Qed.

Lemma writes_emit_delta_from (P : Frame -> Prop) (idx : Z) (delta : dict) :
  (forall fr, P fr -> idx = _current_block_index (state fr) /\ opened fr) ->
  writes P (emit (content_block_delta idx delta)) (fun _ fr => opened fr).
Proof.
  intros H. eapply writes_conseq; [apply (writes_emit_delta idx delta) | |].
  - exact H.
  - intros a fr Ho. exact Ho.
Qed.

Lemma writes_ensure_thinking (P : Frame -> Prop) (signature : json)
    (is_thinking : bool) :
  (forall fr, P fr -> is_thinking = block_is "thinking" fr) ->
  writes P
    (if negb is_thinking then
       close_and_emit ;;
       evt <- open_thinking_block signature ;; emit evt
     else ret tt)
    (fun _ fr => opened fr).
Proof.
  intros HP. destruct is_thinking; cbn [negb].
  - apply writes_ret_post. intros fr H. apply HP in H. symmetry in H.
    now apply block_is_opened in H.
  - eapply writes_bind; [apply writes_weaken, writes_close_and_emit|].
    intros ?. apply writes_open_thinking.
Qed.

Lemma writes_ensure_text (P : Frame -> Prop) (is_text : bool) :
  (forall fr, P fr -> is_text = block_is "text" fr) ->
  writes P
    (if negb is_text then
       close_and_emit ;;
       evt <- open_text_block ;; emit evt
     else ret tt)
    (fun _ fr => opened fr).
Proof.
  intros HP. destruct is_text; cbn [negb].
  - apply writes_ret_post. intros fr H. apply HP in H. symmetry in H.
    now apply block_is_opened in H.
  - eapply writes_bind; [apply writes_weaken, writes_close_and_emit|].
    intros ?. apply writes_open_text.
Qed.

Section Translator.

Variable json_loads : string -> option json.
Variable json_dumps : json -> string.
Variable py_repr : json -> string.
Variable int_of_str : string -> option Z.
Variable exn_str : exn -> string.
Variable uuid4_hex : Z -> string.
Variable model_arg : string.
Variable message_id_arg : string.
Variable initial_input_tokens : Z.
Variable credential_manager : option CredentialManager.
Variable credential_name : option string.
Variable client_thinking_enabled : bool.
Variable thinking_to_text : bool.

Let part_of :=
  process_part json_dumps py_repr uuid4_hex client_thinking_enabled
    thinking_to_text.

(** One part hands on block events only, from where the translator stands. *)
Lemma writes_process_part (part : json) :
  writes (fun _ => True) (part_of part) (fun _ _ => True).
Proof.
  unfold part_of, process_part.
  destruct part as [| | | | | |p]; try apply writes_ret.
  cbv zeta. eapply writes_bind; [apply writes_gets|]. intros fr0.
  eapply writes_bind with (Q := fun _ _ => True).
  { intros fr [-> _].
    destruct (truthy (dict_get_default "thoughtSignature" JNull p)
              && block_is "thinking" fr
              && negb (truthy (_current_thinking_signature (state fr))))
      eqn:Hc.
    - apply andb_true_iff in Hc. destruct Hc as [Hc _].
      apply andb_true_iff in Hc. destruct Hc as [_ Hc].
      apply block_is_opened in Hc. unfold opened in Hc.
      open_frame fr. cbn in *. destruct btype; [|discriminate].
      destruct sent; cbn; (split; [handed_on | exact I]).
    - cbn. split; [|exact I].
      exists []. split; [apply appends_refl | constructor]. }
  intros _.
  assert (Hother :
    writes (fun _ => True)
      (if dict_has "text" p then
         let text := dict_get_default "text" (JStr "") p in
         if match text with JStr t => strip t =? "" | _ => false end
         then ret tt
         else
           is_text <- gets (block_is "text") ;;
           (if negb is_text then
              close_and_emit ;; evt <- open_text_block ;; emit evt
            else ret tt) ;;
           buffer <- gets thinking_text_buffer ;;
           (if negb (buffer =? "") then
              idx <- gets (fun fr => _current_block_index (state fr)) ;;
              emit (content_block_delta idx
                      [("type", JStr "text_delta");
                       ("text",
                        JStr (wrap_thinking buffer
                                (Converter.newline ++ Converter.newline)))]) ;;
              modify (with_buffer "")
            else ret tt) ;;
           if truthy text then
             idx <- gets (fun fr => _current_block_index (state fr)) ;;
             emit (content_block_delta idx
                     [("type", JStr "text_delta"); ("text", text)])
           else ret tt
       else if dict_has "inlineData" p then
         close_and_emit ;;
         let inline :=
           py_or (dict_get_default "inlineData" (JDict []) p) (JDict []) in
         idx <- _next_index ;;
         media_type <- lift (py_get inline "mimeType" (JStr "image/png")) ;;
         data <- lift (py_get inline "data" (JStr "")) ;;
         let block :=
           [("type", JStr "image");
            ("source", JDict [("type", JStr "base64");
                              ("media_type", media_type);
                              ("data", data)])] in
         emit (content_block_start idx block) ;;
         emit (content_block_stop idx)
       else if dict_has "functionCall" p then
         close_and_emit ;;
         modify (with_state set_has_tool_use) ;;
         let fc :=
           py_or (dict_get_default "functionCall" (JDict []) p) (JDict []) in
         fc_id <- lift (py_get fc "id" JNull) ;;
         before <- gets (fun fr => _current_block_index (state fr)) ;;
         let tool_id :=
           py_or fc_id (JStr ("toolu_" ++ uuid4_hex before)%string) in
         fc_name <- lift (py_get fc "name" JNull) ;;
         let tool_name := py_or fc_name (JStr "") in
         fc_args <- lift (py_get fc "args" (JDict [])) ;;
         let tool_args :=
           remove_nulls_for_tool_input (py_or fc_args (JDict [])) in
         idx <- _next_index ;;
         let input_json := json_dumps tool_args in
         emit (content_block_start idx
                 [("type", JStr "tool_use"); ("id", tool_id);
                  ("name", tool_name); ("input", JDict [])]) ;;
         emit (content_block_delta idx
                 [("type", JStr "input_json_delta");
                  ("partial_json", JStr input_json)]) ;;
         emit (content_block_stop idx)
       else ret tt)
      (fun _ _ => True)).
  { destruct (dict_has "text" p).
    - cbv zeta.
      destruct (match dict_get_default "text" (JStr "") p with
                | JStr t => strip t =? ""
                | _ => false
                end); [apply writes_ret|].
      eapply writes_bind; [apply writes_gets|]. intros is_text.
      eapply writes_bind;
        [apply writes_ensure_text; intros fr [H _]; exact H|]. intros ?.
      eapply writes_bind; [apply writes_gets|]. intros buffer.
      eapply writes_bind with (Q := fun _ fr => opened fr).
      + destruct (negb (buffer =? "")).
        * eapply writes_bind; [apply writes_gets|]. intros idx.
          eapply writes_bind;
            [apply writes_emit_delta_from; intros fr (Hi & _ & Ho);
             now split|].
          intros ?.
          apply (writes_set_buffer opened (fun _ => "")).
          intros fr H. exact H.
        * apply writes_ret_post. intros fr [_ H]. exact H.
      + intros ?. destruct (truthy (dict_get_default "text" (JStr "") p)).
        * eapply writes_any. apply writes_delta_here.
        * eapply writes_any. apply writes_ret.
    - destruct (dict_has "inlineData" p).
      + eapply writes_bind; [apply writes_close_and_emit|]. intros ?.
        cbv zeta. intros fr Hc. open_frame fr.
        unfold closed in Hc. cbn in Hc. destruct btype; [discriminate|].
        cbn.
        destruct (py_get _ "mimeType" _); cbn; [|exact I].
        destruct (py_get _ "data" _); cbn; [|exact I].
        destruct sent; cbn; (split; [handed_on | exact I]).
      + destruct (dict_has "functionCall" p); [|apply writes_ret].
        eapply writes_bind; [apply writes_close_and_emit|]. intros ?.
        cbv zeta. intros fr Hc. open_frame fr.
        unfold closed in Hc. cbn in Hc. destruct btype; [discriminate|].
        cbn.
        destruct (py_get _ "id" _); cbn; [|exact I].
        destruct (py_get _ "name" _); cbn; [|exact I].
        destruct (py_get _ "args" _); cbn; [|exact I].
        destruct sent; cbn; (split; [handed_on | exact I]). }
  destruct (dict_get "thought" p) as [[|[|]| | | | |]|]; try exact Hother.
  clear Hother.
  destruct (negb client_thinking_enabled).
  - destruct (thinking_to_text && truthy (dict_get_default "text" (JStr "") p));
      [|apply writes_ret].
    destruct (dict_get_default "text" (JStr "") p);
      try (eapply writes_any; apply writes_lift).
    apply (writes_set_buffer (fun _ => True)
             (fun fr => (thinking_text_buffer fr ++ s)%string)).
    auto.
  - eapply writes_bind; [apply writes_gets|]. intros is_thinking.
    eapply writes_bind;
      [apply writes_ensure_thinking; intros fr [H _]; exact H|]. intros ?.
    destruct (truthy (dict_get_default "text" (JStr "") p)).
    + eapply writes_any. apply writes_delta_here.
    + eapply writes_any. apply writes_ret.
Qed.

Lemma writes_for_each (items : list json) :
  writes (fun _ => True) (for_each part_of items) (fun _ _ => True).
Proof.
  induction items as [|part items IH]; cbn [for_each].
  - apply writes_ret.
  - eapply writes_bind; [apply writes_process_part|]. intros ?. exact IH.
Qed.

(** *** the invariant of the loop *)

Variable R : Z -> Prop.

Let start := message_start model_arg message_id_arg.
Let ok := frame_ok start R.

Lemma hoare_bind {A B} (P : Frame -> Prop) (m : M A)
    (Q : A -> Frame -> Prop) (f : A -> M B) (S : B -> Frame -> Prop) :
  hoare P m Q -> (forall a, hoare (Q a) (f a) S) -> hoare P (bind m f) S.
Proof.
  intros Hm Hf fr HP. unfold bind. specialize (Hm fr HP).
  destruct (m fr) as [[a|e] fr1]; [|exact I].
  now apply Hf.
Qed.

Lemma hoare_lift {A} (P : Frame -> Prop) (r : result A) :
  hoare P (lift r) (fun a fr => r = Ok a /\ P fr).
Proof. intros fr HP. unfold lift. destruct r; [now split | exact I]. Qed.

Lemma hoare_gets {A} (P : Frame -> Prop) (f : Frame -> A) :
  hoare P (gets f) (fun a fr => a = f fr /\ P fr).
Proof. intros fr HP. cbn. now split. Qed.

Lemma hoare_ret {A} (P : Frame -> Prop) (a : A) :
  hoare P (ret a) (fun _ fr => P fr).
Proof. intros fr HP. exact HP. Qed.

Lemma hoare_pre {A} (P P' : Frame -> Prop) (m : M A)
    (Q : A -> Frame -> Prop) :
  hoare P m Q -> (forall fr, P' fr -> P fr) -> hoare P' m Q.
Proof. intros H HP fr Hfr. apply H. now apply HP. Qed.

(** Events handed on keep the invariant. *)
Lemma ok_appends (linked : bool) (fr fr' : Frame) (evs : list event) :
  ok linked fr -> appends fr fr' evs ->
  steps (cur fr) (map kind_of evs) (cur fr') -> ok linked fr'.
Proof.
  unfold ok, frame_ok, appends.
  intros (H1 & H2 & H3) (S & Y & Rd & Pd & Hi & Ht) Hs.
  rewrite S, Y, Rd, Pd, Hi, Ht. split; [exact H1|]. split; [exact H2|].
  destruct (message_start_sent fr).
  - destruct H3 as (Hp & n & body & Hn & Hy & Hb). split; [exact Hp|].
    exists n, (body ++ evs). split; [exact Hn|]. split.
    + now rewrite app_assoc, Hy.
    + rewrite map_app. now apply steps_app with (cur fr).
  - destruct H3 as (Hy & Hr & Hb). split; [exact Hy|]. split; [exact Hr|].
    rewrite map_app. now apply steps_app with (cur fr).
Qed.

Lemma hoare_writes {A} (linked : bool) (m : M A) (Q : A -> Frame -> Prop) :
  writes (fun _ => True) m Q -> hoare (ok linked) m (fun _ fr => ok linked fr).
Proof.
  intros Hm fr Hok. specialize (Hm fr I).
  destruct (m fr) as [[a|e] fr1]; [|exact I].
  destruct Hm as [(evs & Ha & Hs) _]. now apply ok_appends with fr evs.
Qed.

Lemma hoare_pre_prop {A} (phi : Prop) (P : Frame -> Prop) (m : M A)
    (Q : A -> Frame -> Prop) :
  (phi -> hoare P m Q) -> hoare (fun fr => phi /\ P fr) m Q.
Proof. intros H fr [Hphi HP]. now apply H. Qed.

Let int := py_int int_of_str.

(** The capture of the usage metadata keeps the invariant, the link
    between tokens and [message_start] apart. *)
Lemma hoare_capture_usage (response candidate : dict) :
  (forall x n,
     dict_get "promptTokenCount" (pick_usage_metadata response candidate)
     = Some x ->
     int (py_or x (JInt 0)) = Ok n -> R n) ->
  hoare (ok true) (capture_usage int_of_str response candidate)
    (fun _ fr => ok false fr).
Proof.
  intros HR fr Hok. unfold capture_usage. cbv zeta.
  set (usage := pick_usage_metadata response candidate) in *.
  fold int.
  destruct (dict_get "promptTokenCount" usage) as [x|] eqn:Hx;
    [specialize (HR x); destruct (int (py_or x (JInt 0))) as [n|e];
     [specialize (HR n eq_refl eq_refl)|]|];
    (destruct (dict_get "candidatesTokenCount" usage) as [y|];
     [destruct (int (py_or y (JInt 0))) as [n'|e']|]);
    cbn; try exact I;
    unfold ok, frame_ok in *; cbn;
    destruct Hok as (H1 & H2 & H3);
    (split; [|split]); auto;
    try (intros Hs; rewrite H1; exact Hs).
Qed.

Lemma hoare_send_message_start (fr0 : Frame) :
  hoare (fun fr => fr0 = fr /\ ok false fr)
    (if has_input_tokens (state fr0) && negb (message_start_sent fr0)
     then send_message_start model_arg message_id_arg
            (input_tokens (state fr0))
     else ret tt)
    (fun _ fr => ok true fr).
Proof.
  intros fr [-> Hok]. unfold ok, frame_ok in *.
  destruct Hok as (H1 & H2 & H3).
  destruct (has_input_tokens (state fr)) eqn:Hin;
    destruct (message_start_sent fr) eqn:Hsent; cbn [andb negb].
  - cbn. rewrite Hin, Hsent. auto.
  - destruct H3 as (Hy & Hr & Hb). unfold send_message_start.
    open_frame fr. cbn in *. subst. cbn.
    destruct pend as [|e pend]; cbn;
      (split; [reflexivity|]; split; [exact H2|]; split; [reflexivity|]);
      eexists _, _; (split; [now apply H2|]); (split; [reflexivity|]);
      exact Hb.
  - specialize (H1 eq_refl). discriminate.
  - cbn. rewrite Hin, Hsent. auto.
Qed.

Lemma writes_parts (parts : json) (candidate : json) :
  writes (fun _ => True)
    (items <- lift (iterate parts) ;;
     for_each part_of items ;;
     lift (py_get candidate "finishReason" JNull))
    (fun _ _ => True).
Proof.
  eapply writes_bind; [apply writes_lift|]. intros items.
  eapply writes_bind; [apply writes_for_each|]. intros ?.
  eapply writes_any. apply writes_lift.
Qed.

Let chunk_of :=
  process_chunk json_dumps py_repr int_of_str uuid4_hex model_arg
    message_id_arg client_thinking_enabled thinking_to_text.

(** One chunk keeps the invariant when the token count it reports has [R]. *)
Lemma hoare_process_chunk (data : json) :
  (forall x n,
     reported_prompt_tokens data = Some x ->
     int (py_or x (JInt 0)) = Ok n -> R n) ->
  hoare (ok true) (chunk_of data) (fun _ fr => ok true fr).
Proof.
  intros HR. unfold chunk_of, process_chunk.
  eapply hoare_bind; [apply hoare_lift|]. intros response0.
  apply hoare_pre_prop. intros E1. cbv zeta.
  eapply hoare_bind; [apply hoare_lift|]. intros candidates.
  apply hoare_pre_prop. intros E2.
  eapply hoare_bind; [apply hoare_lift|]. intros candidate0.
  apply hoare_pre_prop. intros E3.
  eapply hoare_bind; [apply hoare_lift|]. intros content0.
  apply hoare_pre_prop. intros E4.
  eapply hoare_bind; [apply hoare_lift|]. intros parts0.
  apply hoare_pre_prop. intros E5.
  destruct data as [| | | | | |d]; try discriminate E1.
  cbn [py_get] in E1. injection E1 as <-.
  unfold reported_prompt_tokens in HR.
  destruct (py_or (dict_get_default "response" (JDict []) d) (JDict []))
    as [| | | | | |response]; try discriminate E2.
  cbn [py_get] in E2. injection E2 as <-.
  rewrite E3 in HR.
  destruct (py_or candidate0 (JDict [])) as [| | | | | |candidate];
    try discriminate E4.
  eapply hoare_bind; [now apply hoare_capture_usage|]. intros ?.
  eapply hoare_bind; [apply hoare_gets|]. intros fr0.
  eapply hoare_bind; [apply hoare_send_message_start|]. intros ?.
  eapply hoare_writes. apply writes_parts.
Qed.

Lemma ok_yield (fr : Frame) :
  ok true fr -> ok true (with_ready [] (yield_ready fr)).
Proof.
  unfold ok, frame_ok. open_frame fr. cbn. intros (H1 & H2 & H3).
  split; [exact H1|]. split; [exact H2|]. destruct sent.
  - destruct H3 as (Hp & n & body & Hn & Hy & Hb). split; [exact Hp|].
    exists n, body. now rewrite app_nil_r.
  - destruct H3 as (-> & -> & Hb). auto.
Qed.

Let read :=
  read_lines json_loads json_dumps py_repr int_of_str uuid4_hex model_arg
    message_id_arg credential_manager credential_name
    client_thinking_enabled thinking_to_text.

(** The loop keeps the invariant when every token count the lines report
    has [R]. *)
Lemma read_lines_ok (lines : list string) :
  (forall line data x n,
     In line lines ->
     json_loads (strip (drop 6 line)) = Some data ->
     reported_prompt_tokens data = Some x ->
     int (py_or x (JInt 0)) = Ok n -> R n) ->
  forall (success_recorded : bool) (fr : Frame),
    ok true (with_ready [] fr) ->
    match fst (read lines success_recorded fr) with
    | (Ok _, fr') => ok true (with_ready [] fr')
    | (Raise _, _) => True
    end.
Proof.
  unfold read.
  induction lines as [|line lines IH]; intros HR rec fr Hok.
  - exact Hok.
  - cbn [read_lines]. cbv zeta.
    assert (HR' : forall line data x n,
               In line lines ->
               json_loads (strip (drop 6 line)) = Some data ->
               reported_prompt_tokens data = Some x ->
               int (py_or x (JInt 0)) = Ok n -> R n).
    { intros l d x n Hl. apply HR. now right. }
    destruct ((line =? "") || negb (String.prefix "data: " line)).
    { apply IH; [exact HR' | exact Hok]. }
    destruct (strip (drop 6 line) =? "[DONE]"); [exact Hok|].
    destruct (record_success _ _ rec) as [rec1|e]; [|exact I].
    destruct (json_loads (strip (drop 6 line))) as [data|] eqn:Hdata.
    2:{ apply IH; [exact HR' | exact Hok]. }
    pose proof (hoare_process_chunk data
                  (fun x n => HR line data x n (or_introl eq_refl) Hdata))
      as Hchunk.
    specialize (Hchunk (with_ready [] fr) Hok). unfold chunk_of in Hchunk.
    destruct (process_chunk _ _ _ _ _ _ _ _ data (with_ready [] fr))
      as [[finish|e] fr1]; [|exact I].
    apply ok_yield in Hchunk.
    destruct (truthy finish); [exact Hchunk|].
    apply IH; [exact HR' | exact Hchunk].
Qed.

Lemma cons_snoc {A} (x : A) (l l0 t : list A) :
  l = l0 ++ t -> x :: l = (x :: l0) ++ t.
Proof. now intros ->. Qed.

Lemma nil_snoc {A} (t : list A) : t = [] ++ t.
Proof. reflexivity. Qed.

Let est := initial_input_tokens_int initial_input_tokens.
Let finish_up := epilogue model_arg message_id_arg initial_input_tokens.

(** After the loop: the epilogue does not raise, and what has been yielded
    when it ends is [message_start], complete blocks, [message_delta] and
    [message_stop]. *)
Lemma flush_pending_ready_eq (fr : Frame) :
  flush_pending_ready fr
  = (Ok tt,
     with_pending [] (with_ready (ready_output fr ++ pending_output fr) fr)).
Proof.
  open_frame fr. unfold flush_pending_ready, modify. cbn.
  destruct pend; [now rewrite app_nil_r | reflexivity].
Qed.

Lemma app_snoc {A} (body l l0 t : list A) :
  l = l0 ++ t -> body ++ l = (body ++ l0) ++ t.
Proof. intros ->. now rewrite app_assoc. Qed.

Ltac split_tail :=
  apply (f_equal (cons _)); apply app_snoc;
  repeat first [apply nil_snoc | apply cons_snoc].

Lemma epilogue_shape (fr : Frame) :
  ok true (with_ready [] fr) ->
  exists fr',
    finish_up fr = (Ok tt, fr')
    /\ exists n body stop_reason j,
         yielded fr'
         = start n :: body
           ++ [message_delta initial_input_tokens stop_reason (state fr');
               message_stop]
         /\ steps (-1, false) (map kind_of body) (j, false)
         /\ ((has_input_tokens (state fr') = true
              /\ R n /\ R (input_tokens (state fr')))
             \/ (has_input_tokens (state fr') = false /\ n = est)).
Proof.
  unfold ok, frame_ok, finish_up. open_frame fr.
  cbn [with_ready state message_start_sent pending_output yielded
       ready_output has_input_tokens input_tokens cur _current_block_index
       _current_block_type].
  intros (H1 & H2 & H3). subst hin.
  destruct sent.
  - destruct H3 as (-> & n & body & Hn & Hy & Hb).
    rewrite app_nil_r in Hy. subst yld. specialize (H2 eq_refl).
    run_frame. destruct (buf =? ""), btype as [t|]; run_frame;
      (eexists; split; [reflexivity|]); run_frame;
      rewrite <- ?app_assoc; cbn [app];
      exists n; eexists _, _, _;
      (split; [split_tail|]);
      (split; [|left; auto]);
      rewrite map_app; (eapply steps_app; [exact Hb|]);
      cbn; repeat econstructor.
  - destruct H3 as (-> & _ & Hb).
    run_frame. destruct (buf =? ""), btype as [t|]; run_frame;
      rewrite flush_pending_ready_eq; run_frame;
      (eexists; split; [reflexivity|]); run_frame;
      rewrite <- ?app_assoc; cbn [app];
      exists est; eexists _, _, _;
      (split; [split_tail|]);
      (split; [|right; auto]);
      rewrite map_app; (eapply steps_app; [exact Hb|]);
      cbn; repeat econstructor.
Qed.

Let run :=
  antigravity_sse_to_anthropic_sse json_loads json_dumps py_repr int_of_str
    exn_str uuid4_hex model_arg message_id_arg initial_input_tokens
    credential_manager credential_name client_thinking_enabled
    thinking_to_text.

Lemma ok_init_frame : ok true (with_ready [] (init_frame model_arg message_id_arg)).
Proof.
  unfold ok, frame_ok. cbn. split; [reflexivity|].
  split; [discriminate|]. repeat split. constructor.
Qed.

(** A stream that is translated to its end is [message_start], complete
    blocks, [message_delta], [message_stop]; [message_start] carries a
    reported token count when [message_delta] does, and the estimate
    otherwise. *)
Lemma run_completed_shape (lines : list string) (events : list event) :
  (forall line data x n,
     In line lines ->
     json_loads (strip (drop 6 line)) = Some data ->
     reported_prompt_tokens data = Some x ->
     int (py_or x (JInt 0)) = Ok n -> R n) ->
  run lines = (events, None) ->
  exists n body stop_reason st j,
    events
    = start n :: body
      ++ [message_delta initial_input_tokens stop_reason st; message_stop]
    /\ steps (-1, false) (map kind_of body) (j, false)
    /\ ((has_input_tokens st = true /\ R n /\ R (input_tokens st))
        \/ (has_input_tokens st = false /\ n = est)).
Proof.
  intros HR. unfold run, antigravity_sse_to_anthropic_sse.
  pose proof (read_lines_ok lines HR false _ ok_init_frame) as Hloop.
  unfold read in Hloop.
  destruct (fst (read_lines _ _ _ _ _ _ _ _ _ _ _ lines false _))
    as [[u|e] fr]; [|discriminate].
  destruct (epilogue_shape fr Hloop)
    as (fr' & Hrun & n & body & sr & j & Hy & Hs & Ht).
  unfold finish_up in Hrun. rewrite Hrun. intros H. injection H as <-.
  exists n, body, sr, (state fr'), j. auto.
Qed.

End Translator.

(** C1.  A stream the translator consumes without raising comes out as one
    [message_start], then complete content blocks with the indices 0, 1,
    2, ... (each a start, its deltas, its stop, before the next start),
    then one [message_delta] and one [message_stop]. *)
Theorem completed_stream_is_valid
    (json_loads : string -> option json) (json_dumps py_repr : json -> string)
    (int_of_str : string -> option Z) (exn_str : exn -> string)
    (uuid4_hex : Z -> string) (model_arg message_id_arg : string)
    (initial_input_tokens : Z) (credential_manager : option CredentialManager)
    (credential_name : option string)
    (client_thinking_enabled thinking_to_text : bool)
    (lines : list string) (events : list event) :
  antigravity_sse_to_anthropic_sse json_loads json_dumps py_repr int_of_str
    exn_str uuid4_hex model_arg message_id_arg initial_input_tokens
    credential_manager credential_name client_thinking_enabled
    thinking_to_text lines = (events, None) ->
  valid_stream (map kind_of events).
Proof.
  intros Hrun.
  apply (run_completed_shape json_loads json_dumps py_repr int_of_str exn_str
           uuid4_hex model_arg message_id_arg initial_input_tokens
           credential_manager credential_name client_thinking_enabled
           thinking_to_text (fun _ => True)) in Hrun; [|auto].
  destruct Hrun as (n & body & sr & st & j & -> & Hs & _).
  exists (map kind_of body). split; [now apply steps_blocks with j|].
  cbn [map]. rewrite map_app. reflexivity.
Qed.

Lemma completed_stream_is_valid_witness :
  valid_stream (map kind_of (fst (run_example scenario3_chunks []))).
Proof.
  apply (completed_stream_is_valid
           (loads_of scenario3_chunks) json_text (fun _ => "")
           (fun _ => None) (fun _ => "") (fun _ => "0")
           "claude-sonnet-4-5" "msg_1" 0 None None true false
           (map data_line scenario3_chunks)).
  vm_compute. reflexivity.
Defined.




(** *** lines the loop passes over *)

Section IgnoredLines.

Variable json_loads : string -> option json.
Variable json_dumps : json -> string.
Variable py_repr : json -> string.
Variable int_of_str : string -> option Z.
Variable exn_str : exn -> string.
Variable uuid4_hex : Z -> string.
Variable model_arg : string.
Variable message_id_arg : string.
Variable initial_input_tokens : Z.
Variable credential_manager : option CredentialManager.
Variable credential_name : option string.
Variable client_thinking_enabled : bool.
Variable thinking_to_text : bool.

Let read :=
  read_lines json_loads json_dumps py_repr int_of_str uuid4_hex model_arg
    message_id_arg credential_manager credential_name
    client_thinking_enabled thinking_to_text.
Let finish_up := epilogue model_arg message_id_arg initial_input_tokens.
Let run :=
  antigravity_sse_to_anthropic_sse json_loads json_dumps py_repr int_of_str
    exn_str uuid4_hex model_arg message_id_arg initial_input_tokens
    credential_manager credential_name client_thinking_enabled
    thinking_to_text.

(** Two frames that differ in [ready_output] at most. *)
Let alike (fr1 fr2 : Frame) : Prop := with_ready [] fr1 = with_ready [] fr2.

Let alike_results (r1 r2 : result unit * Frame) : Prop :=
  fst r1 = fst r2 /\ alike (snd r1) (snd r2).

(** With a record call that returns, the call returns whatever
    [success_recorded] is. *)
Lemma record_success_quiet (rec : bool) :
  records_quietly credential_manager credential_name ->
  exists rec', record_success credential_manager credential_name rec = Ok rec'.
Proof.
  unfold records_quietly, record_success. intros Hq.
  destruct rec; [now exists true|].
  destruct credential_manager as [manager|]; [|now exists false].
  destruct (Rules.set_str credential_name) as [name|]; [|now exists false].
  rewrite Hq. now exists true.
Qed.

(** With a record call that returns, what the loop does to the frame
    does not depend on [success_recorded]. *)
Lemma read_lines_any_flag (lines : list string) (rec rec' : bool)
    (fr : Frame) :
  records_quietly credential_manager credential_name ->
  fst (read lines rec fr) = fst (read lines rec' fr).
Proof.
  intros Hq. unfold read. revert rec rec' fr.
  induction lines as [|line lines IH]; intros rec rec' fr; [reflexivity|].
  cbn [read_lines]. cbv zeta.
  destruct ((line =? "") || negb (String.prefix "data: " line));
    [apply IH|].
  destruct (strip (drop 6 line) =? "[DONE]"); [reflexivity|].
  destruct (record_success_quiet rec Hq) as [rec1 ->].
  destruct (record_success_quiet rec' Hq) as [rec1' ->].
  destruct (json_loads (strip (drop 6 line))) as [data|]; [|apply IH].
  destruct (process_chunk _ _ _ _ _ _ _ _ data (with_ready [] fr))
    as [[finish|e] fr1]; [|reflexivity].
  destruct (truthy finish); [reflexivity | apply IH].
Qed.

(** The loop starts every pass with an empty [ready_output]. *)
Lemma read_lines_alike (lines : list string) (rec : bool)
    (fr1 fr2 : Frame) :
  alike fr1 fr2 ->
  alike_results (fst (read lines rec fr1)) (fst (read lines rec fr2)).
Proof.
  unfold alike_results, alike. intros H.
  destruct lines as [|line lines]; [now split|].
  unfold read. cbn [read_lines]. cbv zeta. rewrite H. now split.
Qed.

Lemma read_lines_alike_quiet (lines : list string) (rec rec' : bool)
    (fr1 fr2 : Frame) :
  records_quietly credential_manager credential_name ->
  alike fr1 fr2 ->
  alike_results (fst (read lines rec fr1)) (fst (read lines rec' fr2)).
Proof.
  intros Hq H. rewrite (read_lines_any_flag lines rec rec' fr1 Hq).
  now apply read_lines_alike.
Qed.

(** The loop on a line it passes over is the loop on the lines that
    follow, from the frame as it is; a ["data: "] line reaches the record
    call first. *)
Lemma read_lines_pass (line : string) (rest : list string) (rec : bool)
    (fr : Frame) :
  ignored_line json_loads line = true ->
  (String.prefix "data: " line = true ->
   records_quietly credential_manager credential_name) ->
  exists rec',
    read (line :: rest) rec fr = read rest rec' (with_ready [] fr)
    /\ (rec' = rec \/ records_quietly credential_manager credential_name).
Proof.
  intros Hline Hq. unfold read. cbn [read_lines]. cbv zeta.
  unfold ignored_line in Hline.
  destruct (line =? "") eqn:Hempty; cbn [orb] in *; [exists rec; auto|].
  destruct (String.prefix "data: " line); cbn [negb orb] in *;
    [|exists rec; auto].
  apply andb_true_iff in Hline. destruct Hline as [Hdone Hjson].
  apply negb_true_iff in Hdone. rewrite Hdone.
  specialize (Hq eq_refl).
  destruct (record_success_quiet rec Hq) as [rec1 ->].
  destruct (json_loads (strip (drop 6 line))); [discriminate|].
  exists rec1. auto.
Qed.

Lemma read_lines_skip (pre post : list string) (line : string)
    (rec : bool) (fr : Frame) :
  ignored_line json_loads line = true ->
  (String.prefix "data: " line = true ->
   records_quietly credential_manager credential_name) ->
  alike_results (fst (read (pre ++ line :: post) rec fr))
    (fst (read (pre ++ post) rec fr)).
Proof.
  intros Hline Hq. revert rec fr.
  induction pre as [|x pre IH]; intros rec fr.
  - cbn [app].
    destruct (read_lines_pass line post rec fr Hline Hq) as (rec' & -> & H).
    destruct H as [-> | H].
    + apply read_lines_alike. reflexivity.
    + apply read_lines_alike_quiet; [exact H | reflexivity].
  - cbn [app]. unfold read in *. cbn [read_lines]. cbv zeta.
    destruct ((x =? "") || negb (String.prefix "data: " x)); [apply IH|].
    destruct (strip (drop 6 x) =? "[DONE]"); [now split|].
    destruct (record_success _ _ rec) as [rec1|e]; [|now split].
    destruct (json_loads (strip (drop 6 x))) as [data|]; [|apply IH].
    destruct (process_chunk _ _ _ _ _ _ _ _ data (with_ready [] fr))
      as [[finish|e] fr1]; [|now split].
    destruct (truthy finish); [now split | apply IH].
Qed.

(** The epilogue does not read a [ready_output] left by the loop. *)
Lemma epilogue_alike (fr1 fr2 : Frame) :
  alike fr1 fr2 ->
  fst (finish_up fr1) = fst (finish_up fr2)
  /\ yielded (snd (finish_up fr1)) = yielded (snd (finish_up fr2))
  /\ message_start_sent (snd (finish_up fr1))
     = message_start_sent (snd (finish_up fr2)).
Proof.
  unfold alike, finish_up.
  destruct fr1 as [st1 sent1 pend1 buf1 rdy1 yld1].
  destruct fr2 as [st2 sent2 pend2 buf2 rdy2 yld2].
  unfold with_ready. cbn [state message_start_sent pending_output
                          thinking_text_buffer yielded].
  intros H. injection H as -> -> -> -> ->.
  destruct st2 as [mid mdl btype bidx sig tool itok otok hin hout fin].
  run_frame.
  destruct (buf2 =? ""), btype, sent2; run_frame;
    rewrite ?flush_pending_ready_eq; run_frame; repeat split; reflexivity.
Qed.

Lemma run_skip_line (pre post : list string) (line : string) :
  ignored_line json_loads line = true ->
  (String.prefix "data: " line = true ->
   records_quietly credential_manager credential_name) ->
  run (pre ++ line :: post) = run (pre ++ post).
Proof.
  intros Hline Hq. unfold run, antigravity_sse_to_anthropic_sse.
  pose proof (read_lines_skip pre post line false
                (init_frame model_arg message_id_arg) Hline Hq) as [Hr Hfr].
  unfold read in Hr, Hfr.
  destruct (fst (read_lines _ _ _ _ _ _ _ _ _ _ _ (pre ++ line :: post) _ _))
    as [r1 fr1].
  destruct (fst (read_lines _ _ _ _ _ _ _ _ _ _ _ (pre ++ post) _ _))
    as [r2 fr2].
  cbn [fst snd] in Hr, Hfr. subst r2.
  assert (Hy : yielded fr1 = yielded fr2)
    by (apply (f_equal yielded) in Hfr; exact Hfr).
  assert (Hs : message_start_sent fr1 = message_start_sent fr2)
    by (apply (f_equal message_start_sent) in Hfr; exact Hfr).
  destruct r1 as [u|e].
  - destruct (epilogue_alike fr1 fr2 Hfr) as (He & Hey & Hes).
    unfold finish_up in He, Hey, Hes.
    destruct (epilogue _ _ _ fr1) as [q1 f1].
    destruct (epilogue _ _ _ fr2) as [q2 f2].
    cbn [fst snd] in He, Hey, Hes. subst q2.
    destruct q1; unfold on_exception; now rewrite Hey, ?Hes.
  - unfold on_exception. now rewrite Hy, Hs.
Qed.

(** A stream of such lines only is the stream of no line at all:
    [message_start] with the estimate, [message_delta], [message_stop]. *)
Lemma ignored_lines_only (lines : list string) :
  forallb (ignored_line json_loads) lines = true ->
  (existsb (String.prefix "data: ") lines = true ->
   records_quietly credential_manager credential_name) ->
  run lines = run []
  /\ map kind_of (fst (run []))
     = [KMessageStart; KMessageDelta; KMessageStop]
  /\ snd (run []) = None.
Proof.
  intros H Hq. split; [|split; reflexivity].
  induction lines as [|line lines IH]; [reflexivity|].
  cbn [forallb] in H. apply andb_true_iff in H. destruct H as [Hl Hr].
  cbn [existsb] in Hq.
  rewrite <- IH.
  - apply (run_skip_line [] lines line Hl). intros Hp. apply Hq.
    now rewrite Hp.
  - exact Hr.
  - intros He. apply Hq. rewrite He. apply orb_true_r.
Qed.

End IgnoredLines.

Example unparsed_lines_example :
  map kind_of
    (fst (run_example scenario2_chunks [": keep-alive"; "data: {oops"; ""]))
  = [KMessageStart; KStart 0; KDelta 0; KDelta 0; KStop 0;
     KMessageDelta; KMessageStop]
  /\ map kind_of (fst (run_example [] ["data: {oops"; "event: ping"]))
     = [KMessageStart; KMessageDelta; KMessageStop]
  /\ snd (run_example [] ["data: {oops"; "event: ping"]) = None.
Proof. repeat split; vm_compute; reflexivity. Qed.

End StreamingFacts.

(* ------------------------------------------------------------------ *)
(** * The rest of the code *)

Module ModelNameFacts.
Import Converter Spec Notions.

Lemma stable_targets_supported :
  Forall (fun m => mem m supported_models = true) stable_targets.
Proof. repeat constructor. Qed.

(** Every request model is sent to a model of the supported list, with
    one exception: ["claude-haiku-4"], which is sent to
    ["claude-haiku-4.5"]. *)
Theorem map_claude_model_lands_on_supported (m : string) :
  mem (map_claude_model_to_gemini m) supported_models = true
  \/ (strip m = "claude-haiku-4"
      /\ map_claude_model_to_gemini m = "claude-haiku-4.5").
Proof.
  destruct (String.eqb_spec (strip m) "claude-haiku-4") as [E|E].
  - right. split; [exact E|].
    unfold map_claude_model_to_gemini. rewrite E. reflexivity.
  - left.
    pose proof stable_targets_supported as F. rewrite Forall_forall in F.
    apply F. unfold map_claude_model_to_gemini.
    destruct (strip m =? ""); [ModelMappingFacts.in_list|].
    destruct (match_dated (strip m)) as [g|] eqn:Hd.
    + apply ModelMappingFacts.match_dated_base_in in Hd. simpl in Hd.
      destruct Hd as [<-|[<-|[<-|[]]]]; simpl; ModelMappingFacts.in_list.
    + destruct (strip m =? "claude-opus-4-5"); [ModelMappingFacts.in_list|].
      destruct (strip m =? "claude-sonnet-4-5"); [ModelMappingFacts.in_list|].
      destruct (strip m =? "claude-haiku-4-5"); [ModelMappingFacts.in_list|].
      destruct (mem (strip m) supported_models) eqn:Hs.
      * apply mem_In in Hs. unfold stable_targets. apply in_or_app. now right.
      * now apply ModelMappingFacts.mapping_get_cases.
Qed.

(** *** strings without white space *)

Lemma is_digit_not_space (c : ascii) : is_digit c = true -> is_space c = false.
Proof.
  unfold is_digit, is_space. cbv zeta.
  generalize (nat_of_ascii c). intros n H.
  apply andb_true_iff in H. destruct H as [H1 H2].
  apply Nat.leb_le in H1. apply Nat.leb_le in H2.
  repeat match goal with
         | |- context [(?a <=? ?b)%nat] => destruct (Nat.leb_spec a b)
         | |- context [(?a =? ?b)%nat] => destruct (Nat.eqb_spec a b)
         end; try reflexivity; lia.
Qed.

Lemma no_space_app (a b : string) :
  no_space (a ++ b) = no_space a && no_space b.
Proof.
  induction a as [|c a IH]; [reflexivity|].
  cbn [append no_space]. rewrite IH. now rewrite andb_assoc.
Qed.

Lemma all_digits_no_space (s : string) :
  all_digits s = true -> no_space s = true.
Proof.
  induction s as [|c s IH]; [reflexivity|].
  cbn [all_digits no_space]. intros H. apply andb_true_iff in H.
  destruct H as [Hc Hs]. now rewrite (is_digit_not_space c Hc), IH.
Qed.

Lemma rstrip_no_space (s : string) : no_space s = true -> rstrip s = s.
Proof.
  induction s as [|c s IH]; [reflexivity|].
  cbn [no_space rstrip]. intros H. apply andb_true_iff in H.
  destruct H as [Hc Hs]. apply negb_true_iff in Hc.
  cbv zeta. rewrite Hc, (IH Hs). reflexivity.
Qed.

Lemma strip_no_space (s : string) : no_space s = true -> strip s = s.
Proof.
  intros H. unfold strip.
  assert (L : lstrip s = s).
  { destruct s as [|c s]; [reflexivity|].
    cbn [no_space] in H. apply andb_true_iff in H. destruct H as [Hc _].
    apply negb_true_iff in Hc. cbn [lstrip]. now rewrite Hc. }
  rewrite L. now apply rstrip_no_space.
Qed.

Lemma prefix_app (a b : string) : String.prefix a (a ++ b) = true.
Proof.
  induction a as [|c a IH]; [now destruct b|].
  cbn [append String.prefix]. destruct (ascii_dec c c); [exact IH|congruence].
Qed.

Lemma drop_app (a b : string) : drop (String.length a) (a ++ b) = b.
Proof. induction a as [|c a IH]; [reflexivity | exact IH]. Qed.

Lemma drop_all (s : string) : drop (String.length s) s = "".
Proof. induction s as [|c s IH]; [reflexivity | exact IH]. Qed.

Lemma substring_all (s : string) : substring 0 (String.length s) s = s.
Proof.
  induction s as [|c s IH]; [reflexivity|].
  cbn [String.length substring]. now rewrite IH.
Qed.

Lemma app_assoc_string (a b c : string) : ((a ++ b) ++ c = a ++ b ++ c)%string.
Proof. induction a as [|x a IH]; [reflexivity|]. cbn [append]. now rewrite IH. Qed.

Lemma match_dated_base_dated (base date : string) :
  String.length date = 8%nat ->
  all_digits date = true ->
  match_dated_base base (base ++ "-" ++ date) = true.
Proof.
  intros Hlen Hdigits. unfold match_dated_base. cbv zeta.
  rewrite <- app_assoc_string.
  rewrite prefix_app, drop_app.
  rewrite <- Hlen at 1 3 4.
  rewrite substring_all, drop_all, Hlen, Hdigits. reflexivity.
Qed.

Lemma match_dated_dated (base date : string) :
  In base dated_model_bases ->
  String.length date = 8%nat ->
  all_digits date = true ->
  match_dated (base ++ "-" ++ date) = Some base.
Proof.
  intros Hbase Hlen Hdigits.
  pose proof (match_dated_base_dated base date Hlen Hdigits) as Hm.
  unfold match_dated, dated_model_bases. simpl in Hbase.
  destruct Hbase as [<-|[<-|[<-|[]]]]; cbn [find].
  - now rewrite Hm.
  - replace (match_dated_base "claude-opus-4-5" _) with false
      by (unfold match_dated_base; vm_compute; reflexivity).
    now rewrite Hm.
  - replace (match_dated_base "claude-opus-4-5" _) with false
      by (unfold match_dated_base; vm_compute; reflexivity).
    replace (match_dated_base "claude-sonnet-4-5" _) with false
      by (unfold match_dated_base; vm_compute; reflexivity).
    now rewrite Hm.
Qed.

(** A model name with a date, [claude-(opus|sonnet|haiku)-4-5-YYYYMMDD],
    is mapped as the name without the date. *)
Theorem dated_model_name_is_normalised (base date : string) :
  In base dated_model_bases ->
  String.length date = 8%nat ->
  all_digits date = true ->
  map_claude_model_to_gemini (base ++ "-" ++ date)
  = map_claude_model_to_gemini base.
Proof.
  intros Hbase Hlen Hdigits.
  assert (Hs : strip (base ++ "-" ++ date) = (base ++ "-" ++ date)%string).
  { apply strip_no_space. rewrite !no_space_app.
    rewrite (all_digits_no_space date Hdigits).
    simpl in Hbase. destruct Hbase as [<-|[<-|[<-|[]]]]; reflexivity. }
  unfold map_claude_model_to_gemini at 1. rewrite Hs.
  rewrite (match_dated_dated base date Hbase Hlen Hdigits).
  simpl in Hbase.
  destruct Hbase as [<-|[<-|[<-|[]]]]; reflexivity.
Qed.

Lemma dated_model_name_is_normalised_witness :
  map_claude_model_to_gemini ("claude-haiku-4-5" ++ "-" ++ "20251001")
  = map_claude_model_to_gemini "claude-haiku-4-5".
Proof.
  apply dated_model_name_is_normalised.
  - simpl. auto.
  - reflexivity.
  - reflexivity.
Defined.

Lemma map_claude_model_idempotent_elsewhere_witness :
  map_claude_model_to_gemini (map_claude_model_to_gemini "claude-opus-4")
  = map_claude_model_to_gemini "claude-opus-4".
Proof.
  apply ModelMappingFacts.map_claude_model_idempotent_elsewhere.
  vm_compute. discriminate.
Defined.

End ModelNameFacts.

Module ThinkingConfigFacts.
Import Converter Spec Notions.

Section WithRepr.

Variable py_repr : json -> string.

Lemma get_thinking_config_shape (thinking : json) :
  exists b,
    get_thinking_config thinking
    = ("includeThoughts", JBool b)
      :: (if b then [("thinkingBudget",
                      dict_get_default "thinkingBudget" JNull
                        (get_thinking_config thinking))]
          else []).
Proof.
  destruct thinking as [|[|]| | | | |d];
    try (exists true; reflexivity); try (exists false; reflexivity).
  unfold get_thinking_config. cbv zeta.
  destruct (negb (eq_str (dict_get_default "type" (JStr "enabled") d) "enabled"));
    [exists false | exists true]; reflexivity.
Qed.

(** How a call that returns ends: without touching the thinking
    section's config; with the thinking config as [get_thinking_config]
    gave it; or with its budget lowered to [max_tokens - 1]. *)
Lemma build_generation_config_outcomes (payload config : dict) (flag : bool) :
  build_generation_config py_repr payload = Ok (config, flag) ->
  (config = generation_config_base py_repr payload /\ flag = false)
  \/ exists tv tc,
       dict_get "thinking" payload = Some tv
       /\ config = dict_set "thinkingConfig" (JDict tc)
                     (generation_config_base py_repr payload)
       /\ flag = truthy (dict_get_default "includeThoughts" (JBool false)
                           (get_thinking_config tv))
       /\ ((tc = get_thinking_config tv
            /\ (flag = true ->
                forall mt budget,
                  as_int (dict_get_default "max_tokens" JNull payload)
                  = Some mt ->
                  as_int (dict_get_default "thinkingBudget" JNull tc)
                  = Some budget ->
                  budget < mt))
           \/ exists mt,
                flag = true
                /\ as_int (dict_get_default "max_tokens" JNull payload)
                   = Some mt
                /\ 1 < mt
                /\ tc = dict_set "thinkingBudget" (JInt (mt - 1))
                          (get_thinking_config tv)).
Proof.
  unfold build_generation_config. cbv zeta. unfold dict_has.
  destruct (dict_get "thinking" payload) as [tv|] eqn:Ht.
  2:{ intros H. injection H as <- <-. now left. }
  rewrite (dict_get_default_some _ JNull _ _ Ht).
  set (base := generation_config_base py_repr payload).
  set (tc0 := get_thinking_config tv).
  set (inc := truthy (dict_get_default "includeThoughts" (JBool false) tc0)).
  assert (Hrest :
    (msgs <-! reversed (py_or (dict_get_default "messages" JNull payload)
                          (JList [])) ;;
     mismatch <-! (if inc
                   then not_in_thinking_types
                          (last_assistant_first_block_type msgs)
                   else Ok false) ;;
     if mismatch then Ok (base, false)
     else
       match (if inc
              then as_int (dict_get_default "max_tokens" JNull payload)
              else None) with
       | Some mt =>
           match as_int (dict_get_default "thinkingBudget" JNull tc0) with
           | Some budget =>
               if (budget >=? mt)%Z
               then
                 if (Z.max 0 (mt - 1) <=? 0)%Z then Ok (base, false)
                 else Ok (dict_set "thinkingConfig"
                            (JDict (dict_set "thinkingBudget"
                                      (JInt (Z.max 0 (mt - 1))) tc0)) base,
                          inc)
               else Ok (dict_set "thinkingConfig" (JDict tc0) base, inc)
           | None => Ok (dict_set "thinkingConfig" (JDict tc0) base, inc)
           end
       | None => Ok (dict_set "thinkingConfig" (JDict tc0) base, inc)
       end) = Ok (config, flag) ->
    (config = base /\ flag = false)
    \/ exists tv' tc,
         Some tv = Some tv'
         /\ config = dict_set "thinkingConfig" (JDict tc) base
         /\ flag = truthy (dict_get_default "includeThoughts" (JBool false)
                             (get_thinking_config tv'))
         /\ ((tc = get_thinking_config tv'
              /\ (flag = true ->
                  forall mt budget,
                    as_int (dict_get_default "max_tokens" JNull payload)
                    = Some mt ->
                    as_int (dict_get_default "thinkingBudget" JNull tc)
                    = Some budget ->
                    budget < mt))
             \/ exists mt,
                  flag = true
                  /\ as_int (dict_get_default "max_tokens" JNull payload)
                     = Some mt
                  /\ 1 < mt
                  /\ tc = dict_set "thinkingBudget" (JInt (mt - 1))
                            (get_thinking_config tv'))).
  { destruct (reversed _) as [msgs|e]; [|discriminate]. cbn [rbind].
    destruct (if inc then _ else _) as [[|]|e]; [| |discriminate];
      cbn [rbind].
    { intros H. injection H as <- <-. now left. }
    destruct inc eqn:Hinc.
    - destruct (as_int (dict_get_default "max_tokens" JNull payload))
        as [mt|] eqn:Hmt.
      + destruct (as_int (dict_get_default "thinkingBudget" JNull tc0))
          as [budget|] eqn:Hb.
        * destruct (Z.geb_spec budget mt) as [Hge|Hlt].
          -- destruct (Z.leb_spec (Z.max 0 (mt - 1)) 0) as [Hle|Hgt].
             ++ intros H. injection H as <- <-. now left.
             ++ intros H. injection H as <- <-. right.
                exists tv, (dict_set "thinkingBudget" (JInt (mt - 1)) tc0).
                replace (Z.max 0 (mt - 1)) with (mt - 1) by lia.
                repeat split; auto. right. exists mt.
                repeat split; auto. lia.
          -- intros H. injection H as <- <-. right. exists tv, tc0.
             repeat split; auto. left. split; [reflexivity|].
             intros _ mt' budget' Hmt' Hb'. fold tc0 in Hb'.
             rewrite Hb in Hb'. injection Hmt' as <-. injection Hb' as <-.
             lia.
        * intros H. injection H as <- <-. right. exists tv, tc0.
          repeat split; auto. left. split; [reflexivity|].
          intros _ mt' budget' _ Hb'. fold tc0 in Hb'. congruence.
      + intros H. injection H as <- <-. right. exists tv, tc0.
        repeat split; auto. left. split; [reflexivity|].
        intros _ mt' budget' Hmt'. congruence.
    - intros H. injection H as <- <-. right. exists tv, tc0.
      repeat split; auto. left. split; [reflexivity|]. discriminate. }
  destruct tv; try exact Hrest.
  intros H. injection H as <- <-. now left.
Qed.

(** The flag returned and the config sent downstream agree: without a
    [thinkingConfig] the flag is false; with one, the flag is its
    [includeThoughts], and it carries a [thinkingBudget] exactly when
    thinking is on. *)
Theorem include_thinking_is_includeThoughts (payload config : dict)
    (flag : bool) :
  build_generation_config py_repr payload = Ok (config, flag) ->
  match dict_get "thinkingConfig" config with
  | None => flag = false
  | Some tc =>
      exists d,
        tc = JDict d
        /\ dict_get "includeThoughts" d = Some (JBool flag)
        /\ dict_has "thinkingBudget" d = flag
  end.
Proof.
  intros H. apply build_generation_config_outcomes in H.
  destruct H as [[-> ->]|(tv & tc & Ht & -> & Hflag & Htc)].
  - now rewrite GenerationConfigFacts.base_has_no_thinkingConfig.
  - rewrite dict_get_set, String.eqb_refl.
    exists tc. split; [reflexivity|].
    destruct (get_thinking_config_shape tv) as [b Hb].
    assert (Hfb : flag = b) by (rewrite Hflag, Hb; reflexivity).
    destruct Htc as [[-> _]|(mt & Hf & _ & _ & ->)].
    + rewrite Hb, Hfb. split; [reflexivity|]. unfold dict_has.
      destruct b; reflexivity.
    + rewrite Hb, Hfb. rewrite <- Hfb, Hf. split; reflexivity.
Qed.

(** With thinking on, an int [thinkingBudget] sent downstream is below an
    int [max_tokens]. *)
Theorem thinking_budget_below_max_tokens (payload config tc : dict)
    (mt budget : Z) :
  build_generation_config py_repr payload = Ok (config, true) ->
  dict_get "thinkingConfig" config = Some (JDict tc) ->
  as_int (dict_get_default "max_tokens" JNull payload) = Some mt ->
  as_int (dict_get_default "thinkingBudget" JNull tc) = Some budget ->
  budget < mt.
Proof.
  intros H Hcfg Hmt Hb. apply build_generation_config_outcomes in H.
  destruct H as [[_ ?]|(tv & tc' & Ht & -> & Hflag & Htc)]; [discriminate|].
  rewrite dict_get_set, String.eqb_refl in Hcfg. injection Hcfg as ->.
  destruct Htc as [[-> Hlt]|(mt' & _ & Hmt' & Hgt & ->)].
  - now apply (Hlt eq_refl mt budget).
  - rewrite Hmt in Hmt'. injection Hmt' as <-.
    destruct (get_thinking_config_shape tv) as [b Hshape].
    rewrite Hshape in Hb. unfold dict_get_default in Hb.
    rewrite dict_get_set in Hb. rewrite String.eqb_refl in Hb.
    injection Hb as <-. lia.
Qed.

(** The request's stop sequences are added after the five built-in ones,
    never in their place, and the sampling keys are always there. *)
Theorem generation_config_keeps_defaults (payload config : dict)
    (flag : bool) :
  build_generation_config py_repr payload = Ok (config, flag) ->
  (exists extra,
     dict_get "stopSequences" config
     = Some (JList (default_stop_sequences ++ extra)))
  /\ dict_get "candidateCount" config = Some (JInt 1)
  /\ dict_get "temperature" config
     = Some (match dict_get_default "temperature" JNull payload with
             | JNull => JFloat DEFAULT_TEMPERATURE
             | _ => dict_get_default "temperature" JNull payload
             end)
  /\ dict_has "topP" config = true
  /\ dict_has "topK" config = true.
Proof.
  intros H.
  assert (Hbase :
    forall K,
      (K =? "thinkingConfig") = false ->
      dict_get K config = dict_get K (generation_config_base py_repr payload)).
  { intros K HK. apply build_generation_config_outcomes in H.
    destruct H as [[-> _]|(tv & tc & _ & -> & _)]; [reflexivity|].
    rewrite dict_get_set. now rewrite String.eqb_sym, HK. }
  unfold dict_has. rewrite !Hbase by reflexivity. clear H Hbase.
  unfold generation_config_base. cbv zeta.
  set (c0 := set_unless_none "maxOutputTokens" _ _).
  assert (H0 :
    dict_get "stopSequences" c0 = Some (JList (default_stop_sequences ++ []))
    /\ dict_get "candidateCount" c0 = Some (JInt 1)
    /\ dict_get "temperature" c0
       = Some (match dict_get_default "temperature" JNull payload with
               | JNull => JFloat DEFAULT_TEMPERATURE
               | _ => dict_get_default "temperature" JNull payload
               end)
    /\ (exists v, dict_get "topP" c0 = Some v)
    /\ (exists v, dict_get "topK" c0 = Some v)).
  { unfold c0.
    rewrite !GenerationConfigFacts.get_set_unless_none by reflexivity.
    split; [reflexivity|]. split; [reflexivity|]. split; [reflexivity|].
    split.
    - rewrite ?GenerationConfigFacts.get_set_unless_none by reflexivity.
      destruct (dict_get_default "top_p" JNull payload); simpl; eauto.
    - rewrite ?(GenerationConfigFacts.get_set_unless_none "topK"
                  "maxOutputTokens") by reflexivity.
      destruct (dict_get_default "top_k" JNull payload);
        cbn [set_unless_none];
        [rewrite GenerationConfigFacts.get_set_unless_none by reflexivity;
         simpl; eauto
        | rewrite dict_get_set, String.eqb_refl; eauto ..]. }
  clearbody c0. destruct H0 as (Hs & Hc & Ht & [vp Hp] & [vk Hk]).
  destruct (dict_get_default "stop_sequences" JNull payload)
    as [| | | | |[|s ss]|];
    try (rewrite Hc, Ht, Hp, Hk; repeat split; eauto).
  rewrite !dict_get_set. cbn [String.eqb Ascii.eqb Bool.eqb].
  rewrite Hc, Ht, Hp, Hk. repeat split; eauto.
Qed.

End WithRepr.

Lemma include_thinking_is_includeThoughts_witness :
  exists d,
    JDict [("includeThoughts", JBool true); ("thinkingBudget", JInt 499)]
    = JDict d
    /\ dict_get "includeThoughts" d = Some (JBool true)
    /\ dict_has "thinkingBudget" d = true.
Proof.
  exact (include_thinking_is_includeThoughts (fun _ => "") budget_request
           _ true eq_refl).
Defined.

Lemma thinking_budget_below_max_tokens_witness :
  build_generation_config (fun _ => "") budget_request
  = Ok (dict_set "thinkingConfig"
          (JDict [("includeThoughts", JBool true);
                  ("thinkingBudget", JInt 499)])
          (generation_config_base (fun _ => "") budget_request), true)
  /\ 499 < 500.
Proof.
  split; [reflexivity|].
  exact (thinking_budget_below_max_tokens (fun _ => "") budget_request _
           [("includeThoughts", JBool true); ("thinkingBudget", JInt 499)]
           500 499 eq_refl eq_refl eq_refl eq_refl).
Defined.

Lemma generation_config_keeps_defaults_witness :
  exists extra,
    dict_get "stopSequences"
      (generation_config_base (fun _ => "")
         [("stop_sequences", JList [JStr "END"])])
    = Some (JList (default_stop_sequences ++ extra)).
Proof.
  exact (proj1 (generation_config_keeps_defaults (fun _ => "")
                  [("stop_sequences", JList [JStr "END"])] _ false eq_refl)).
Defined.

End ThinkingConfigFacts.

(** ** Loops that may raise *)

Section Loops.

Lemma for_result_invariant {A S} (I : S -> Prop)
    (body : S -> A -> result S) (xs : list A) :
  (forall s x s', I s -> body s x = Ok s' -> I s') ->
  forall s s', I s -> for_result body xs s = Ok s' -> I s'.
Proof.
  intros Hbody. induction xs as [|x xs IH]; intros s s' Hs; simpl.
  - intros H. injection H as <-. exact Hs.
  - destruct (body s x) as [s1|e] eqn:E; simpl; [|discriminate].
    apply IH. now apply (Hbody s x).
Qed.

End Loops.

Module ToolsFacts.
Import Converter Spec Notions.

Section WithRepr.

Variable py_repr : json -> string.

Lemma convert_tool_of_dict (gemini_tools : list json) (t : dict) :
  convert_tool py_repr gemini_tools (JDict t)
  = Ok (if named_tool (JDict t)
        then gemini_tools
             ++ [declaration_of (clean_json_schema py_repr) (JDict t)]
        else gemini_tools).
Proof.
  unfold convert_tool, named_tool, declaration_of. cbn [py_get rbind].
  destruct (truthy (dict_get_default "name" JNull t)); reflexivity.
Qed.

Lemma convert_tool_loop (tools gemini_tools : list json) :
  Forall (fun t => is_dict t = true) tools ->
  for_result (convert_tool py_repr) tools gemini_tools
  = Ok (gemini_tools
        ++ map (declaration_of (clean_json_schema py_repr))
             (filter named_tool tools)).
Proof.
  intros H. revert gemini_tools.
  induction H as [|t tools Ht _ IH]; intros gemini_tools.
  - cbn. now rewrite app_nil_r.
  - destruct t; try discriminate. cbn [for_result].
    rewrite convert_tool_of_dict. cbn [rbind]. rewrite IH. cbn [filter].
    destruct (named_tool (JDict d)); [|reflexivity].
    cbn [map]. now rewrite <- app_assoc.
Qed.

(** Of a list of tools that are dicts, [convert_tools] keeps those with a
    name that is not empty, in their order, one declaration each with the
    schema cleaned; when none is left the result is [None]. *)
Theorem convert_tools_declares_named_tools (tools : list json) :
  Forall (fun t => is_dict t = true) tools ->
  convert_tools py_repr (JList tools)
  = Ok (match filter named_tool tools with
        | [] => JNull
        | named =>
            JList (map (declaration_of (clean_json_schema py_repr)) named)
        end).
Proof.
  intros H. unfold convert_tools.
  destruct tools as [|t tools]; [reflexivity|].
  cbn [truthy negb for_in rbind].
  rewrite (convert_tool_loop _ [] H). cbn [rbind app].
  destruct (filter named_tool (t :: tools)); reflexivity.
Qed.

(** A tool that is no dict makes the whole conversion raise. *)
Theorem convert_tools_rejects_other_values (tools : list json) (t : json) :
  In t tools ->
  is_dict t = false ->
  convert_tools py_repr (JList tools) = Raise AttributeError.
Proof.
  intros Hin Ht. unfold convert_tools.
  destruct tools as [|t0 tools]; [destruct Hin|].
  cbn [truthy negb for_in rbind].
  enough (H : forall acc,
            for_result (convert_tool py_repr) (t0 :: tools) acc
            = Raise AttributeError) by now rewrite H.
  revert Hin. generalize (t0 :: tools). clear t0 tools.
  induction l as [|x l IH]; intros Hin acc; [destruct Hin|].
  cbn [for_result].
  destruct x as [| | | | | |d].
  7:{ rewrite convert_tool_of_dict. cbn [rbind]. apply IH.
      destruct Hin as [<-|Hin]; [discriminate | exact Hin]. }
  all: reflexivity.
Qed.

Lemma convert_tool_declares (gemini_tools : list json) (tool : json)
    (gemini_tools' : list json) :
  convert_tool py_repr gemini_tools tool = Ok gemini_tools' ->
  gemini_tools' = gemini_tools
  \/ exists name description parameters,
       gemini_tools'
       = gemini_tools ++ [function_declarations name description parameters]
       /\ truthy name = true
       /\ clean_json_schema py_repr parameters = parameters.
Proof.
  destruct tool as [| | | | | |t]; try discriminate.
  rewrite convert_tool_of_dict. intros H. injection H as <-.
  unfold named_tool, declaration_of.
  destruct (truthy (dict_get_default "name" JNull t)) eqn:Hn; [|now left].
  right. eexists _, _, _. split; [reflexivity|]. split; [exact Hn|].
  apply SchemaFacts.clean_fixed, SchemaFacts.clean_is_clean.
Qed.

(** Whatever [convert_tools] is given, a list it returns is not empty,
    every entry is one declaration with a name that is not empty, and
    cleaning its [parameters] again changes nothing. *)
Theorem convert_tools_result_is_clean (anthropic_tools : json)
    (gemini_tools : list json) :
  convert_tools py_repr anthropic_tools = Ok (JList gemini_tools) ->
  gemini_tools <> []
  /\ Forall
       (fun g =>
          exists name description parameters,
            g = function_declarations name description parameters
            /\ truthy name = true
            /\ clean_json_schema py_repr parameters = parameters)
       gemini_tools.
Proof.
  unfold convert_tools.
  destruct (negb (truthy anthropic_tools)); [discriminate|].
  destruct (for_in anthropic_tools) as [tools|e]; [|discriminate].
  cbn [rbind].
  destruct (for_result (convert_tool py_repr) tools []) as [out|e] eqn:E;
    [|discriminate].
  cbn [rbind]. unfold py_or.
  destruct out as [|g out]; [discriminate|]. cbn [truthy].
  intros H. injection H as <-. split; [discriminate|].
  refine (for_result_invariant _ (convert_tool py_repr) tools _ [] _
            (Forall_nil _) E).
  intros s x s' Hs Hx. apply convert_tool_declares in Hx.
  destruct Hx as [->|(n & d & p & -> & Hn & Hp)]; [exact Hs|].
  apply Forall_app. split; [exact Hs|]. constructor; [|constructor].
  exists n, d, p. auto.
Qed.

End WithRepr.

Lemma convert_tools_declares_named_tools_witness :
  convert_tools (fun _ => "") (JList two_tools)
  = Ok (JList [function_declarations (JStr "search") (JStr "")
                 (JDict [("type", JStr "object")])]).
Proof.
  apply (convert_tools_declares_named_tools (fun _ => "") two_tools).
  repeat constructor.
Defined.

Lemma convert_tools_rejects_other_values_witness :
  convert_tools (fun _ => "") (JList (two_tools ++ [JStr "search"]))
  = Raise AttributeError.
Proof.
  apply (convert_tools_rejects_other_values (fun _ => "") _ (JStr "search")).
  - simpl. auto.
  - reflexivity.
Defined.

Lemma convert_tools_result_is_clean_witness :
  [function_declarations (JStr "search") (JStr "")
     (JDict [("type", JStr "object")])] <> []
  /\ Forall
       (fun g =>
          exists name description parameters,
            g = function_declarations name description parameters
            /\ truthy name = true
            /\ clean_json_schema (fun _ => "") parameters = parameters)
       [function_declarations (JStr "search") (JStr "")
          (JDict [("type", JStr "object")])].
Proof.
  apply (convert_tools_result_is_clean (fun _ => "") (JList two_tools)).
  reflexivity.
Defined.

End ToolsFacts.

Module SystemInstructionFacts.
Import Converter Spec Notions.

Section WithRepr.

Variable py_repr : json -> string.

Lemma non_whitespace_text_part (value : json) :
  _is_non_whitespace_text py_repr value = true ->
  text_part_with_text (JDict [("text", JStr (py_str py_repr value))]).
Proof.
  unfold _is_non_whitespace_text, text_part_with_text. intros H.
  eexists. split; [reflexivity|].
  destruct value; try discriminate;
    apply negb_true_iff in H; now apply String.eqb_neq in H.
Qed.

Lemma system_item_texts (parts : list json) (item : json) :
  Forall text_part_with_text parts ->
  Forall text_part_with_text (system_item py_repr parts item).
Proof.
  intros H. unfold system_item.
  destruct item as [| | | | | |it]; try exact H.
  destruct (eq_str (dict_get_default "type" JNull it) "text"); [|exact H].
  cbv zeta.
  destruct (_is_non_whitespace_text py_repr
              (dict_get_default "text" (JStr "") it)) eqn:E; [|exact H].
  apply Forall_app. split; [exact H|]. constructor; [|constructor].
  now apply non_whitespace_text_part.
Qed.

Lemma system_items_texts (items parts : list json) :
  Forall text_part_with_text parts ->
  Forall text_part_with_text (fold_left (system_item py_repr) items parts).
Proof.
  revert parts. induction items as [|item items IH]; intros parts H;
    [exact H|].
  cbn [fold_left]. apply IH. now apply system_item_texts.
Qed.

(** [build_system_instruction] gives [None], or a [user] message whose
    parts are text parts that are not blank, at least one. *)
Theorem system_instruction_has_text (system : json) :
  build_system_instruction py_repr system = JNull
  \/ exists parts,
       build_system_instruction py_repr system
       = JDict [("role", JStr "user"); ("parts", JList parts)]
       /\ parts <> []
       /\ Forall text_part_with_text parts.
Proof.
  unfold build_system_instruction.
  destruct (negb (truthy system)); [now left|]. cbv zeta.
  set (parts := match system with
                | JList items => fold_left (system_item py_repr) items []
                | _ => _
                end).
  assert (H : Forall text_part_with_text parts).
  { unfold parts. destruct system;
      try (destruct (_is_non_whitespace_text py_repr _) eqn:E;
           [constructor; [now apply non_whitespace_text_part | constructor]
           | constructor]).
    apply system_items_texts. constructor. }
  clearbody parts. destruct parts as [|p parts]; [now left|].
  right. eexists. split; [reflexivity|]. split; [discriminate | exact H].
Qed.

End WithRepr.

End SystemInstructionFacts.

Module ContentsFacts.
Import Converter Spec Notions.

Section WithBuiltins.

Variable py_repr : json -> string.
Variable json_dumps : json -> string.

Lemma parts_in_app (a b : list json) :
  parts_in (a ++ b) = parts_in a ++ parts_in b.
Proof. unfold parts_in. apply flat_map_app. Qed.

Ltac walk_item :=
  repeat match goal with
         | |- Ok _ = Ok _ -> _ =>
             let H := fresh "H" in intros H; injection H as <-
         | |- Raise _ = Ok _ -> _ => discriminate
         | |- context [rbind ?r _] => destruct r; cbn [rbind]
         | |- context [if ?c then _ else _] => destruct c eqn:?
         end.

Lemma convert_item_signs_thoughts (include_thinking : bool)
    (parts : list json) (item : json) (parts' : list json) :
  Forall (signed_thought include_thinking) parts ->
  convert_item py_repr json_dumps include_thinking parts item = Ok parts' ->
  Forall (signed_thought include_thinking) parts'.
Proof.
  intros Hparts. unfold convert_item.
  destruct item as [| | | | | |it]; cbv zeta; walk_item; try exact Hparts;
    (apply Forall_app; split; [exact Hparts|]);
    (constructor; [|constructor]);
    unfold signed_thought; cbn; try discriminate; intros _.
  all: split; [now destruct include_thinking|].
  all: eexists; split; [reflexivity|].
  all: match goal with
       | H : negb (truthy _) = false |- _ => now apply negb_false_iff in H
       end.
Qed.

Lemma convert_message_signs_thoughts (include_thinking : bool)
    (contents : list json) (msg : json) (contents' : list json) :
  Forall (signed_thought include_thinking) (parts_in contents) ->
  convert_message py_repr json_dumps include_thinking contents msg
  = Ok contents' ->
  Forall (signed_thought include_thinking) (parts_in contents').
Proof.
  intros Hc. unfold convert_message.
  destruct (py_get msg "role" (JStr "user")) as [role|e]; [|discriminate].
  cbn [rbind]. cbv zeta.
  destruct (py_get msg "content" (JStr "")) as [raw|e]; [|discriminate].
  cbn [rbind].
  set (parts_result := match raw with
                       | JList items => _
                       | _ => _
                       end).
  assert (Hp : forall parts,
             parts_result = Ok parts ->
             Forall (signed_thought include_thinking) parts).
  { unfold parts_result. intros parts.
    destruct raw;
      try (destruct (_is_non_whitespace_text py_repr _);
           intros H; injection H as <-; repeat constructor;
           unfold signed_thought; cbn; discriminate).
    apply for_result_invariant; [|constructor].
    intros s x s'. apply convert_item_signs_thoughts. }
  destruct parts_result as [parts|e]; [|discriminate]. cbn [rbind].
  specialize (Hp parts eq_refl).
  destruct parts as [|p parts]; intros H; injection H as <-; [exact Hc|].
  rewrite parts_in_app. apply Forall_app. split; [exact Hc|].
  cbn. now rewrite app_nil_r.
Qed.

(** A part marked [thought] in the converted contents comes from a
    thinking block of the history that had a signature, and there is none
    when [include_thinking] is false. *)
Theorem thought_parts_are_signed (messages : list json)
    (include_thinking : bool) (contents : list json) :
  convert_messages_to_contents py_repr json_dumps messages include_thinking
  = Ok contents ->
  Forall (signed_thought include_thinking) (parts_in contents).
Proof.
  unfold convert_messages_to_contents.
  apply (for_result_invariant
           (fun c => Forall (signed_thought include_thinking) (parts_in c)));
    [|constructor].
  intros s x s'. apply convert_message_signs_thoughts.
Qed.

Lemma convert_item_grows (include_thinking : bool)
    (parts : list json) (item : json) (parts' : list json) :
  convert_item py_repr json_dumps include_thinking parts item = Ok parts' ->
  parts' = parts \/ exists part, parts' = parts ++ [part].
Proof.
  unfold convert_item.
  destruct item as [| | | | | |it]; cbv zeta; walk_item; eauto.
Qed.

Lemma convert_message_shape (include_thinking : bool)
    (contents : list json) (msg : json) (contents' : list json) :
  convert_message py_repr json_dumps include_thinking contents msg
  = Ok contents' ->
  contents' = contents
  \/ exists m parts,
       msg = JDict m
       /\ parts <> []
       /\ contents'
          = contents
            ++ [JDict [("role",
                        JStr (if eq_str (dict_get_default "role" (JStr "user") m)
                                   "assistant"
                              then "model" else "user"));
                       ("parts", JList parts)]].
Proof.
  unfold convert_message.
  destruct msg as [| | | | | |m]; try discriminate.
  cbn [py_get rbind]. cbv zeta.
  destruct (match dict_get_default "content" (JStr "") m with
            | JList items => _
            | _ => _
            end) as [parts|e]; [|discriminate].
  cbn [rbind].
  destruct parts as [|p parts]; intros H; injection H as <-; [now left|].
  right. exists m, (p :: parts). repeat split. discriminate.
Qed.

(** Every message of the converted contents has the role ["user"] or
    ["model"] (["model"] for an assistant message, ["user"] for any other)
    and at least one part; a message that gives no part is left out, and
    no message is added. *)
Theorem contents_have_roles_and_parts (messages : list json)
    (include_thinking : bool) (contents : list json) :
  convert_messages_to_contents py_repr json_dumps messages include_thinking
  = Ok contents ->
  Forall
    (fun content =>
       exists role parts,
         content = JDict [("role", JStr role); ("parts", JList parts)]
         /\ (role = "user" \/ role = "model")
         /\ parts <> [])
    contents
  /\ (List.length contents <= List.length messages)%nat.
Proof.
  unfold convert_messages_to_contents.
  enough (H : forall acc contents',
            for_result (convert_message py_repr json_dumps include_thinking)
              messages acc = Ok contents' ->
            (Forall
               (fun content =>
                  exists role parts,
                    content
                    = JDict [("role", JStr role); ("parts", JList parts)]
                    /\ (role = "user" \/ role = "model")
                    /\ parts <> []) acc ->
             Forall
               (fun content =>
                  exists role parts,
                    content
                    = JDict [("role", JStr role); ("parts", JList parts)]
                    /\ (role = "user" \/ role = "model")
                    /\ parts <> []) contents')
            /\ (List.length contents'
                <= List.length acc + List.length messages)%nat).
  { intros E. apply H in E. destruct E as [E1 E2]. split; [|exact E2].
    apply E1. constructor. }
  induction messages as [|msg messages IH]; intros acc contents'.
  - cbn. intros H. injection H as <-. split; [auto | lia].
  - cbn [for_result].
    destruct (convert_message py_repr json_dumps include_thinking acc msg)
      as [acc'|e] eqn:E; [|discriminate].
    cbn [rbind]. intros H. apply IH in H. destruct H as [H1 H2].
    apply convert_message_shape in E.
    destruct E as [->|(m & parts & -> & Hne & ->)].
    + split; [exact H1 | cbn [List.length]; lia].
    + split.
      * intros Hacc. apply H1. apply Forall_app. split; [exact Hacc|].
        constructor; [|constructor].
        eexists _, parts. split; [reflexivity|]. split; [|exact Hne].
        destruct (eq_str _ _); auto.
      * rewrite length_app in H2. cbn [List.length] in *. lia.
Qed.

End WithBuiltins.

Lemma thought_parts_are_signed_witness :
  Forall (signed_thought true)
    [JDict [("text", JStr "hello")];
     JDict [("text", JStr "hm"); ("thought", JBool true);
            ("thoughtSignature", JStr "SIG")];
     JDict [("text", JStr "hi")]].
Proof.
  exact (thought_parts_are_signed (fun _ => "") (fun _ => "")
           thinking_history true _ eq_refl).
Defined.

Lemma contents_have_roles_and_parts_witness :
  exists contents,
    convert_messages_to_contents (fun _ => "") (fun _ => "")
      thinking_history false = Ok contents
    /\ Forall
         (fun content =>
            exists role parts,
              content = JDict [("role", JStr role); ("parts", JList parts)]
              /\ (role = "user" \/ role = "model")
              /\ parts <> [])
         contents
    /\ (List.length contents <= 2)%nat.
Proof.
  eexists. split; [reflexivity|].
  exact (contents_have_roles_and_parts (fun _ => "") (fun _ => "")
           thinking_history false _ eq_refl).
Defined.

End ContentsFacts.

Module ReorganizeFacts.
Import Converter Spec Notions.

Section WithRepr.

Variable py_repr : json -> string.

Let str := py_str py_repr.
Let reorganize := reorganize_tool_messages py_repr.

(** *** the three loops *)

Lemma result_for_app (key : string) (a b : list json) :
  result_for str key (a ++ b)
  = match result_for str key b with
    | Some r => Some r
    | None => result_for str key a
    end.
Proof.
  induction a as [|p a IH]; cbn [app result_for].
  - now destruct (result_for str key b).
  - rewrite IH. now destruct (result_for str key b).
Qed.

Lemma result_for_answers (key : string) (parts : list json) (r : json) :
  result_for str key parts = Some r ->
  In r parts /\ answers str key r = true.
Proof.
  induction parts as [|p parts IH]; cbn [result_for]; [discriminate|].
  destruct (result_for str key parts) as [r'|].
  - intros H. injection H as ->. destruct (IH eq_refl). split; [now right|auto].
  - destruct (answers str key p) eqn:E; [|discriminate].
    intros H. injection H as <-. split; [now left | exact E].
Qed.

Lemma result_for_none (key : string) (parts : list json) (p : json) :
  result_for str key parts = None ->
  In p parts -> answers str key p = false.
Proof.
  induction parts as [|q parts IH]; cbn [result_for]; [intros _ []|].
  destruct (result_for str key parts) as [r'|]; [discriminate|].
  destruct (answers str key q) eqn:E; [discriminate|].
  intros _ [<-|Hin]; [exact E | now apply IH].
Qed.

Lemma collect_tool_result_get (tool_results : dict) (part : json)
    (tool_results' : dict) (key : string) :
  collect_tool_result py_repr tool_results part = Ok tool_results' ->
  dict_get key tool_results'
  = if answers str key part then Some part else dict_get key tool_results.
Proof.
  unfold collect_tool_result, answers, is_response.
  destruct (has_key "functionResponse" part); cbn [andb].
  2:{ intros H. now injection H as <-. }
  destruct (tool_id_of "functionResponse" part) as [tool_id|e];
    [|discriminate].
  cbn [rbind]. destruct (truthy tool_id); cbn [andb].
  - intros H. injection H as <-. now rewrite dict_get_set.
  - intros H. now injection H as <-.
Qed.

Lemma collect_parts_get (parts : list json) (tool_results tool_results' : dict)
    (key : string) :
  for_result (collect_tool_result py_repr) parts tool_results
  = Ok tool_results' ->
  dict_get key tool_results'
  = match result_for str key parts with
    | Some r => Some r
    | None => dict_get key tool_results
    end.
Proof.
  revert tool_results.
  induction parts as [|p parts IH]; intros tool_results; cbn [for_result].
  - intros H. now injection H as <-.
  - destruct (collect_tool_result py_repr tool_results p) as [tr1|e] eqn:E;
      [|discriminate].
    cbn [rbind]. intros H. rewrite (IH _ H). cbn [result_for].
    destruct (result_for str key parts); [reflexivity|].
    rewrite (collect_tool_result_get _ _ _ key E).
    now destruct (answers str key p).
Qed.

Lemma parts_of_role (msg : json) (parts : list json) :
  parts_of msg = Ok parts ->
  exists role,
    py_get msg "role" JNull = Ok role
    /\ role_and_parts msg = map (fun part => (role, part)) parts.
Proof.
  unfold role_and_parts. destruct msg; try discriminate.
  intros H. cbn [py_get]. rewrite H. eauto.
Qed.

Lemma collect_messages_get (contents : list json)
    (tool_results tool_results' : dict) (key : string) :
  for_result (collect_tool_results py_repr) contents tool_results
  = Ok tool_results' ->
  dict_get key tool_results'
  = match result_for str key (parts_read contents) with
    | Some r => Some r
    | None => dict_get key tool_results
    end.
Proof.
  unfold parts_read, flattened. revert tool_results.
  induction contents as [|msg contents IH]; intros tool_results;
    cbn [for_result flat_map].
  - intros H. now injection H as <-.
  - unfold collect_tool_results at 1.
    destruct (parts_of msg) as [parts|e] eqn:Hp; [|discriminate].
    cbn [rbind].
    destruct (for_result (collect_tool_result py_repr) parts tool_results)
      as [tr1|e] eqn:E; [|discriminate].
    cbn [rbind]. intros H. rewrite (IH _ H).
    rewrite map_app, result_for_app.
    destruct (result_for str key (map snd (flat_map role_and_parts contents)));
      [reflexivity|].
    destruct (parts_of_role msg parts Hp) as (role & _ & ->).
    rewrite map_map. cbn [snd]. rewrite map_id.
    rewrite (collect_parts_get _ _ _ key E).
    now destruct (result_for str key parts).
Qed.

Lemma flatten_messages_flattened (contents : list json)
    (acc acc' : list (json * json)) :
  for_result flatten_message contents acc = Ok acc' ->
  acc' = acc ++ flattened contents.
Proof.
  unfold flattened. revert acc.
  induction contents as [|msg contents IH]; intros acc;
    cbn [for_result flat_map].
  - intros H. injection H as <-. now rewrite app_nil_r.
  - unfold flatten_message at 1.
    destruct (py_get msg "role" JNull) as [role|e] eqn:Hr; [|discriminate].
    cbn [rbind].
    destruct (parts_of msg) as [parts|e] eqn:Hp; [|discriminate].
    cbn [rbind]. intros H. rewrite (IH _ H), <- app_assoc.
    destruct (parts_of_role msg parts Hp) as (role' & Hr' & ->).
    rewrite Hr in Hr'. now injection Hr' as <-.
Qed.

Lemma place_message_placed (tool_results : dict) (all new_contents : list json)
    (msg : json * json) (new_contents' : list json) :
  (forall key, dict_get key tool_results = result_for str key all) ->
  place_message py_repr tool_results new_contents msg = Ok new_contents' ->
  exists pieces,
    placed str all msg pieces /\ new_contents' = new_contents ++ pieces.
Proof.
  intros Hget. destruct msg as [role part]. unfold place_message.
  destruct (has_key "functionResponse" part) eqn:Hresp.
  { intros H. injection H as <-. exists []. rewrite app_nil_r.
    split; [now constructor | reflexivity]. }
  destruct (has_key "functionCall" part) eqn:Hcall.
  2:{ intros H. injection H as <-. eexists. split; [|reflexivity].
      apply placed_other. unfold tool_part, is_response.
      now rewrite Hresp, Hcall. }
  assert (Hc : is_call part = true)
    by (unfold is_call, is_response; now rewrite Hresp, Hcall).
  destruct (tool_id_of "functionCall" part) as [tool_id|e] eqn:Hid;
    [|discriminate].
  cbn [rbind]. cbv zeta. fold str. rewrite Hget.
  destruct (result_for str (str tool_id) all) as [r|] eqn:Hr.
  - destruct tool_id;
      try (intros H; injection H as <-; rewrite <- app_assoc;
           eexists; split; [|reflexivity];
           eapply placed_call_and_result; eauto; discriminate).
    intros H; injection H as <-. eexists. split; [|reflexivity].
    eapply placed_call; eauto.
  - assert (H0 : Ok (new_contents ++ [single_part_message (JStr "model") part])
                 = Ok new_contents' ->
                 exists pieces,
                   placed str all (role, part) pieces
                   /\ new_contents' = new_contents ++ pieces).
    { intros H; injection H as <-. eexists. split; [|reflexivity].
      eapply placed_call; eauto. }
    destruct tool_id; exact H0.
Qed.

Lemma place_messages_placed (tool_results : dict) (all : list json)
    (msgs : list (json * json)) (new_contents new_contents' : list json) :
  (forall key, dict_get key tool_results = result_for str key all) ->
  for_result (place_message py_repr tool_results) msgs new_contents
  = Ok new_contents' ->
  exists pieces,
    Forall2 (placed str all) msgs pieces
    /\ new_contents' = new_contents ++ concat pieces.
Proof.
  intros Hget. revert new_contents.
  induction msgs as [|msg msgs IH]; intros new_contents; cbn [for_result].
  - intros H. injection H as <-. exists []. rewrite app_nil_r.
    split; [constructor | reflexivity].
  - destruct (place_message py_repr tool_results new_contents msg)
      as [nc|e] eqn:E; [|discriminate].
    cbn [rbind]. intros H.
    destruct (place_message_placed _ all _ _ _ Hget E) as (ps & Hps & ->).
    destruct (IH _ H) as (pss & Hpss & ->).
    exists (ps :: pss). split; [now constructor|].
    cbn [concat]. now rewrite app_assoc.
Qed.

(** The output is what [placed] gives for the parts read, one after the
    other. *)
Lemma reorganize_placed (contents out : list json) :
  reorganize contents = Ok out ->
  exists pieces,
    Forall2 (placed str (parts_read contents)) (flattened contents) pieces
    /\ out = concat pieces.
Proof.
  unfold reorganize, reorganize_tool_messages.
  destruct (for_result (collect_tool_results py_repr) contents [])
    as [tool_results|e] eqn:Ec; [|discriminate].
  cbn [rbind].
  destruct (for_result flatten_message contents []) as [fl|e] eqn:Ef;
    [|discriminate].
  cbn [rbind]. intros H.
  apply flatten_messages_flattened in Ef. cbn [app] in Ef. subst fl.
  apply (place_messages_placed tool_results (parts_read contents)) in H.
  - exact H.
  - intros key. rewrite (collect_messages_get _ _ _ key Ec).
    now destruct (result_for str key (parts_read contents)).
Qed.

(** *** what the output looks like *)

Lemma answers_is_response (key : string) (part : json) :
  answers str key part = true -> is_response part = true.
Proof. unfold answers. intros H. now apply andb_true_iff in H. Qed.

Lemma is_call_not_response (part : json) :
  is_call part = true -> is_response part = false.
Proof.
  unfold is_call. intros H. apply andb_true_iff in H.
  now apply negb_true_iff.
Qed.

Lemma is_call_tool_part (part : json) :
  is_call part = true -> tool_part part = true.
Proof.
  unfold is_call, tool_part. intros H. apply andb_true_iff in H.
  destruct H as [_ ->]. apply orb_true_r.
Qed.

Lemma tool_part_false (part : json) :
  tool_part part = false -> is_response part = false /\ is_call part = false.
Proof.
  unfold tool_part, is_call. intros H. apply orb_false_iff in H.
  destruct H as [-> ->]. auto.
Qed.

Lemma single_part_message_inj (role role' part part' : json) :
  single_part_message role part = single_part_message role' part' ->
  role = role' /\ part = part'.
Proof. unfold single_part_message. intros H. now injection H. Qed.

Lemma placed_pieces (all : list json) (msg : json * json)
    (pieces : list json) :
  placed str all msg pieces ->
  In (snd msg) all ->
  Forall
    (fun m =>
       exists role part,
         m = single_part_message role part
         /\ In part all
         /\ (is_call part = true -> role = JStr "model")
         /\ (is_response part = true -> role = JStr "user"))
    pieces.
Proof.
  intros H Hin. destruct H as [role part Hr | role part tid Hc Hid Hno
                              | role part tid r Hc Hid Hne Hr
                              | role part Ht]; cbn [snd] in Hin.
  - constructor.
  - constructor; [|constructor]. exists (JStr "model"), part.
    repeat split; auto. rewrite (is_call_not_response _ Hc). discriminate.
  - apply result_for_answers in Hr. destruct Hr as [Hrin Hra].
    apply answers_is_response in Hra.
    constructor; [|constructor; [|constructor]].
    + exists (JStr "model"), part. repeat split; auto.
      rewrite (is_call_not_response _ Hc). discriminate.
    + exists (JStr "user"), r. repeat split; auto.
      unfold is_call. rewrite Hra. discriminate.
  - destruct (tool_part_false _ Ht) as [Hr Hc].
    constructor; [|constructor]. exists role, part.
    repeat split; auto; rewrite ?Hr, ?Hc; discriminate.
Qed.

Lemma placed_all_pieces (all : list json) (msgs : list (json * json))
    (pieces : list (list json)) :
  Forall2 (placed str all) msgs pieces ->
  (forall msg, In msg msgs -> In (snd msg) all) ->
  Forall
    (fun m =>
       exists role part,
         m = single_part_message role part
         /\ In part all
         /\ (is_call part = true -> role = JStr "model")
         /\ (is_response part = true -> role = JStr "user"))
    (concat pieces).
Proof.
  intros Hp. induction Hp as [|msg ps msgs pss Hps _ IH]; intros Hin;
    [constructor|].
  cbn [concat]. apply Forall_app. split.
  - apply (placed_pieces all msg); [exact Hps|]. apply Hin. now left.
  - apply IH. intros m Hm. apply Hin. now right.
Qed.

(** Every message of the output holds exactly one part, a part that was
    read from the input; a [functionCall] sits in a [model] message and a
    [functionResponse] in a [user] message. *)
Theorem reorganized_messages_hold_one_part (contents out : list json) :
  reorganize_tool_messages py_repr contents = Ok out ->
  Forall
    (fun m =>
       exists role part,
         m = single_part_message role part
         /\ In part (parts_read contents)
         /\ (is_call part = true -> role = JStr "model")
         /\ (is_response part = true -> role = JStr "user"))
    out.
Proof.
  intros H. apply reorganize_placed in H. destruct H as (pieces & Hp & ->).
  apply (placed_all_pieces _ _ _ Hp).
  intros msg. unfold parts_read. apply in_map.
Qed.

Lemma cons_inj {A} (a b : A) (l l' : list A) :
  a :: l = b :: l' -> a = b /\ l = l'.
Proof. intros H. now injection H. Qed.

Lemma call_then_result (all : list json) (msgs : list (json * json))
    (pieces : list (list json)) :
  Forall2 (placed str all) msgs pieces ->
  forall pre call post tool_id tool_result,
    concat pieces = pre ++ single_part_message (JStr "model") call :: post ->
    is_call call = true ->
    tool_id_of "functionCall" call = Ok tool_id ->
    tool_id <> JNull ->
    result_for str (str tool_id) all = Some tool_result ->
    exists post',
      post = single_part_message (JStr "user") tool_result :: post'.
Proof.
  intros Hp. induction Hp as [|msg ps msgs pss Hps _ IH];
    intros pre call post tool_id tool_result Hsplit Hcall Hid Hne Hres.
  { destruct pre; discriminate. }
  cbn [concat] in Hsplit.
  destruct Hps as [role part Hr | role part tid Hc Hid' Hno
                  | role part tid r Hc Hid' Hne' Hr
                  | role part Ht]; cbn [app] in Hsplit.
  - eapply IH; eauto.
  - destruct pre as [|x pre]; cbn [app] in Hsplit;
      apply cons_inj in Hsplit; destruct Hsplit as [Hm Hrest].
    + apply single_part_message_inj in Hm. destruct Hm as [_ ->].
      rewrite Hid in Hid'. injection Hid' as <-.
      destruct Hno as [->|Hno]; congruence.
    + eapply IH; eauto.
  - destruct pre as [|x [|y pre]]; cbn [app] in Hsplit;
      apply cons_inj in Hsplit; destruct Hsplit as [Hm Hrest].
    + apply single_part_message_inj in Hm.
      destruct Hm as [_ ->]. rewrite Hid in Hid'. injection Hid' as <-.
      rewrite Hres in Hr. injection Hr as <-. eauto.
    + apply cons_inj in Hrest. destruct Hrest as [Hm' _].
      apply single_part_message_inj in Hm'.
      destruct Hm' as [_ ->]. apply result_for_answers in Hr.
      destruct Hr as [_ Hr]. apply answers_is_response in Hr.
      rewrite (is_call_not_response _ Hcall) in Hr. discriminate.
    + apply cons_inj in Hrest. destruct Hrest as [_ Hrest].
      eapply IH; eauto.
  - destruct pre as [|x pre]; cbn [app] in Hsplit;
      apply cons_inj in Hsplit; destruct Hsplit as [Hm Hrest].
    + apply single_part_message_inj in Hm. destruct Hm as [_ ->].
      apply is_call_tool_part in Hcall. congruence.
    + eapply IH; eauto.
Qed.

(** A [functionCall] of the output whose id is not [None] is followed at
    once by the result for that id, in a [user] message, whenever a
    [functionResponse] of the input carries the id: the last one that
    does. *)
Theorem call_is_followed_by_its_result (contents out pre post : list json)
    (call tool_id tool_result : json) :
  reorganize_tool_messages py_repr contents = Ok out ->
  out = pre ++ single_part_message (JStr "model") call :: post ->
  is_call call = true ->
  tool_id_of "functionCall" call = Ok tool_id ->
  tool_id <> JNull ->
  result_for (py_str py_repr) (py_str py_repr tool_id) (parts_read contents)
  = Some tool_result ->
  exists post', post = single_part_message (JStr "user") tool_result :: post'.
Proof.
  intros H Hsplit. apply reorganize_placed in H.
  destruct H as (pieces & Hp & ->).
  intros Hcall Hid Hne Hres.
  exact (call_then_result _ _ _ Hp _ _ _ _ _ Hsplit Hcall Hid Hne Hres).
Qed.

Lemma result_after_call (all : list json) (msgs : list (json * json))
    (pieces : list (list json)) :
  Forall2 (placed str all) msgs pieces ->
  forall pre role tool_result post,
    concat pieces = pre ++ single_part_message role tool_result :: post ->
    is_response tool_result = true ->
    role = JStr "user"
    /\ exists pre' call tool_id,
         pre = pre' ++ [single_part_message (JStr "model") call]
         /\ is_call call = true
         /\ tool_id_of "functionCall" call = Ok tool_id
         /\ tool_id <> JNull
         /\ result_for str (str tool_id) all = Some tool_result.
Proof.
  intros Hp. induction Hp as [|msg ps msgs pss Hps _ IH];
    intros pre role0 tool_result post Hsplit Hresp.
  { destruct pre; discriminate. }
  cbn [concat] in Hsplit.
  assert (Hnext : forall x pre',
             concat pss = pre' ++ single_part_message role0 tool_result :: post ->
             role0 = JStr "user"
             /\ exists pre'' call tool_id,
                  x ++ pre'
                  = pre'' ++ [single_part_message (JStr "model") call]
                  /\ is_call call = true
                  /\ tool_id_of "functionCall" call = Ok tool_id
                  /\ tool_id <> JNull
                  /\ result_for str (str tool_id) all = Some tool_result).
  { intros x pre' Hrest.
    destruct (IH _ _ _ _ Hrest Hresp) as (Hrole & p & c & t & -> & Hrest').
    split; [exact Hrole|]. exists (x ++ p), c, t.
    split; [now rewrite app_assoc | exact Hrest']. }
  destruct Hps as [role part Hr | role part tid Hc Hid' Hno
                  | role part tid r Hc Hid' Hne' Hr
                  | role part Ht]; cbn [app] in Hsplit.
  - apply (Hnext [] pre Hsplit).
  - destruct pre as [|x pre]; cbn [app] in Hsplit;
      apply cons_inj in Hsplit; destruct Hsplit as [Hm Hrest].
    + apply single_part_message_inj in Hm. destruct Hm as [_ <-].
      rewrite (is_call_not_response _ Hc) in Hresp. discriminate.
    + subst x. apply (Hnext [_] pre Hrest).
  - destruct pre as [|x [|y pre]]; cbn [app] in Hsplit;
      apply cons_inj in Hsplit; destruct Hsplit as [Hm Hrest].
    + apply single_part_message_inj in Hm. destruct Hm as [_ <-].
      rewrite (is_call_not_response _ Hc) in Hresp. discriminate.
    + apply cons_inj in Hrest. destruct Hrest as [Hm' _].
      apply single_part_message_inj in Hm'.
      destruct Hm' as [<- <-]. subst x. split; [reflexivity|].
      exists [], part, tid. repeat split; auto.
    + apply cons_inj in Hrest. destruct Hrest as [Hy Hrest]. subst x y.
      apply (Hnext [_; _] pre Hrest).
  - destruct pre as [|x pre]; cbn [app] in Hsplit;
      apply cons_inj in Hsplit; destruct Hsplit as [Hm Hrest].
    + apply single_part_message_inj in Hm. destruct Hm as [_ <-].
      apply tool_part_false in Ht. destruct Ht as [Ht _]. congruence.
    + subst x. apply (Hnext [_] pre Hrest).
Qed.

(** A [functionResponse] of the output stands in a [user] message right
    after the [functionCall] it answers; a result that no call asks for is
    not in the output. *)
Theorem result_follows_its_call (contents out pre post : list json)
    (role tool_result : json) :
  reorganize_tool_messages py_repr contents = Ok out ->
  out = pre ++ single_part_message role tool_result :: post ->
  is_response tool_result = true ->
  role = JStr "user"
  /\ exists pre' call tool_id,
       pre = pre' ++ [single_part_message (JStr "model") call]
       /\ is_call call = true
       /\ tool_id_of "functionCall" call = Ok tool_id
       /\ tool_id <> JNull
       /\ result_for (py_str py_repr) (py_str py_repr tool_id)
            (parts_read contents) = Some tool_result.
Proof.
  intros H Hsplit. apply reorganize_placed in H.
  destruct H as (pieces & Hp & ->).
  intros Hresp.
  exact (result_after_call _ _ _ Hp _ _ _ _ Hsplit Hresp).
Qed.

Lemma other_parts_of_pieces (all : list json) (msgs : list (json * json))
    (pieces : list (list json)) :
  Forall2 (placed str all) msgs pieces ->
  filter (fun m => negb (tool_message m)) (concat pieces)
  = map (fun msg => single_part_message (fst msg) (snd msg))
      (filter (fun msg => negb (tool_part (snd msg))) msgs).
Proof.
  intros Hp. induction Hp as [|msg ps msgs pss Hps _ IH]; [reflexivity|].
  cbn [concat]. rewrite filter_app, IH. cbn [filter].
  destruct Hps as [role part Hr | role part tid Hc Hid' Hno
                  | role part tid r Hc Hid' Hne' Hr
                  | role part Ht]; cbn [snd fst].
  - unfold tool_part. rewrite Hr. reflexivity.
  - rewrite (is_call_tool_part _ Hc). cbn [negb filter].
    unfold tool_message. cbn. rewrite (is_call_tool_part _ Hc). reflexivity.
  - rewrite (is_call_tool_part _ Hc). cbn [negb filter].
    apply result_for_answers in Hr. destruct Hr as [_ Hr].
    apply answers_is_response in Hr.
    assert (Htr : tool_part r = true)
      by (unfold tool_part; now rewrite Hr).
    unfold tool_message. cbn [single_part_message parts_in flat_map dict_get
                              String.eqb Ascii.eqb Bool.eqb app existsb filter].
    rewrite (is_call_tool_part _ Hc), Htr. reflexivity.
  - rewrite Ht. cbn [negb filter map].
    unfold tool_message. cbn. rewrite Ht. reflexivity.
Qed.

(** The parts that are no tool parts are all kept, in their order, each in
    a message of its own with the role of the message it came from. *)
Theorem other_parts_keep_their_place (contents out : list json) :
  reorganize_tool_messages py_repr contents = Ok out ->
  filter (fun m => negb (tool_message m)) out
  = map (fun msg => single_part_message (fst msg) (snd msg))
      (filter (fun msg => negb (tool_part (snd msg))) (flattened contents)).
Proof.
  intros H. apply reorganize_placed in H. destruct H as (pieces & Hp & ->).
  now apply (other_parts_of_pieces _ _ _ Hp).
Qed.

(** *** running it again *)

Lemma role_and_parts_single (role part : json) :
  role_and_parts (single_part_message role part) = [(role, part)].
Proof. reflexivity. Qed.

Lemma flattened_app (a b : list json) :
  flattened (a ++ b) = flattened a ++ flattened b.
Proof. unfold flattened. apply flat_map_app. Qed.

Lemma parts_read_app (a b : list json) :
  parts_read (a ++ b) = parts_read a ++ parts_read b.
Proof. unfold parts_read. now rewrite flattened_app, map_app. Qed.

Lemma answers_one_key (key key' : string) (part : json) :
  answers str key part = true -> answers str key' part = true -> key = key'.
Proof.
  unfold answers. destruct (is_response part); [|discriminate]. cbn [andb].
  destruct (tool_id_of "functionResponse" part) as [tid|e]; [|discriminate].
  destruct (truthy tid); [|discriminate]. cbn [andb].
  intros H1 H2. apply String.eqb_eq in H1, H2. congruence.
Qed.

(** The [functionResponse] parts of the output are results that were
    looked up. *)
Lemma placed_responses (all : list json) (msgs : list (json * json))
    (pieces : list (list json)) :
  Forall2 (placed str all) msgs pieces ->
  Forall
    (fun m =>
       exists role part,
         m = single_part_message role part
         /\ (is_response part = true ->
             exists key, result_for str key all = Some part))
    (concat pieces).
Proof.
  intros Hp. induction Hp as [|msg ps msgs pss Hps _ IH]; [constructor|].
  cbn [concat]. apply Forall_app. split; [|exact IH].
  destruct Hps as [role part Hr | role part tid Hc Hid' Hno
                  | role part tid r Hc Hid' Hne' Hr
                  | role part Ht].
  - constructor.
  - constructor; [|constructor]. exists (JStr "model"), part.
    split; [reflexivity|]. rewrite (is_call_not_response _ Hc). discriminate.
  - constructor; [|constructor; [|constructor]].
    + exists (JStr "model"), part. split; [reflexivity|].
      rewrite (is_call_not_response _ Hc). discriminate.
    + exists (JStr "user"), r. split; [reflexivity|]. eauto.
  - constructor; [|constructor]. exists role, part. split; [reflexivity|].
    apply tool_part_false in Ht. destruct Ht as [-> _]. discriminate.
Qed.

Lemma parts_read_singles (P : json -> Prop) (out : list json) (part : json) :
  Forall (fun m => exists role part,
                     m = single_part_message role part /\ P part) out ->
  In part (parts_read out) -> P part.
Proof.
  induction 1 as [|m out (role & p & -> & Hp) _ IH]; [intros []|].
  change (single_part_message role p :: out)
    with ([single_part_message role p] ++ out).
  rewrite parts_read_app. intros Hin. apply in_app_or in Hin.
  destruct Hin as [[<-|[]]|Hin]; [exact Hp | now apply IH].
Qed.

Lemma collect_singles (out : list json) :
  Forall
    (fun m =>
       exists role part,
         m = single_part_message role part
         /\ (is_response part = true ->
             exists tool_id, tool_id_of "functionResponse" part = Ok tool_id))
    out ->
  forall tool_results,
    exists tool_results',
      for_result (collect_tool_results py_repr) out tool_results
      = Ok tool_results'.
Proof.
  induction 1 as [|m out (role & p & -> & Hp) _ IH]; intros tool_results.
  - cbn. eauto.
  - cbn [for_result].
    assert (H1 : exists tr1,
               collect_tool_results py_repr tool_results
                 (single_part_message role p) = Ok tr1).
    { unfold collect_tool_results, single_part_message, parts_of.
      cbn [py_get dict_get_default dict_get String.eqb Ascii.eqb Bool.eqb
           rbind py_or truthy for_in for_result].
      unfold collect_tool_result. unfold is_response in Hp.
      destruct (has_key "functionResponse" p); [|cbn; eauto].
      destruct (Hp eq_refl) as [tid ->]. cbn [rbind].
      destruct (truthy tid); cbn; eauto. }
    destruct H1 as [tr1 ->]. cbn [rbind]. apply IH.
Qed.

Lemma flatten_singles (out : list json) :
  Forall (fun m => exists role part, m = single_part_message role part) out ->
  forall acc,
    for_result flatten_message out acc = Ok (acc ++ flattened out).
Proof.
  induction 1 as [|m out (role & p & ->) _ IH]; intros acc.
  - cbn. now rewrite app_nil_r.
  - cbn [for_result].
    change (flatten_message acc (single_part_message role p))
      with (Ok (acc ++ [(role, p)]) : result (list (json * json))).
    cbn [rbind]. rewrite IH, <- app_assoc.
    change (single_part_message role p :: out)
      with ([single_part_message role p] ++ out).
    now rewrite flattened_app.
Qed.

Lemma place_call (tool_results : dict) (acc : list json)
    (role part tool_id : json) :
  is_call part = true ->
  tool_id_of "functionCall" part = Ok tool_id ->
  place_message py_repr tool_results acc (role, part)
  = Ok (acc ++ single_part_message (JStr "model") part
        :: match tool_id with
           | JNull => []
           | _ =>
               match dict_get (str tool_id) tool_results with
               | Some r => [single_part_message (JStr "user") r]
               | None => []
               end
           end).
Proof.
  intros Hc Hid. unfold place_message.
  pose proof (is_call_not_response _ Hc) as Hr. unfold is_response in Hr.
  rewrite Hr. unfold is_call, is_response in Hc. rewrite Hr in Hc.
  cbn [negb andb] in Hc. rewrite Hc, Hid. cbn [rbind]. cbv zeta. fold str.
  destruct tool_id; try reflexivity;
    destruct (dict_get _ tool_results); try reflexivity;
    now rewrite <- app_assoc.
Qed.

Lemma place_pieces_again (all read : list json) (tool_results : dict)
    (msgs : list (json * json)) (pieces : list (list json)) :
  Forall2 (placed str all) msgs pieces ->
  (forall key, dict_get key tool_results = result_for str key read) ->
  (forall key r, result_for str key read = Some r ->
                 result_for str key all = Some r) ->
  (forall part, In part (parts_read (concat pieces)) -> In part read) ->
  forall acc,
    for_result (place_message py_repr tool_results)
      (flattened (concat pieces)) acc
    = Ok (acc ++ concat pieces).
Proof.
  intros Hp Hget Hsub. induction Hp as [|msg ps msgs pss Hps _ IH];
    intros Hin acc.
  { cbn. now rewrite app_nil_r. }
  cbn [concat] in *. rewrite flattened_app, ToolResultFacts.for_result_app.
  assert (Hrest : forall acc',
             for_result (place_message py_repr tool_results)
               (flattened (concat pss)) acc'
             = Ok (acc' ++ concat pss)).
  { apply IH. intros part Hpart. apply Hin. rewrite parts_read_app.
    apply in_or_app. now right. }
  assert (Hhere : forall part, In part (parts_read ps) -> In part read).
  { intros part Hpart. apply Hin. rewrite parts_read_app.
    apply in_or_app. now left. }
  destruct Hps as [role part Hr | role part tid Hc Hid' Hno
                  | role part tid r Hc Hid' Hne' Hr
                  | role part Ht].
  - cbn [flattened flat_map for_result rbind]. apply Hrest.
  - unfold flattened. cbn [flat_map]. rewrite role_and_parts_single.
    cbn [app for_result]. rewrite (place_call _ _ _ _ _ Hc Hid').
    cbn [rbind]. rewrite Hrest, <- app_assoc. cbn [app].
    destruct Hno as [->|Hno]; [reflexivity|].
    rewrite Hget.
    destruct (result_for str (str tid) read) as [r|] eqn:E.
    + apply Hsub in E. congruence.
    + now destruct tid.
  - unfold flattened. cbn [flat_map]. rewrite !role_and_parts_single.
    cbn [app for_result]. rewrite (place_call _ _ _ _ _ Hc Hid').
    cbn [rbind].
    assert (Hlook : dict_get (str tid) tool_results = Some r).
    { rewrite Hget.
      destruct (result_for str (str tid) read) as [r'|] eqn:E.
      - apply Hsub in E. congruence.
      - apply result_for_answers in Hr. destruct Hr as [_ Hr].
        assert (Hrin : In r read).
        { apply Hhere. unfold parts_read, flattened. cbn [flat_map].
          rewrite !role_and_parts_single. cbn. auto. }
        rewrite (result_for_none _ _ _ E Hrin) in Hr. discriminate. }
    rewrite Hlook.
    assert (Hresp : has_key "functionResponse" r = true).
    { apply result_for_answers in Hr. destruct Hr as [_ Hr].
      now apply answers_is_response in Hr. }
    unfold place_message at 1. rewrite Hresp. cbn [rbind].
    rewrite Hrest, <- app_assoc. cbn [app]. now destruct tid.
  - unfold flattened. cbn [flat_map]. rewrite role_and_parts_single.
    cbn [app for_result]. unfold place_message at 1.
    unfold tool_part, is_response in Ht. apply orb_false_iff in Ht.
    destruct Ht as [-> ->]. cbn [rbind]. rewrite Hrest, <- app_assoc.
    reflexivity.
Qed.

(** Reorganizing what was reorganized changes nothing. *)
Theorem reorganize_tool_messages_idempotent (contents out : list json) :
  reorganize_tool_messages py_repr contents = Ok out ->
  reorganize_tool_messages py_repr out = Ok out.
Proof.
  intros H. apply reorganize_placed in H. destruct H as (pieces & Hp & ->).
  pose proof (placed_responses _ _ _ Hp) as Hout.
  set (all := parts_read contents) in *.
  set (out := concat pieces) in *.
  assert (Hsingle : Forall (fun m => exists role part,
                              m = single_part_message role part) out).
  { eapply Forall_impl; [|exact Hout].
    intros m (role & part & -> & _). eauto. }
  assert (Hcollect : exists tool_results,
             for_result (collect_tool_results py_repr) out []
             = Ok tool_results).
  { apply collect_singles. eapply Forall_impl; [|exact Hout].
    intros m (role & part & -> & Hk). exists role, part.
    split; [reflexivity|]. intros Hr. destruct (Hk Hr) as [key Hkey].
    apply result_for_answers in Hkey. destruct Hkey as [_ Hkey].
    unfold answers in Hkey. rewrite Hr in Hkey. cbn [andb] in Hkey.
    destruct (tool_id_of "functionResponse" part); [eauto | discriminate]. }
  destruct Hcollect as [tool_results Ec].
  unfold reorganize_tool_messages. rewrite Ec. cbn [rbind].
  rewrite (flatten_singles out Hsingle []). cbn [rbind app].
  apply (place_pieces_again all (parts_read out) tool_results _ _ Hp).
  - intros key. rewrite (collect_messages_get _ _ _ key Ec).
    now destruct (result_for str key (parts_read out)).
  - intros key r Hr. destruct (result_for_answers _ _ _ Hr) as [Hin Ha].
    pose proof (parts_read_singles _ _ _ Hout Hin
                  (answers_is_response _ _ Ha)) as [key' Hk'].
    destruct (result_for_answers _ _ _ Hk') as [_ Ha'].
    now rewrite (answers_one_key _ _ _ Ha Ha').
  - auto.
Qed.

End WithRepr.

Example reorganize_tool_conversation :
  reorganize_tool_messages (fun _ => "") tool_conversation
  = Ok tool_conversation_reorganized.
Proof. reflexivity. Qed.

Lemma reorganized_messages_hold_one_part_witness :
  Forall
    (fun m =>
       exists role part,
         m = single_part_message role part
         /\ In part (parts_read tool_conversation)
         /\ (is_call part = true -> role = JStr "model")
         /\ (is_response part = true -> role = JStr "user"))
    tool_conversation_reorganized.
Proof.
  exact (reorganized_messages_hold_one_part (fun _ => "") tool_conversation
           _ eq_refl).
Defined.

Lemma call_is_followed_by_its_result_witness :
  exists post',
    [single_part_message (JStr "user") (result_part "a" "1");
     single_part_message (JStr "model") (call_part "b");
     single_part_message (JStr "user") (result_part "b" "2")]
    = single_part_message (JStr "user") (result_part "a" "1") :: post'.
Proof.
  apply (call_is_followed_by_its_result (fun _ => "") tool_conversation
           tool_conversation_reorganized
           [single_part_message (JStr "user") (JDict [("text", JStr "go")])]
           _ (call_part "a") (JStr "a") (result_part "a" "1")).
  - reflexivity.
  - reflexivity.
  - reflexivity.
  - reflexivity.
  - discriminate.
  - reflexivity.
Defined.

Lemma result_follows_its_call_witness :
  JStr "user" = JStr "user"
  /\ exists pre' call tool_id,
       [single_part_message (JStr "user") (JDict [("text", JStr "go")]);
        single_part_message (JStr "model") (call_part "a")]
       = pre' ++ [single_part_message (JStr "model") call]
       /\ is_call call = true
       /\ tool_id_of "functionCall" call = Ok tool_id
       /\ tool_id <> JNull
       /\ result_for (py_str (fun _ => "")) (py_str (fun _ => "") tool_id)
            (parts_read tool_conversation)
          = Some (result_part "a" "1").
Proof.
  apply (result_follows_its_call (fun _ => "") tool_conversation
           tool_conversation_reorganized
           [single_part_message (JStr "user") (JDict [("text", JStr "go")]);
            single_part_message (JStr "model") (call_part "a")]
           [single_part_message (JStr "model") (call_part "b");
            single_part_message (JStr "user") (result_part "b" "2")]
           (JStr "user") (result_part "a" "1")).
  - reflexivity.
  - reflexivity.
  - reflexivity.
Defined.

Lemma other_parts_keep_their_place_witness :
  filter (fun m => negb (tool_message m)) tool_conversation_reorganized
  = [single_part_message (JStr "user") (JDict [("text", JStr "go")])].
Proof.
  exact (other_parts_keep_their_place (fun _ => "") tool_conversation
           tool_conversation_reorganized eq_refl).
Defined.

Lemma reorganize_tool_messages_idempotent_witness :
  reorganize_tool_messages (fun _ => "") tool_conversation_reorganized
  = Ok tool_conversation_reorganized.
Proof.
  exact (reorganize_tool_messages_idempotent (fun _ => "") tool_conversation
           tool_conversation_reorganized eq_refl).
Defined.

End ReorganizeFacts.

Module ComponentsFacts.
Import Converter Spec Notions.

Section WithBuiltins.

Variable py_repr : json -> string.
Variable json_dumps : json -> string.

Lemma parts_in_singles (P : json -> Prop) (out : list json) :
  Forall (fun m => exists role part,
                     m = single_part_message role part /\ P part) out ->
  Forall P (parts_in out).
Proof.
  induction 1 as [|m out (role & p & -> & Hp) _ IH]; [constructor|].
  change (parts_in (single_part_message role p :: out))
    with (p :: parts_in out).
  now constructor.
Qed.

Lemma parts_read_of_contents (contents : list json) :
  Forall
    (fun content =>
       exists role parts,
         content = JDict [("role", role); ("parts", JList parts)]
         /\ parts <> [])
    contents ->
  parts_read contents = parts_in contents.
Proof.
  induction 1 as [|c contents (role & parts & -> & Hne) _ IH]; [reflexivity|].
  change (JDict [("role", role); ("parts", JList parts)] :: contents)
    with ([JDict [("role", role); ("parts", JList parts)]] ++ contents).
  rewrite ReorganizeFacts.parts_read_app, ContentsFacts.parts_in_app, IH.
  f_equal. destruct parts as [|p parts]; [congruence|].
  unfold parts_read, flattened, role_and_parts, parts_of, parts_in.
  cbn [flat_map py_get dict_get_default dict_get String.eqb Ascii.eqb
       Bool.eqb rbind py_or truthy for_in app].
  rewrite !app_nil_r, map_map. cbn [snd]. now rewrite map_id.
Qed.

(** A part marked [thought] is sent downstream only together with a
    [thinkingConfig] whose [includeThoughts] is true: the contents are
    converted with the flag the generation config was built with, and
    reorganizing them adds no part. *)
Theorem thoughts_are_sent_with_thinking_on (payload components : dict) :
  convert_anthropic_request_to_antigravity_components py_repr json_dumps
    payload = Ok components ->
  exists contents generation_config,
    dict_get "contents" components = Some (JList contents)
    /\ dict_get "generation_config" components
       = Some (JDict generation_config)
    /\ Forall
         (fun part =>
            has_key "thought" part = true ->
            exists tc,
              dict_get "thinkingConfig" generation_config = Some (JDict tc)
              /\ dict_get "includeThoughts" tc = Some (JBool true))
         (parts_in contents).
Proof.
  unfold convert_anthropic_request_to_antigravity_components. cbv zeta.
  destruct (build_generation_config py_repr payload) as [[gc flag]|e] eqn:Eg;
    [|discriminate].
  cbn [rbind].
  destruct (convert_messages_to_contents py_repr json_dumps _ flag)
    as [c1|e] eqn:Ec; [|discriminate].
  cbn [rbind].
  destruct (reorganize_tool_messages py_repr c1) as [c2|e] eqn:Er;
    [|discriminate].
  cbn [rbind].
  destruct (convert_tools py_repr _) as [tools|e]; [|discriminate].
  cbn [rbind]. intros H. injection H as <-.
  exists c2, gc. split; [reflexivity|]. split; [reflexivity|].
  (* the flag and the config *)
  assert (Hflag : flag = true ->
                  exists tc,
                    dict_get "thinkingConfig" gc = Some (JDict tc)
                    /\ dict_get "includeThoughts" tc = Some (JBool true)).
  { intros ->.
    apply ThinkingConfigFacts.build_generation_config_outcomes in Eg.
    destruct Eg as [[_ ?]|(tv & tc & _ & -> & Hf & Htc)]; [discriminate|].
    exists tc. rewrite dict_get_set, String.eqb_refl.
    split; [reflexivity|].
    destruct (ThinkingConfigFacts.get_thinking_config_shape tv) as [b Hb].
    assert (b = true) as -> by (rewrite Hf, Hb; reflexivity).
    destruct Htc as [[-> _]|(mt & _ & _ & _ & ->)]; rewrite Hb; reflexivity. }
  (* the parts converted *)
  assert (H1 : Forall (signed_thought flag) (parts_in c1)).
  { revert Ec. unfold convert_messages_to_contents.
    apply (for_result_invariant
             (fun c => Forall (signed_thought flag) (parts_in c)));
      [|constructor].
    intros s x s'. apply ContentsFacts.convert_message_signs_thoughts. }
  assert (Hshape : Forall
                     (fun content =>
                        exists role parts,
                          content
                          = JDict [("role", role); ("parts", JList parts)]
                          /\ parts <> []) c1).
  { revert Ec. unfold convert_messages_to_contents.
    apply for_result_invariant; [|constructor].
    intros s x s' Hs Hx. apply ContentsFacts.convert_message_shape in Hx.
    destruct Hx as [->|(m & parts & _ & Hne & ->)]; [exact Hs|].
    apply Forall_app. split; [exact Hs|]. constructor; [|constructor].
    eauto. }
  rewrite <- (parts_read_of_contents c1 Hshape) in H1.
  (* the parts reorganized *)
  apply ReorganizeFacts.reorganize_placed in Er.
  destruct Er as (pieces & Hp & ->).
  apply parts_in_singles.
  assert (Hin : forall msg, In msg (flattened c1) -> In (snd msg) (parts_read c1))
    by (intros msg; unfold parts_read; apply in_map).
  pose proof (ReorganizeFacts.placed_all_pieces py_repr _ _ _ Hp Hin) as Hout.
  eapply Forall_impl; [|exact Hout].
  intros m (role & part & -> & Hpart & _). exists role, part.
  split; [reflexivity|]. intros Ht.
  rewrite Forall_forall in H1. destruct (H1 part Hpart Ht) as [Hf _].
  now apply Hflag.
Qed.

End WithBuiltins.

Lemma thoughts_are_sent_with_thinking_on_witness :
  exists contents generation_config,
    dict_get "contents"
      match convert_anthropic_request_to_antigravity_components
              (fun _ => "") (fun _ => "") thinking_request with
      | Ok components => components
      | Raise _ => []
      end = Some (JList contents)
    /\ dict_get "generation_config"
         match convert_anthropic_request_to_antigravity_components
                 (fun _ => "") (fun _ => "") thinking_request with
         | Ok components => components
         | Raise _ => []
         end = Some (JDict generation_config)
    /\ Forall
         (fun part =>
            has_key "thought" part = true ->
            exists tc,
              dict_get "thinkingConfig" generation_config = Some (JDict tc)
              /\ dict_get "includeThoughts" tc = Some (JBool true))
         (parts_in contents).
Proof.
  apply (thoughts_are_sent_with_thinking_on (fun _ => "") (fun _ => "")
           thinking_request).
  vm_compute. reflexivity.
Defined.

Example thinking_request_contents :
  exists components,
    convert_anthropic_request_to_antigravity_components
      (fun _ => "") (fun _ => "") thinking_request = Ok components
    /\ dict_get "model" components = Some (JStr "claude-opus-4-5-thinking")
    /\ dict_get "contents" components
       = Some (JList
                 [single_part_message (JStr "user")
                    (JDict [("text", JStr "hello")]);
                  single_part_message (JStr "model")
                    (JDict [("text", JStr "hm"); ("thought", JBool true);
                            ("thoughtSignature", JStr "SIG")]);
                  single_part_message (JStr "model")
                    (JDict [("text", JStr "hi")])])
    /\ dict_get "tools" components = Some JNull
    /\ dict_get "system_instruction" components = Some JNull.
Proof. eexists. split; [reflexivity|]. repeat split. Qed.

End ComponentsFacts.

Module RouterFacts.
Import Rules Spec Notions.

(** *** the order of the rules *)

Lemma place_rule_In (r x : RoutingRule) (sorted : list RoutingRule) :
  In x (place_rule r sorted) <-> x = r \/ In x sorted.
Proof.
  induction sorted as [|y sorted IH]; cbn [place_rule].
  - cbn. intuition.
  - destruct (priority r <? priority y)%Z; cbn [In]; [rewrite IH|]; intuition.
Qed.

Lemma place_rule_falling (r : RoutingRule) (sorted : list RoutingRule) :
  by_falling_priority sorted = true ->
  by_falling_priority (place_rule r sorted) = true.
Proof.
  induction sorted as [|y sorted IH]; cbn [place_rule by_falling_priority];
    [reflexivity|].
  intros H. apply andb_true_iff in H. destruct H as [Hy Hs].
  destruct (Z.ltb_spec (priority r) (priority y)) as [Hlt|Hge].
  - cbn [by_falling_priority]. rewrite (IH Hs), andb_true_r.
    apply forallb_forall. intros x Hx. apply place_rule_In in Hx.
    destruct Hx as [->|Hx]; [apply Z.leb_le; lia|].
    rewrite forallb_forall in Hy. now apply Hy.
  - cbn [by_falling_priority forallb]. rewrite Hy, Hs, !andb_true_r.
    apply andb_true_iff. split; [apply Z.leb_le; lia|].
    apply forallb_forall. intros x Hx. rewrite forallb_forall in Hy.
    specialize (Hy x Hx). apply Z.leb_le in Hy. apply Z.leb_le. lia.
Qed.

Lemma sort_by_priority_falling (rs : list RoutingRule) :
  by_falling_priority (sort_by_priority rs) = true.
Proof.
  induction rs as [|r rs IH]; [reflexivity|].
  cbn [sort_by_priority fold_right]. now apply place_rule_falling.
Qed.

Lemma place_rule_class (p : Z) (r : RoutingRule) (sorted : list RoutingRule) :
  filter (fun x => (priority x =? p)%Z) (place_rule r sorted)
  = filter (fun x => (priority x =? p)%Z) (r :: sorted).
Proof.
  induction sorted as [|y sorted IH]; cbn [place_rule]; [reflexivity|].
  destruct (Z.ltb_spec (priority r) (priority y)) as [Hlt|Hge];
    [|reflexivity].
  cbn [filter] in *. rewrite IH.
  destruct (Z.eqb_spec (priority r) p), (Z.eqb_spec (priority y) p);
    try reflexivity; lia.
Qed.

Lemma sort_by_priority_class (p : Z) (rs : list RoutingRule) :
  filter (fun x => (priority x =? p)%Z) (sort_by_priority rs)
  = filter (fun x => (priority x =? p)%Z) rs.
Proof.
  induction rs as [|r rs IH]; [reflexivity|].
  cbn [sort_by_priority fold_right]. rewrite place_rule_class.
  cbn [filter]. fold (sort_by_priority rs). now rewrite IH.
Qed.

(** After [add_rule] the rules stand by falling priority, whatever their
    order was before; rules of one priority keep the order they had, the
    new rule last among its equals, and no rule is lost. *)
Theorem add_rule_orders_by_priority (self : Router) (rule : RoutingRule) :
  by_falling_priority (rules (add_rule self rule)) = true
  /\ forall p,
       filter (fun r => (priority r =? p)%Z) (rules (add_rule self rule))
       = filter (fun r => (priority r =? p)%Z) (rules self ++ [rule]).
Proof.
  split.
  - apply sort_by_priority_falling.
  - intros p. apply sort_by_priority_class.
Qed.

Section WithRe.

Variable re_match_ignorecase : string -> string -> result bool.

Let rule_matches := matches re_match_ignorecase.

(** [select_provider] answers with the first rule that matches; behind
    [add_rule] that is a rule of the highest priority among those that
    match.  Without a match the answer is the default provider. *)
Theorem select_provider_takes_highest_priority (self : Router)
    (request : dict) (agent_type_arg : option string) (context_tokens : Z)
    (chosen : string) :
  by_falling_priority (rules self) = true ->
  select_provider re_match_ignorecase self request agent_type_arg
    context_tokens = Ok chosen ->
  (exists rule,
     In rule (rules self)
     /\ matches re_match_ignorecase rule request agent_type_arg
          context_tokens = Ok true
     /\ chosen = provider rule
     /\ forall other,
          In other (rules self) ->
          matches re_match_ignorecase other request agent_type_arg
            context_tokens = Ok true ->
          (priority other <= priority rule)%Z)
  \/ (chosen = default_provider self
      /\ forall rule,
           In rule (rules self) ->
           matches re_match_ignorecase rule request agent_type_arg
             context_tokens = Ok false).
Proof.
  unfold select_provider. generalize (default_provider self) as default.
  generalize (rules self) as rs. clear self.
  induction rs as [|r rs IH]; intros default Hsorted;
    cbn [provider_of_match].
  - intros H. injection H as <-. right. split; [reflexivity|]. intros ? [].
  - cbn [by_falling_priority] in Hsorted. apply andb_true_iff in Hsorted.
    destruct Hsorted as [Hr Hs].
    destruct (matches re_match_ignorecase r request agent_type_arg
                context_tokens) as [[|]|e] eqn:Em; cbn [rbind];
      [| |discriminate].
    + intros H. injection H as <-. left. exists r.
      split; [now left|]. split; [exact Em|]. split; [reflexivity|].
      intros other [<-|Hin] _; [lia|].
      rewrite forallb_forall in Hr. apply Z.leb_le. now apply Hr.
    + intros H. destruct (IH default Hs H)
        as [(rule & Hin & Hm & Hc & Hmax)|[Hc Hnone]].
      * left. exists rule. split; [now right|]. split; [exact Hm|].
        split; [exact Hc|]. intros other [<-|Ho] Hom; [congruence|].
        now apply Hmax.
      * right. split; [exact Hc|]. intros rule [<-|Hin]; [exact Em|].
        now apply Hnone.
Qed.

(** [get_matching_rule] names the rule whose provider [select_provider]
    returns: both stop at the same rule, end without a match together, and
    raise together. *)
Theorem get_matching_rule_names_the_selected (self : Router)
    (request : dict) (agent_type_arg : option string) (context_tokens : Z) :
  match get_matching_rule re_match_ignorecase self request agent_type_arg
          context_tokens with
  | Ok (Some rule_name) =>
      exists rule,
        In rule (rules self)
        /\ name rule = rule_name
        /\ select_provider re_match_ignorecase self request agent_type_arg
             context_tokens = Ok (provider rule)
  | Ok None =>
      select_provider re_match_ignorecase self request agent_type_arg
        context_tokens = Ok (default_provider self)
  | Raise e =>
      select_provider re_match_ignorecase self request agent_type_arg
        context_tokens = Raise e
  end.
Proof.
  unfold get_matching_rule, select_provider.
  generalize (default_provider self) as default.
  generalize (rules self) as rs. clear self.
  induction rs as [|r rs IH]; intros default;
    cbn [matching_rule_name provider_of_match]; [reflexivity|].
  destruct (matches re_match_ignorecase r request agent_type_arg
              context_tokens) as [[|]|e]; cbn [rbind].
  - exists r. split; [now left|]. split; reflexivity.
  - specialize (IH default).
    destruct (matching_rule_name re_match_ignorecase rs request
                agent_type_arg context_tokens) as [[n|]|e]; [|exact IH..].
    destruct IH as (rule & Hin & Hn & Hs). exists rule.
    split; [now right|]. split; assumption.
  - reflexivity.
Qed.

Lemma default_rules (settings : RoutingSettings) :
  rules (create_default_router settings)
  = [{| name := "thinking-requests"; provider := think_provider settings;
        priority := 100; agent_type := None; model_pattern := None;
        thinking_enabled := Some true; min_context_tokens := None;
        max_context_tokens := None; fallback_provider := None |};
     {| name := "long-context"; provider := long_context_provider settings;
        priority := 90; agent_type := None; model_pattern := None;
        thinking_enabled := None;
        min_context_tokens := Some (long_context_threshold settings);
        max_context_tokens := None; fallback_provider := None |};
     {| name := "websearch"; provider := websearch_provider settings;
        priority := 80; agent_type := Some "websearch";
        model_pattern := None; thinking_enabled := None;
        min_context_tokens := None; max_context_tokens := None;
        fallback_provider := None |};
     {| name := "background"; provider := background_provider settings;
        priority := 70; agent_type := Some "background";
        model_pattern := None; thinking_enabled := None;
        min_context_tokens := None; max_context_tokens := None;
        fallback_provider := None |};
     {| name := "think-agent"; provider := think_provider settings;
        priority := 60; agent_type := Some "think"; model_pattern := None;
        thinking_enabled := None; min_context_tokens := None;
        max_context_tokens := None; fallback_provider := None |};
     {| name := "opus-models"; provider := "antigravity"; priority := 50;
        agent_type := None; model_pattern := Some ".*opus.*";
        thinking_enabled := None; min_context_tokens := None;
        max_context_tokens := None; fallback_provider := None |}].
Proof. reflexivity. Qed.

Lemma matches_agent_type_only (n p : string) (pr : Z) (a : string)
    (request : dict) (agent_type_arg : option string) (context_tokens : Z) :
  a <> "" ->
  matches re_match_ignorecase
    {| name := n; provider := p; priority := pr; agent_type := Some a;
       model_pattern := None; thinking_enabled := None;
       min_context_tokens := None; max_context_tokens := None;
       fallback_provider := None |}
    request agent_type_arg context_tokens
  = Ok (given_agent_type agent_type_arg =? a).
Proof.
  intros Ha. unfold matches, given_agent_type.
  cbn [agent_type model_pattern thinking_enabled min_context_tokens
       max_context_tokens].
  assert (Hs : set_str (Some a) = Some a).
  { unfold set_str. apply String.eqb_neq in Ha. now rewrite Ha. }
  rewrite Hs. change (set_str None) with (@None string).
  rewrite (String.eqb_sym a).
  destruct (_ =? a); reflexivity.
Qed.

(** The default router decides in this order: thinking requests, long
    contexts, the agent types [websearch], [background] and [think], opus
    models, and the default provider for the rest. *)
Theorem default_router_decides_in_order (settings : RoutingSettings)
    (request : dict) (agent_type_arg : option string) (context_tokens : Z) :
  select_provider re_match_ignorecase (create_default_router settings)
    request agent_type_arg context_tokens
  = default_route re_match_ignorecase settings request agent_type_arg
      context_tokens.
Proof.
  unfold select_provider, default_route. rewrite default_rules.
  change (default_provider (create_default_router settings))
    with (settings_default_provider settings).
  cbn [provider_of_match].
  rewrite !matches_agent_type_only by discriminate.
  cbn [provider rbind].
  (* thinking requests *)
  replace (matches re_match_ignorecase _ request agent_type_arg
             context_tokens)
    with (Ok (is_thinking request) : result bool)
    by (unfold matches; cbn [agent_type model_pattern thinking_enabled
                             min_context_tokens max_context_tokens set_str
                             rbind negb];
        now destruct (is_thinking request)).
  cbn [rbind]. destruct (is_thinking request); [reflexivity|].
  (* long contexts *)
  replace (matches re_match_ignorecase _ request agent_type_arg
             context_tokens)
    with (Ok (long_context_threshold settings <=? context_tokens)%Z
          : result bool)
    by (unfold matches; cbn [agent_type model_pattern thinking_enabled
                             min_context_tokens max_context_tokens set_str
                             rbind negb];
        destruct (Z.ltb_spec context_tokens (long_context_threshold settings));
        destruct (Z.leb_spec (long_context_threshold settings) context_tokens);
        try reflexivity; lia).
  cbn [rbind].
  destruct (long_context_threshold settings <=? context_tokens)%Z;
    [reflexivity|].
  destruct (given_agent_type agent_type_arg =? "websearch"); [reflexivity|].
  destruct (given_agent_type agent_type_arg =? "background"); [reflexivity|].
  destruct (given_agent_type agent_type_arg =? "think"); [reflexivity|].
  (* opus models *)
  unfold matches.
  cbn [agent_type model_pattern thinking_enabled min_context_tokens
       max_context_tokens].
  change (set_str None) with (@None string).
  change (set_str (Some ".*opus.*")) with (Some ".*opus.*").
  cbv iota beta.
  destruct (dict_get_default "model" (JStr "") request); try reflexivity.
  destruct (re_match_ignorecase ".*opus.*" s) as [[|]|e]; reflexivity.
Qed.

End WithRe.

Lemma select_provider_takes_highest_priority_witness :
  (exists rule,
     In rule (rules (create_default_router example_settings))
     /\ matches (fun _ _ => Ok true) rule
          [("model", JStr "claude-opus-4-5")] (Some "background") 0
        = Ok true
     /\ "antigravity" = provider rule
     /\ forall other,
          In other (rules (create_default_router example_settings)) ->
          matches (fun _ _ => Ok true) other
            [("model", JStr "claude-opus-4-5")] (Some "background") 0
          = Ok true ->
          (priority other <= priority rule)%Z)
  \/ ("antigravity"
      = default_provider (create_default_router example_settings)
      /\ forall rule,
           In rule (rules (create_default_router example_settings)) ->
           matches (fun _ _ => Ok true) rule
             [("model", JStr "claude-opus-4-5")] (Some "background") 0
           = Ok false).
Proof.
  apply (select_provider_takes_highest_priority (fun _ _ => Ok true)
           (create_default_router example_settings)
           [("model", JStr "claude-opus-4-5")] (Some "background") 0
           "antigravity").
  - reflexivity.
  - reflexivity.
Defined.

(** [remove_rule] takes out the first rule of the name and no other, and
    says so; without such a rule the router stays as it is. *)
Theorem remove_rule_takes_the_first (self : Router) (rule_name : string) :
  (Forall (fun r => name r <> rule_name) (rules self)
   /\ remove_rule self rule_name = (false, self))
  \/ exists before rule after,
       rules self = before ++ rule :: after
       /\ name rule = rule_name
       /\ Forall (fun r => name r <> rule_name) before
       /\ remove_rule self rule_name
          = (true, {| rules := before ++ after;
                      default_provider := default_provider self |}).
Proof.
  unfold remove_rule.
  assert (H : (Forall (fun r => name r <> rule_name) (rules self)
               /\ remove_first rule_name (rules self) = None)
              \/ exists before rule after,
                   rules self = before ++ rule :: after
                   /\ name rule = rule_name
                   /\ Forall (fun r => name r <> rule_name) before
                   /\ remove_first rule_name (rules self)
                      = Some (before ++ after)).
  { generalize (rules self) as rs.
    induction rs as [|r rs IH]; cbn [remove_first].
    - left. split; [constructor | reflexivity].
    - destruct (String.eqb_spec (name r) rule_name) as [E|E].
      + right. exists [], r, rs. repeat split; auto.
      + destruct IH as [[Hall ->]|(b & x & a & -> & Hx & Hb & ->)].
        * left. split; [now constructor | reflexivity].
        * right. exists (r :: b), x, a. repeat split; auto. }
  destruct H as [[Hall ->]|(b & x & a & Hr & Hx & Hb & ->)].
  - now left.
  - right. exists b, x, a. auto.
Qed.

End RouterFacts.

Module RetryFacts.
Import Failover Spec Notions.

Section WithFloats.

Variable two_to_the : Z -> spec_float.
Variable int_times_float : Z -> spec_float -> result spec_float.
Variable int_lt_float : Z -> spec_float -> bool.

Let delay := get_retry_delay two_to_the int_times_float int_lt_float.

Lemma get_retry_delay_from_one (self : FailoverService) (attempt : Z) :
  1 <= attempt ->
  delay self attempt
  = Ok (JInt (Z.min (retry_delay_ms self * 2 ^ (attempt - 1))
                (max_retry_delay_ms self))).
Proof.
  intros H. unfold delay, get_retry_delay.
  destruct (Z.leb_spec 0 (attempt - 1)); [|lia]. cbv zeta.
  destruct (Z.ltb_spec (max_retry_delay_ms self)
              (retry_delay_ms self * 2 ^ (attempt - 1)));
    do 2 f_equal; lia.
Qed.

(** From the first attempt on the delay is an int that never exceeds
    [max_retry_delay_ms]; it starts at [retry_delay_ms], and as long as
    the cap is not reached the next delay is twice as long, cut at the
    cap.  With a base delay that is not negative it never gets
    shorter. *)
Theorem retry_delay_doubles_up_to_the_cap (self : FailoverService)
    (attempt : Z) :
  1 <= attempt ->
  exists d d',
    get_retry_delay two_to_the int_times_float int_lt_float self attempt
    = Ok (JInt d)
    /\ get_retry_delay two_to_the int_times_float int_lt_float self
         (attempt + 1) = Ok (JInt d')
    /\ d <= max_retry_delay_ms self
    /\ (attempt = 1 ->
        d = Z.min (retry_delay_ms self) (max_retry_delay_ms self))
    /\ (d < max_retry_delay_ms self ->
        d' = Z.min (2 * d) (max_retry_delay_ms self))
    /\ (0 <= retry_delay_ms self -> d <= d').
Proof.
  intros H. fold delay.
  rewrite !get_retry_delay_from_one by lia.
  eexists _, _. split; [reflexivity|]. split; [reflexivity|].
  replace (attempt + 1 - 1) with (Z.succ (attempt - 1)) by lia.
  rewrite Z.pow_succ_r by lia.
  assert (Hp : 0 < 2 ^ (attempt - 1)) by (apply Z.pow_pos_nonneg; lia).
  set (base := retry_delay_ms self) in *.
  set (cap := max_retry_delay_ms self) in *.
  set (p := 2 ^ (attempt - 1)) in *.
  split; [lia|]. split.
  - intros ->. unfold p. cbn. f_equal. lia.
  - split; [intros Hd; lia|]. intros Hb. nia.
Qed.

End WithFloats.

Lemma retry_delay_doubles_up_to_the_cap_witness :
  exists d d',
    get_retry_delay (fun _ => S754_zero false) (fun _ f => Ok f)
      (fun _ _ => false)
      {| max_retries := 3; retry_delay_ms := 100;
         max_retry_delay_ms := 5000 |} 6 = Ok (JInt d)
    /\ get_retry_delay (fun _ => S754_zero false) (fun _ f => Ok f)
         (fun _ _ => false)
         {| max_retries := 3; retry_delay_ms := 100;
            max_retry_delay_ms := 5000 |} (6 + 1) = Ok (JInt d')
    /\ d <= 5000
    /\ (6 = 1 -> d = Z.min 100 5000)
    /\ (d < 5000 -> d' = Z.min (2 * d) 5000)
    /\ (0 <= 100 -> d <= d').
Proof.
  apply (retry_delay_doubles_up_to_the_cap (fun _ => S754_zero false)
           (fun _ f => Ok f) (fun _ _ => false)
           {| max_retries := 3; retry_delay_ms := 100;
              max_retry_delay_ms := 5000 |} 6).
  lia.
Defined.

End RetryFacts.

Module EstimatorFacts.
Import TokenEstimator Spec Notions.

(** [count_str] adds to the counters what the value holds. *)
Lemma count_str_adds (obj : json) (c : counters) :
  count_str obj c
  = mkCounters (total_chars c + text_length obj)
      (image_count c + images_in obj).
Proof.
  revert c. induction obj as [| | | | |l IH|d IH] using json_nested_ind;
    intros c; cbn [count_str text_length images_in];
    try (destruct c; cbn; f_equal; lia).
  - revert c. induction IH as [|x l Hx _ IHl]; intros c.
    + destruct c; cbn; f_equal; lia.
    + cbn [fold_right]. rewrite IHl, Hx. cbn. f_equal; lia.
  - fold (is_image d). 
    set (c0 := if is_image d then _ else c).
    assert (H0 : c0 = mkCounters (total_chars c)
                        (image_count c + (if is_image d then 1 else 0))).
    { unfold c0. destruct (is_image d); destruct c; cbn; f_equal; lia. }
    clearbody c0. subst c0. generalize (if is_image d then 1 else 0) as i.
    intros i. 
    enough (H : forall c,
              (fix values (kvs : list (string * json)) (c : counters)
                 {struct kvs} : counters :=
                 match kvs with
                 | [] => c
                 | kv :: rest => values rest (count_str (snd kv) c)
                 end) d c
              = mkCounters
                  (total_chars c
                   + fold_right (fun kv n => text_length (snd kv) + n) 0 d)
                  (image_count c
                   + fold_right (fun kv n => images_in (snd kv) + n) 0 d)).
    { rewrite H. cbn. f_equal; lia. }
    clear c. induction IH as [|kv d Hkv _ IHd]; intros c.
    + destruct c; cbn; f_equal; lia.
    + cbn [fold_right]. rewrite IHd, Hkv. cbn. f_equal; lia.
Qed.

Lemma text_length_nonneg (obj : json) : 0 <= text_length obj.
Proof.
  induction obj as [| | | | |l IH|d IH] using json_nested_ind;
    cbn [text_length]; try lia.
  - induction IH; cbn [fold_right]; lia.
  - induction IH; cbn [fold_right]; lia.
Qed.

Lemma images_in_nonneg (obj : json) : 0 <= images_in obj.
Proof.
  induction obj as [| | | | |l IH|d IH] using json_nested_ind;
    cbn [images_in]; try lia.
  - induction IH; cbn [fold_right]; lia.
  - assert (0 <= fold_right (fun kv n => images_in (snd kv) + n) 0 d)
      by (induction IH; cbn [fold_right]; lia).
    destruct (is_image d); lia.
Qed.

(** The estimate is a quarter of the characters of all the strings the
    payload holds as values, at any depth, plus 300 for every dict that is
    an image; keys are not counted, and the estimate is 1 at least. *)
Theorem estimate_counts_text_and_images (payload : dict) :
  estimate_input_tokens payload
  = Z.max 1 (text_length (JDict payload) / 4
             + images_in (JDict payload) * 300)
  /\ 1 <= estimate_input_tokens payload
  /\ images_in (JDict payload) * 300 <= estimate_input_tokens payload.
Proof.
  unfold estimate_input_tokens. cbv zeta. rewrite count_str_adds.
  cbn [total_chars image_count Z.add].
  pose proof (text_length_nonneg (JDict payload)) as Ht.
  pose proof (images_in_nonneg (JDict payload)) as Hi.
  assert (0 <= text_length (JDict payload) / 4)
    by (apply Z.div_pos; lia).
  repeat split; lia.
Qed.

End EstimatorFacts.

Module StreamEndFacts.
Import Streaming Spec Notions.

(** *** code that keeps a property of the frame on every path *)

Lemma keeps_bind {A B} (K : Frame -> Prop) (m : M A) (f : A -> M B) :
  keeps K m -> (forall a, keeps K (f a)) -> keeps K (bind m f).
Proof.
  intros Hm Hf fr HK. unfold bind. specialize (Hm fr HK).
  destruct (m fr) as [[a|e] fr1]; cbn [snd] in *; [|exact Hm].
  now apply Hf.
Qed.

Lemma keeps_ret {A} (K : Frame -> Prop) (a : A) : keeps K (ret a).
Proof. intros fr HK. exact HK. Qed.

Lemma keeps_lift {A} (K : Frame -> Prop) (r : result A) : keeps K (lift r).
Proof. intros fr HK. exact HK. Qed.

Lemma keeps_gets {A} (K : Frame -> Prop) (f : Frame -> A) : keeps K (gets f).
Proof. intros fr HK. exact HK. Qed.

Lemma keeps_modify (K : Frame -> Prop) (f : Frame -> Frame) :
  (forall fr, K fr -> K (f fr)) -> keeps K (modify f).
Proof. intros H fr HK. now apply H. Qed.

Lemma keeps_for_each {A} (K : Frame -> Prop) (body : A -> M unit)
    (xs : list A) :
  (forall x, keeps K (body x)) -> keeps K (for_each body xs).
Proof.
  intros H. induction xs as [|x xs IH]; cbn [for_each].
  - apply keeps_ret.
  - apply keeps_bind; [apply H | intros _; exact IH].
Qed.

Section Translator.

Variable json_loads : string -> option json.
Variable json_dumps : json -> string.
Variable py_repr : json -> string.
Variable int_of_str : string -> option Z.
Variable exn_str : exn -> string.
Variable uuid4_hex : Z -> string.
Variable model_arg : string.
Variable message_id_arg : string.
Variable initial_input_tokens : Z.
Variable credential_manager : option CredentialManager.
Variable credential_name : option string.
Variable client_thinking_enabled : bool.
Variable thinking_to_text : bool.

Let read :=
  read_lines json_loads json_dumps py_repr int_of_str uuid4_hex model_arg
    message_id_arg credential_manager credential_name
    client_thinking_enabled thinking_to_text.
Let chunk_of :=
  process_chunk json_dumps py_repr int_of_str uuid4_hex model_arg
    message_id_arg client_thinking_enabled thinking_to_text.
Let finish_up := epilogue model_arg message_id_arg initial_input_tokens.
Let run :=
  antigravity_sse_to_anthropic_sse json_loads json_dumps py_repr int_of_str
    exn_str uuid4_hex model_arg message_id_arg initial_input_tokens
    credential_manager credential_name client_thinking_enabled
    thinking_to_text.

(** *** a stream without a chunk *)

(** A stream without a chunk (no line, or only lines that are passed
    over) is answered with [message_start], [message_delta] and
    [message_stop]: the estimate, cut at 0, is the input token count of
    both, the output token count is 0 and the stop reason is
    ["end_turn"].  A ["data: "] line among them reaches the record call
    of the credential manager, which has to return: when it raises, the
    stream is [message_start] and [error]. *)
Theorem stream_without_chunks (lines : list string) :
  forallb (ignored_line json_loads) lines = true ->
  (existsb (String.prefix "data: ") lines = true ->
   records_quietly credential_manager credential_name) ->
  antigravity_sse_to_anthropic_sse json_loads json_dumps py_repr int_of_str
    exn_str uuid4_hex model_arg message_id_arg initial_input_tokens
    credential_manager credential_name client_thinking_enabled
    thinking_to_text lines
  = ([message_start model_arg message_id_arg (Z.max 0 initial_input_tokens);
      _sse_event "message_delta"
        [("type", JStr "message_delta");
         ("delta", JDict [("stop_reason", JStr "end_turn");
                          ("stop_sequence", JNull)]);
         ("usage", JDict [("input_tokens",
                           JInt (Z.max 0 initial_input_tokens));
                          ("output_tokens", JInt 0)])];
      message_stop], None).
Proof.
  intros H Hq.
  destruct (StreamingFacts.ignored_lines_only json_loads json_dumps py_repr
              int_of_str exn_str uuid4_hex model_arg message_id_arg
              initial_input_tokens credential_manager credential_name
              client_thinking_enabled thinking_to_text lines H Hq) as [-> _].
  reflexivity.
Qed.

(** *** where the loop stops *)

(** Two runs of the loop that end alike, [ready_output] apart, give the
    same stream. *)
Lemma run_of_alike (lines1 lines2 : list string) :
  fst (fst (read lines1 false (init_frame model_arg message_id_arg)))
  = fst (fst (read lines2 false (init_frame model_arg message_id_arg))) ->
  with_ready []
    (snd (fst (read lines1 false (init_frame model_arg message_id_arg))))
  = with_ready []
      (snd (fst (read lines2 false (init_frame model_arg message_id_arg)))) ->
  run lines1 = run lines2.
Proof.
  unfold run, antigravity_sse_to_anthropic_sse, read.
  destruct (fst (read_lines _ _ _ _ _ _ _ _ _ _ _ lines1 _ _)) as [r1 fr1].
  destruct (fst (read_lines _ _ _ _ _ _ _ _ _ _ _ lines2 _ _)) as [r2 fr2].
  cbn [fst snd]. intros <- Hfr.
  assert (Hy : yielded fr1 = yielded fr2)
    by (apply (f_equal yielded) in Hfr; exact Hfr).
  assert (Hs : message_start_sent fr1 = message_start_sent fr2)
    by (apply (f_equal message_start_sent) in Hfr; exact Hfr).
  destruct r1 as [u|e].
  - destruct (StreamingFacts.epilogue_alike model_arg message_id_arg
                initial_input_tokens fr1 fr2 Hfr) as (He & Hey & Hes).
    destruct (epilogue _ _ _ fr1) as [q1 f1].
    destruct (epilogue _ _ _ fr2) as [q2 f2].
    cbn [fst snd] in He, Hey, Hes. subst q2.
    destruct q1; unfold on_exception; now rewrite Hey, ?Hes.
  - unfold on_exception. now rewrite Hy, Hs.
Qed.

Lemma read_lines_done (pre post : list string) (line : string)
    (rec : bool) (fr : Frame) :
  String.prefix "data: " line = true ->
  strip (drop 6 line) = "[DONE]" ->
  fst (fst (read (pre ++ line :: post) rec fr)) = fst (fst (read pre rec fr))
  /\ with_ready [] (snd (fst (read (pre ++ line :: post) rec fr)))
     = with_ready [] (snd (fst (read pre rec fr))).
Proof.
  intros Hprefix Hdone. revert rec fr.
  assert (Hline : (line =? "") || negb (String.prefix "data: " line) = false).
  { rewrite Hprefix. destruct line; [discriminate | reflexivity]. }
  induction pre as [|x pre IH]; intros rec fr.
  - cbn [app]. unfold read. cbn [read_lines]. cbv zeta.
    rewrite Hline, Hdone. cbn [String.eqb Ascii.eqb Bool.eqb fst snd].
    split; reflexivity.
  - cbn [app]. unfold read in *. cbn [read_lines]. cbv zeta.
    destruct ((x =? "") || negb (String.prefix "data: " x)); [apply IH|].
    destruct (strip (drop 6 x) =? "[DONE]"); [now split|].
    destruct (record_success _ _ rec) as [rec1|e0]; [|now split].
    destruct (json_loads (strip (drop 6 x))) as [data|]; [|apply IH].
    destruct (process_chunk _ _ _ _ _ _ _ _ data (with_ready [] fr))
      as [[finish|e] fr1]; [|now split].
    destruct (truthy finish); [now split | apply IH].
Qed.

(** The line [data: [DONE]] ends the stream: what follows it is not
    read. *)
Theorem done_ends_the_stream (pre post : list string) (line : string) :
  String.prefix "data: " line = true ->
  strip (drop 6 line) = "[DONE]" ->
  antigravity_sse_to_anthropic_sse json_loads json_dumps py_repr int_of_str
    exn_str uuid4_hex model_arg message_id_arg initial_input_tokens
    credential_manager credential_name client_thinking_enabled
    thinking_to_text (pre ++ line :: post)
  = antigravity_sse_to_anthropic_sse json_loads json_dumps py_repr int_of_str
      exn_str uuid4_hex model_arg message_id_arg initial_input_tokens
      credential_manager credential_name client_thinking_enabled
      thinking_to_text pre.
Proof.
  intros Hprefix Hdone.
  destruct (read_lines_done pre post line false
              (init_frame model_arg message_id_arg) Hprefix Hdone)
    as [H1 H2].
  now apply run_of_alike.
Qed.

Lemma hoare_any {A} (P : Frame -> Prop) (m : M A) :
  hoare P m (fun _ _ => True).
Proof. intros fr _. now destruct (m fr) as [[a|e] fr1]. Qed.

(** What a chunk returns is the [finishReason] of its first candidate. *)
Lemma process_chunk_finish_reason (data : json) :
  hoare (fun _ => True) (chunk_of data)
    (fun finish _ => finish_reason_of data = Some finish).
Proof.
  unfold chunk_of, process_chunk.
  eapply StreamingFacts.hoare_bind; [apply StreamingFacts.hoare_lift|].
  intros response0.
  apply StreamingFacts.hoare_pre_prop. intros E1. cbv zeta.
  eapply StreamingFacts.hoare_bind; [apply StreamingFacts.hoare_lift|].
  intros candidates.
  apply StreamingFacts.hoare_pre_prop. intros E2.
  eapply StreamingFacts.hoare_bind; [apply StreamingFacts.hoare_lift|].
  intros candidate0.
  apply StreamingFacts.hoare_pre_prop. intros E3.
  eapply StreamingFacts.hoare_bind; [apply StreamingFacts.hoare_lift|].
  intros content0.
  apply StreamingFacts.hoare_pre_prop. intros E4.
  eapply StreamingFacts.hoare_bind; [apply StreamingFacts.hoare_lift|].
  intros parts0.
  apply StreamingFacts.hoare_pre_prop. intros E5.
  destruct data as [| | | | | |d]; try discriminate E1.
  cbn [py_get] in E1. injection E1 as <-.
  unfold finish_reason_of.
  destruct (py_or (dict_get_default "response" (JDict []) d) (JDict []))
    as [| | | | | |response]; try discriminate E2.
  cbn [py_get] in E2. injection E2 as <-.
  rewrite E3.
  destruct (py_or candidate0 (JDict [])) as [| | | | | |candidate];
    try discriminate E4.
  eapply StreamingFacts.hoare_bind; [apply hoare_any|]. intros ?.
  eapply StreamingFacts.hoare_bind; [apply hoare_any|]. intros ?.
  eapply StreamingFacts.hoare_bind; [apply hoare_any|]. intros ?.
  eapply StreamingFacts.hoare_bind; [apply hoare_any|]. intros ?.
  eapply StreamingFacts.hoare_bind; [apply hoare_any|]. intros ?.
  intros fr _. cbn. reflexivity.
Qed.

Lemma read_lines_finished (pre post : list string) (line : string)
    (data finish : json) (rec : bool) (fr : Frame) :
  String.prefix "data: " line = true ->
  json_loads (strip (drop 6 line)) = Some data ->
  finish_reason_of data = Some finish ->
  truthy finish = true ->
  fst (read (pre ++ line :: post) rec fr) = fst (read (pre ++ [line]) rec fr).
Proof.
  intros Hprefix Hdata Hfinish Htruthy. revert rec fr.
  assert (Hline : (line =? "") || negb (String.prefix "data: " line) = false).
  { rewrite Hprefix. destruct line; [discriminate | reflexivity]. }
  induction pre as [|x pre IH]; intros rec fr.
  - cbn [app]. unfold read. cbn [read_lines]. cbv zeta.
    rewrite Hline, Hdata.
    destruct (strip (drop 6 line) =? "[DONE]"); [reflexivity|].
    destruct (record_success _ _ rec) as [rec1|e0]; [|reflexivity].
    pose proof (process_chunk_finish_reason data (with_ready [] fr) I) as Hf.
    unfold chunk_of in Hf.
    destruct (process_chunk _ _ _ _ _ _ _ _ data (with_ready [] fr))
      as [[fin|e] fr1]; [|reflexivity].
    rewrite Hfinish in Hf. injection Hf as <-. now rewrite Htruthy.
  - cbn [app]. unfold read in *. cbn [read_lines]. cbv zeta.
    destruct ((x =? "") || negb (String.prefix "data: " x)); [apply IH|].
    destruct (strip (drop 6 x) =? "[DONE]"); [reflexivity|].
    destruct (record_success _ _ rec) as [rec1|e0]; [|reflexivity].
    destruct (json_loads (strip (drop 6 x))) as [d|]; [|apply IH].
    destruct (process_chunk _ _ _ _ _ _ _ _ d (with_ready [] fr))
      as [[fin|e] fr1]; [|reflexivity].
    destruct (truthy fin); [reflexivity | apply IH].
Qed.

(** A chunk whose first candidate has a [finishReason] that is not empty
    ends the stream: the lines after it are not read. *)
Theorem finish_reason_ends_the_stream (pre post : list string)
    (line : string) (data finish : json) :
  String.prefix "data: " line = true ->
  json_loads (strip (drop 6 line)) = Some data ->
  finish_reason_of data = Some finish ->
  truthy finish = true ->
  antigravity_sse_to_anthropic_sse json_loads json_dumps py_repr int_of_str
    exn_str uuid4_hex model_arg message_id_arg initial_input_tokens
    credential_manager credential_name client_thinking_enabled
    thinking_to_text (pre ++ line :: post)
  = antigravity_sse_to_anthropic_sse json_loads json_dumps py_repr int_of_str
      exn_str uuid4_hex model_arg message_id_arg initial_input_tokens
      credential_manager credential_name client_thinking_enabled
      thinking_to_text (pre ++ [line]).
Proof.
  intros Hprefix Hdata Hfinish Htruthy.
  pose proof (read_lines_finished pre post line data finish false
                (init_frame model_arg message_id_arg) Hprefix Hdata Hfinish
                Htruthy) as H.
  apply run_of_alike; unfold read in *; now rewrite H.
Qed.

End Translator.

Lemma stream_without_chunks_witness :
  antigravity_sse_to_anthropic_sse (fun _ => None) json_text (fun _ => "")
    (fun _ => None) (fun _ => "") (fun _ => "0") "claude-sonnet-4-5" "msg_1"
    (-7) (Some quiet_manager) (Some "cred-1") true false
    [": keep-alive"; "data: {oops"; ""]
  = ([message_start "claude-sonnet-4-5" "msg_1" 0;
      _sse_event "message_delta"
        [("type", JStr "message_delta");
         ("delta", JDict [("stop_reason", JStr "end_turn");
                          ("stop_sequence", JNull)]);
         ("usage", JDict [("input_tokens", JInt 0);
                          ("output_tokens", JInt 0)])];
      message_stop], None).
Proof.
  apply (stream_without_chunks (fun _ => None) json_text (fun _ => "")
           (fun _ => None) (fun _ => "") (fun _ => "0") "claude-sonnet-4-5"
           "msg_1" (-7) (Some quiet_manager) (Some "cred-1") true false).
  - reflexivity.
  - intros _. reflexivity.
Defined.

Lemma done_ends_the_stream_witness :
  antigravity_sse_to_anthropic_sse (loads_of scenario2_chunks) json_text
    (fun _ => "") (fun _ => None) (fun _ => "") (fun _ => "0")
    "claude-sonnet-4-5" "msg_1" 0 None None true false
    ([data_line (chunk (prompt_tokens 5) [text_part "Hi"] [])]
     ++ "data: [DONE]"
        :: [data_line (chunk [] [text_part " there"] finish_stop)])
  = antigravity_sse_to_anthropic_sse (loads_of scenario2_chunks) json_text
      (fun _ => "") (fun _ => None) (fun _ => "") (fun _ => "0")
      "claude-sonnet-4-5" "msg_1" 0 None None true false
      [data_line (chunk (prompt_tokens 5) [text_part "Hi"] [])].
Proof.
  apply done_ends_the_stream; reflexivity.
Defined.

Lemma finish_reason_ends_the_stream_witness :
  antigravity_sse_to_anthropic_sse (loads_of scenario2_chunks) json_text
    (fun _ => "") (fun _ => None) (fun _ => "") (fun _ => "0")
    "claude-sonnet-4-5" "msg_1" 0 None None true false
    ([] ++ data_line (chunk [] [text_part " there"] finish_stop)
        :: [data_line (chunk (prompt_tokens 5) [text_part "Hi"] [])])
  = antigravity_sse_to_anthropic_sse (loads_of scenario2_chunks) json_text
      (fun _ => "") (fun _ => None) (fun _ => "") (fun _ => "0")
      "claude-sonnet-4-5" "msg_1" 0 None None true false
      ([] ++ [data_line (chunk [] [text_part " there"] finish_stop)]).
Proof.
  apply (finish_reason_ends_the_stream (loads_of scenario2_chunks) json_text
           (fun _ => "") (fun _ => None) (fun _ => "") (fun _ => "0")
           "claude-sonnet-4-5" "msg_1" 0 None None true false [] _ _
           (chunk [] [text_part " there"] finish_stop) (JStr "STOP"));
    reflexivity.
Defined.

End StreamEndFacts.

Module StreamFailureFacts.
Import Streaming Spec Notions StreamEndFacts.

Section Translator.

Variable json_loads : string -> option json.
Variable json_dumps : json -> string.
Variable py_repr : json -> string.
Variable int_of_str : string -> option Z.
Variable exn_str : exn -> string.
Variable uuid4_hex : Z -> string.
Variable model_arg : string.
Variable message_id_arg : string.
Variable initial_input_tokens : Z.
Variable credential_manager : option CredentialManager.
Variable credential_name : option string.
Variable client_thinking_enabled : bool.
Variable thinking_to_text : bool.

Variable y : list event.
Variable sent0 : bool.

Let K := yielded_as y sent0.

Ltac frame_step :=
  let fr := fresh "fr" in
  let Hy := fresh "Hy" in
  let Hs := fresh "Hs" in
  intros fr [Hy Hs]; StreamingFacts.open_frame fr;
  split; [exact Hy | first [exact Hs | reflexivity | intros _; reflexivity]].

Lemma keeps_with_state (f : _StreamingState -> _StreamingState) :
  keeps K (modify (with_state f)).
Proof. apply keeps_modify. frame_step. Qed.

Lemma keeps_enqueue (evt : event) : keeps K (enqueue evt).
Proof. apply keeps_modify. frame_step. Qed.

Lemma keeps_ready_append (evt : event) : keeps K (ready_append evt).
Proof. apply keeps_modify. frame_step. Qed.

Lemma keeps_emit (evt : event) : keeps K (emit evt).
Proof.
  unfold emit. apply keeps_bind; [apply keeps_gets|]. intros [|];
    [apply keeps_ready_append | apply keeps_enqueue].
Qed.

Lemma keeps_close_block_if_open : keeps K close_block_if_open.
Proof.
  unfold close_block_if_open. apply keeps_bind; [apply keeps_gets|].
  intros s. destruct (_current_block_type s); [|apply keeps_ret].
  apply keeps_bind; [apply keeps_with_state|]. intros _. apply keeps_ret.
Qed.

Lemma keeps_close_and_emit : keeps K close_and_emit.
Proof.
  unfold close_and_emit. apply keeps_bind; [apply keeps_close_block_if_open|].
  intros [evt|]; [apply keeps_emit | apply keeps_ret].
Qed.

Lemma keeps_next_index : keeps K _next_index.
Proof.
  unfold _next_index. apply keeps_bind; [apply keeps_with_state|].
  intros _. apply keeps_gets.
Qed.

Lemma keeps_open_text_block : keeps K open_text_block.
Proof.
  unfold open_text_block. apply keeps_bind; [apply keeps_next_index|].
  intros idx. apply keeps_bind; [apply keeps_with_state|]. intros _.
  apply keeps_ret.
Qed.

Lemma keeps_open_thinking_block (signature : json) :
  keeps K (open_thinking_block signature).
Proof.
  unfold open_thinking_block. apply keeps_bind; [apply keeps_next_index|].
  intros idx. apply keeps_bind; [apply keeps_with_state|]. intros _.
  apply keeps_ret.
Qed.

Lemma keeps_send_message_start (tokens : Z) :
  keeps K (send_message_start model_arg message_id_arg tokens).
Proof.
  unfold send_message_start. apply keeps_bind; [apply keeps_gets|].
  intros [|]; [apply keeps_ret|].
  apply keeps_bind; [apply keeps_modify; frame_step|]. intros _.
  apply keeps_bind; [apply keeps_ready_append|]. intros _.
  unfold flush_pending_ready. apply keeps_modify.
  intros fr [Hy Hs]. StreamingFacts.open_frame fr.
  destruct pend; (split; [exact Hy | exact Hs]).
Qed.

Lemma keeps_capture_usage (response candidate : dict) :
  keeps K (capture_usage int_of_str response candidate).
Proof.
  unfold capture_usage. cbv zeta.
  apply keeps_bind.
  - destruct (dict_get "promptTokenCount" _); [|apply keeps_ret].
    apply keeps_bind; [apply keeps_lift|]. intros n. apply keeps_with_state.
  - intros _.
    destruct (dict_get "candidatesTokenCount" _); [|apply keeps_ret].
    apply keeps_bind; [apply keeps_lift|]. intros n. apply keeps_with_state.
Qed.

Ltac keeps_walk :=
  repeat first
    [ apply keeps_ret
    | apply keeps_gets
    | apply keeps_lift
    | apply keeps_emit
    | apply keeps_close_and_emit
    | apply keeps_next_index
    | apply keeps_open_text_block
    | apply keeps_open_thinking_block
    | apply keeps_with_state
    | apply keeps_modify; frame_step
    | apply keeps_bind; [|intros ?]
    | match goal with
      | |- keeps _ (if ?c then _ else _) => destruct c
      | |- keeps _ (match ?x with _ => _ end) => destruct x
      end ].

Lemma keeps_process_part (part : json) :
  keeps K
    (process_part json_dumps py_repr uuid4_hex client_thinking_enabled
       thinking_to_text part).
Proof.
  unfold process_part. destruct part; try apply keeps_ret.
  cbv zeta. keeps_walk.
Qed.

Lemma keeps_process_chunk (data : json) :
  keeps K
    (process_chunk json_dumps py_repr int_of_str uuid4_hex model_arg
       message_id_arg client_thinking_enabled thinking_to_text data).
Proof.
  unfold process_chunk. cbv zeta.
  apply keeps_bind; [apply keeps_lift|]. intros response0.
  apply keeps_bind; [apply keeps_lift|]. intros candidates.
  apply keeps_bind; [apply keeps_lift|]. intros candidate0.
  apply keeps_bind; [apply keeps_lift|]. intros content0.
  apply keeps_bind; [apply keeps_lift|]. intros parts0.
  apply keeps_bind.
  { destruct (py_or response0 (JDict [])); try apply keeps_ret.
    destruct (py_or candidate0 (JDict [])); try apply keeps_ret.
    apply keeps_capture_usage. }
  intros _. apply keeps_bind; [apply keeps_gets|]. intros fr0.
  apply keeps_bind.
  { destruct (_ && _); [apply keeps_send_message_start | apply keeps_ret]. }
  intros _. apply keeps_bind; [apply keeps_lift|]. intros items.
  apply keeps_bind; [|intros _; apply keeps_lift].
  apply keeps_for_each. apply keeps_process_part.
Qed.

End Translator.

Section Failure.

Variable json_loads : string -> option json.
Variable json_dumps : json -> string.
Variable py_repr : json -> string.
Variable int_of_str : string -> option Z.
Variable exn_str : exn -> string.
Variable uuid4_hex : Z -> string.
Variable model_arg : string.
Variable message_id_arg : string.
Variable initial_input_tokens : Z.
Variable credential_manager : option CredentialManager.
Variable credential_name : option string.
Variable client_thinking_enabled : bool.
Variable thinking_to_text : bool.

Let read :=
  read_lines json_loads json_dumps py_repr int_of_str uuid4_hex model_arg
    message_id_arg credential_manager credential_name
    client_thinking_enabled thinking_to_text.
Let ok := frame_ok (message_start model_arg message_id_arg) (fun _ => True) true.

(** When the loop raises, nothing was yielded since the last chunk that
    was translated to its end, and a [message_start] sent by then stays
    sent. *)
Lemma read_lines_raises (lines : list string) (rec : bool) (fr : Frame)
    (e : exn) (fr' : Frame) :
  ok (with_ready [] fr) ->
  fst (read lines rec fr) = (Raise e, fr') ->
  exists fr0,
    ok fr0
    /\ ready_output fr0 = []
    /\ yielded_as (yielded fr0) (message_start_sent fr0) fr'.
Proof.
  unfold read. revert rec fr.
  induction lines as [|line lines IH]; intros rec fr Hok.
  - discriminate.
  - cbn [read_lines]. cbv zeta.
    destruct ((line =? "") || negb (String.prefix "data: " line)).
    { now apply IH. }
    destruct (strip (drop 6 line) =? "[DONE]"); [discriminate|].
    destruct (record_success _ _ rec) as [rec1|e0].
    2:{ cbn [fst]. intros H. injection H as <- <-.
        exists (with_ready [] fr). split; [exact Hok|].
        split; [now destruct fr | now split]. }
    destruct (json_loads (strip (drop 6 line))) as [data|]; [|now apply IH].
    pose proof (StreamingFacts.hoare_process_chunk json_dumps py_repr
                  int_of_str uuid4_hex model_arg message_id_arg
                  client_thinking_enabled thinking_to_text (fun _ => True)
                  data (fun _ _ _ _ => I) (with_ready [] fr) Hok) as Hchunk.
    pose proof (keeps_process_chunk json_dumps py_repr int_of_str uuid4_hex
                  model_arg message_id_arg client_thinking_enabled
                  thinking_to_text (yielded (with_ready [] fr))
                  (message_start_sent (with_ready [] fr)) data
                  (with_ready [] fr) (conj eq_refl (fun H => H))) as Hkeep.
    destruct (process_chunk _ _ _ _ _ _ _ _ data (with_ready [] fr))
      as [[finish|e1] fr1]; cbn [snd] in Hkeep.
    + apply (StreamingFacts.ok_yield model_arg message_id_arg) in Hchunk.
      destruct (truthy finish); [discriminate|]. now apply IH.
    + cbn [fst]. intros H. injection H as <- <-.
      exists (with_ready [] fr). split; [exact Hok|].
      split; [now destruct fr | exact Hkeep].
Qed.

(** A stream that fails is what had been yielded, nothing or
    [message_start] and block events in their order, and then one [error]
    event.  [message_start] is put before the error only when it had not
    been built: a [message_start] that was built for the chunk that fails
    is lost with the other events of that chunk. *)
Theorem failed_stream_ends_with_error (lines : list string)
    (events : list event) (e : exn) :
  antigravity_sse_to_anthropic_sse json_loads json_dumps py_repr int_of_str
    exn_str uuid4_hex model_arg message_id_arg initial_input_tokens
    credential_manager credential_name client_thinking_enabled
    thinking_to_text lines = (events, Some e) ->
  exists before,
    events = before ++ [error_event exn_str e]
    /\ (before = []
        \/ exists n body position,
             before = message_start model_arg message_id_arg n :: body
             /\ steps (-1, false) (map kind_of body) position).
Proof.
  unfold antigravity_sse_to_anthropic_sse.
  pose proof (StreamingFacts.ok_init_frame model_arg message_id_arg
                (fun _ => True)) as Hinit.
  pose proof (StreamingFacts.read_lines_ok json_loads json_dumps py_repr
                int_of_str uuid4_hex model_arg message_id_arg
                credential_manager credential_name client_thinking_enabled
                thinking_to_text (fun _ => True) lines
                (fun _ _ _ _ _ _ _ _ => I) false
                (init_frame model_arg message_id_arg) Hinit) as Hok.
  pose proof (read_lines_raises lines false
                (init_frame model_arg message_id_arg)) as Hraise.
  unfold read in Hraise.
  destruct (fst (read_lines _ _ _ _ _ _ _ _ _ _ _ lines false _))
    as [[u|e1] fr].
  - destruct (StreamingFacts.epilogue_shape model_arg message_id_arg
                initial_input_tokens (fun _ => True) fr Hok)
      as (fr' & -> & _).
    discriminate.
  - intros H. injection H as <- <-.
    destruct (Hraise e1 fr Hinit eq_refl) as (fr0 & H0 & Hr & Hy & Hs).
    unfold on_exception. rewrite Hy.
    exists (yielded fr0
            ++ (if message_start_sent fr then []
                else [message_start model_arg message_id_arg
                        (initial_input_tokens_int initial_input_tokens)])).
    split; [now rewrite <- app_assoc|].
    unfold ok, frame_ok in H0. destruct H0 as (_ & _ & H0).
    destruct (message_start_sent fr0).
    + rewrite (Hs eq_refl). rewrite app_nil_r.
      destruct H0 as (_ & n & body & _ & Hb & Hsteps).
      rewrite Hr, app_nil_r in Hb. right. eauto.
    + destruct H0 as (-> & _ & _). cbn [app].
      destruct (message_start_sent fr); [now left|].
      right. eexists _, [], _. split; [reflexivity | constructor].
Qed.

End Failure.

(** The first chunk reports a token count, so that [message_start] is
    built, and then fails on a part: the client gets the [error] event
    and no [message_start]. *)
Example error_without_message_start :
  fst (run_example [broken_chunk] [])
  = [error_event (fun _ => "") AttributeError].
Proof. reflexivity. Qed.

Lemma failed_stream_ends_with_error_witness :
  exists before,
    fst (run_example [broken_chunk] [])
    = before ++ [error_event (fun _ => "") AttributeError]
    /\ (before = []
        \/ exists n body position,
             before = message_start "claude-sonnet-4-5" "msg_1" n :: body
             /\ steps (-1, false) (map kind_of body) position).
Proof.
  apply (failed_stream_ends_with_error (loads_of [broken_chunk]) json_text
           (fun _ => "") (fun _ => None) (fun _ => "") (fun _ => "0")
           "claude-sonnet-4-5" "msg_1" 0 None None true false
           (map data_line [broken_chunk])).
  reflexivity.
Defined.

End StreamFailureFacts.

(** ** Lines the loop passes over (streaming.py) *)

Module IgnoredLineFacts.
Import Streaming Spec Notions StreamEndFacts.

Section Translator.

Variable json_loads : string -> option json.
Variable json_dumps : json -> string.
Variable py_repr : json -> string.
Variable int_of_str : string -> option Z.
Variable exn_str : exn -> string.
Variable uuid4_hex : Z -> string.
Variable model_arg : string.
Variable message_id_arg : string.
Variable initial_input_tokens : Z.
Variable credential_manager : option CredentialManager.
Variable credential_name : option string.
Variable client_thinking_enabled : bool.
Variable thinking_to_text : bool.

Let read :=
  read_lines json_loads json_dumps py_repr int_of_str uuid4_hex model_arg
    message_id_arg credential_manager credential_name
    client_thinking_enabled thinking_to_text.
Let chunk_of :=
  process_chunk json_dumps py_repr int_of_str uuid4_hex model_arg
    message_id_arg client_thinking_enabled thinking_to_text.
Let run :=
  antigravity_sse_to_anthropic_sse json_loads json_dumps py_repr int_of_str
    exn_str uuid4_hex model_arg message_id_arg initial_input_tokens
    credential_manager credential_name client_thinking_enabled
    thinking_to_text.

(** *** what is yielded stays yielded *)

Lemma yielded_from_refl (fr : Frame) : yielded_from (yielded fr) fr.
Proof. exists []. now rewrite app_nil_r. Qed.

Lemma yielded_from_trans (y : list event) (fr fr' : Frame) :
  yielded_from y fr -> yielded_from (yielded fr) fr' -> yielded_from y fr'.
Proof.
  intros [m1 H1] [m2 H2]. exists (m1 ++ m2). now rewrite H2, H1, app_assoc.
Qed.

Lemma process_chunk_yields_nothing (data : json) (fr : Frame) :
  yielded (snd (chunk_of data fr)) = yielded fr.
Proof.
  unfold chunk_of.
  apply (StreamFailureFacts.keeps_process_chunk json_dumps py_repr int_of_str
           uuid4_hex model_arg message_id_arg client_thinking_enabled
           thinking_to_text (yielded fr) (message_start_sent fr) data fr).
  now split.
Qed.

(** The loop on a chunk that is translated yields the events the chunk
    has made ready, after what was yielded before. *)
Lemma read_lines_grows (lines : list string) (rec : bool) (fr : Frame) :
  yielded_from (yielded fr) (snd (fst (read lines rec fr))).
Proof.
  unfold read. revert rec fr.
  induction lines as [|line lines IH]; intros rec fr.
  - apply yielded_from_refl.
  - cbn [read_lines]. cbv zeta.
    assert (Hy : yielded (with_ready [] fr) = yielded fr) by now destruct fr.
    destruct ((line =? "") || negb (String.prefix "data: " line)).
    { rewrite <- Hy. apply IH. }
    destruct (strip (drop 6 line) =? "[DONE]").
    { rewrite <- Hy. apply yielded_from_refl. }
    destruct (record_success _ _ rec) as [rec1|e0].
    2:{ rewrite <- Hy. apply yielded_from_refl. }
    destruct (json_loads (strip (drop 6 line))) as [data|].
    2:{ rewrite <- Hy. apply IH. }
    pose proof (process_chunk_yields_nothing data (with_ready [] fr)) as Hc.
    unfold chunk_of in Hc.
    destruct (process_chunk _ _ _ _ _ _ _ _ data (with_ready [] fr))
      as [[finish|e] fr1]; cbn [fst snd] in *.
    rewrite Hy in Hc.
    2:{ exists []. now rewrite app_nil_r, Hc. }
    assert (Hr : yielded_from (yielded fr) (yield_ready fr1)).
    { exists (ready_output fr1). rewrite <- Hc. now destruct fr1. }
    destruct (truthy finish).
    + destruct Hr as [more Hr]. exists more. rewrite <- Hr.
      now destruct fr1.
    + eapply yielded_from_trans; [exact Hr | apply IH].
Qed.

Lemma read_chunk_line (next : string) (data : json) (rest : list string)
    (rec : bool) (fr : Frame) (finish : json) (fr1 : Frame) :
  chunk_line json_loads next data ->
  records_quietly credential_manager credential_name ->
  chunk_of data (with_ready [] fr) = (Ok finish, fr1) ->
  yielded_from (yielded fr ++ ready_output fr1)
    (snd (fst (read (next :: rest) rec fr))).
Proof.
  intros (Hprefix & Hdone & Hdata) Hq Hchunk.
  unfold read. cbn [read_lines]. cbv zeta.
  assert (Hline : (next =? "") || negb (String.prefix "data: " next) = false).
  { rewrite Hprefix. destruct next; [discriminate | reflexivity]. }
  rewrite Hline, Hdone.
  destruct (StreamingFacts.record_success_quiet json_loads json_dumps
              py_repr int_of_str exn_str uuid4_hex model_arg message_id_arg
              initial_input_tokens credential_manager credential_name
              client_thinking_enabled thinking_to_text rec Hq) as [rec1 ->].
  rewrite Hdata.
  pose proof (process_chunk_yields_nothing data (with_ready [] fr)) as Hc.
  unfold chunk_of in Hchunk, Hc. rewrite Hchunk in *. cbn [fst snd] in *.
  assert (Hy : yielded (yield_ready fr1) = yielded fr ++ ready_output fr1).
  { replace (yielded fr) with (yielded fr1)
      by (rewrite Hc; now destruct fr).
    now destruct fr1. }
  rewrite <- Hy.
  destruct (truthy finish).
  - exists []. rewrite app_nil_r. now destruct fr1.
  - apply (read_lines_grows rest rec1 (yield_ready fr1)).
Qed.

(** The loop after a line it passes over: the chunk that follows is
    translated from the frame as it was, and its events are yielded. *)
Lemma read_ignored_then_chunk (line next : string) (data : json)
    (rest : list string) (rec : bool) (fr : Frame) (finish : json)
    (fr1 : Frame) :
  ignored_line json_loads line = true ->
  chunk_line json_loads next data ->
  records_quietly credential_manager credential_name ->
  chunk_of data (with_ready [] fr) = (Ok finish, fr1) ->
  yielded_from (yielded fr ++ ready_output fr1)
    (snd (fst (read (line :: next :: rest) rec fr))).
Proof.
  intros Hline Hnext Hq Hchunk.
  destruct (StreamingFacts.read_lines_pass json_loads json_dumps py_repr
              int_of_str exn_str uuid4_hex model_arg message_id_arg
              initial_input_tokens credential_manager credential_name
              client_thinking_enabled thinking_to_text line (next :: rest)
              rec fr Hline (fun _ => Hq)) as (rec' & H & _).
  unfold read. rewrite H.
  assert (Hy : yielded (with_ready [] fr) = yielded fr) by now destruct fr.
  rewrite <- Hy.
  apply (read_chunk_line next data rest rec' (with_ready [] fr) finish fr1
           Hnext Hq).
  now destruct fr.
Qed.

Ltac grow_step :=
  let fr := fresh "fr" in
  let more := fresh "more" in
  let H := fresh "H" in
  intros fr [more H]; StreamingFacts.open_frame fr;
  unfold yielded_from; cbn in H; subst;
  try match goal with
      | |- context [match ?p with [] => _ | _ :: _ => _ end] => destruct p
      end;
  cbn; rewrite <- ?app_assoc; eexists; reflexivity.

Ltac grow_walk :=
  repeat
    match goal with
    | |- keeps _ (ret _) => apply keeps_ret
    | |- keeps _ (gets _) => apply keeps_gets
    | |- keeps _ (lift _) => apply keeps_lift
    | |- keeps _ (modify _) => apply keeps_modify; solve [grow_step]
    | |- keeps _ (bind _ _) => apply keeps_bind; [|intros ?]
    | |- keeps _ (if ?c then _ else _) => destruct c
    | |- keeps _ (match ?x with _ => _ end) => destruct x
    end.

(** The epilogue adds to what was yielded, whether it returns or
    raises. *)
Lemma epilogue_grows (y : list event) :
  keeps (yielded_from y)
    (epilogue model_arg message_id_arg initial_input_tokens).
Proof.
  unfold epilogue, close_block_if_open, open_text_block, _next_index,
    yield_or_enqueue, enqueue, send_message_start, ready_append,
    flush_pending_ready.
  cbv zeta. grow_walk.
Qed.

(** What the translator yields starts with what the loop had yielded. *)
Lemma run_grows (lines : list string) :
  exists more,
    fst (run lines)
    = yielded (snd (fst (read lines false
                           (init_frame model_arg message_id_arg)))) ++ more.
Proof.
  unfold run, antigravity_sse_to_anthropic_sse, read.
  destruct (fst (read_lines _ _ _ _ _ _ _ _ _ _ _ lines false _))
    as [[u|e] fr]; cbn [fst snd].
  - pose proof (epilogue_grows (yielded fr) fr (yielded_from_refl fr))
      as [more Hmore].
    destruct (epilogue _ _ _ fr) as [[u'|e] fr']; cbn [fst snd] in *.
    + now exists more.
    + unfold on_exception. rewrite Hmore, <- app_assoc. eauto.
  - unfold on_exception. eauto.
Qed.

(** C10.  A line that is empty or does not start with ["data: "], and a
    ["data: "] line whose payload is neither ["[DONE]"] nor JSON, leaves
    no trace, provided that the record call of the credential manager,
    which a ["data: "] line reaches before [json.loads], returns: the
    stream with the line yields the events of the stream without it and
    ends as it does; when the other lines are translated to their end the
    output is a sentence of the grammar still, closed by [message_delta]
    and [message_stop]; and the lines after it are read: the events that
    a chunk right after it makes ready are the first events of the
    stream. *)
Theorem ignored_line_emits_nothing (pre post : list string) (line : string) :
  ignored_line json_loads line = true ->
  (String.prefix "data: " line = true ->
   records_quietly credential_manager credential_name) ->
  antigravity_sse_to_anthropic_sse json_loads json_dumps py_repr int_of_str
    exn_str uuid4_hex model_arg message_id_arg initial_input_tokens
    credential_manager credential_name client_thinking_enabled
    thinking_to_text (pre ++ line :: post)
  = antigravity_sse_to_anthropic_sse json_loads json_dumps py_repr int_of_str
      exn_str uuid4_hex model_arg message_id_arg initial_input_tokens
      credential_manager credential_name client_thinking_enabled
      thinking_to_text (pre ++ post)
  /\ (snd (antigravity_sse_to_anthropic_sse json_loads json_dumps py_repr
             int_of_str exn_str uuid4_hex model_arg message_id_arg
             initial_input_tokens credential_manager credential_name
             client_thinking_enabled thinking_to_text (pre ++ post)) = None ->
      valid_stream
        (map kind_of
           (fst (antigravity_sse_to_anthropic_sse json_loads json_dumps
                   py_repr int_of_str exn_str uuid4_hex model_arg
                   message_id_arg initial_input_tokens credential_manager
                   credential_name client_thinking_enabled thinking_to_text
                   (pre ++ line :: post)))))
  /\ (forall (next : string) (data : json) (rest : list string)
        (finish : json) (fr1 : Frame),
        chunk_line json_loads next data ->
        records_quietly credential_manager credential_name ->
        process_chunk json_dumps py_repr int_of_str uuid4_hex model_arg
          message_id_arg client_thinking_enabled thinking_to_text data
          (init_frame model_arg message_id_arg) = (Ok finish, fr1) ->
        exists more,
          fst (antigravity_sse_to_anthropic_sse json_loads json_dumps py_repr
                 int_of_str exn_str uuid4_hex model_arg message_id_arg
                 initial_input_tokens credential_manager credential_name
                 client_thinking_enabled thinking_to_text
                 (line :: next :: rest))
          = ready_output fr1 ++ more).
Proof.
  intros Hline Hq. fold run.
  pose proof (StreamingFacts.run_skip_line json_loads json_dumps py_repr
                int_of_str exn_str uuid4_hex model_arg message_id_arg
                initial_input_tokens credential_manager credential_name
                client_thinking_enabled thinking_to_text pre post line
                Hline Hq) as Hskip.
  fold run in Hskip.
  split; [exact Hskip|]. split.
  - rewrite Hskip. intros Hend.
    destruct (run (pre ++ post)) as [events outcome] eqn:Hrun.
    cbn [fst snd] in *. subst outcome. unfold run in Hrun.
    apply (StreamingFacts.run_completed_shape json_loads json_dumps py_repr
             int_of_str exn_str uuid4_hex model_arg message_id_arg
             initial_input_tokens credential_manager credential_name
             client_thinking_enabled thinking_to_text (fun _ => True))
      in Hrun; [|auto].
    destruct Hrun as (n & body & sr & st & j & -> & Hs & _).
    exists (map kind_of body).
    split; [now apply StreamingFacts.steps_blocks with j|].
    cbn [map]. rewrite map_app. reflexivity.
  - intros next data rest finish fr1 Hnext Hquiet Hchunk.
    destruct (run_grows (line :: next :: rest)) as [more1 ->].
    destruct (read_ignored_then_chunk line next data rest false
                (init_frame model_arg message_id_arg) finish fr1 Hline Hnext
                Hquiet Hchunk) as [more2 ->].
    cbn [init_frame yielded app]. rewrite <- app_assoc. eauto.
Qed.

End Translator.

(** C10 fails as worded: the first ["data: "] line that is not ["[DONE]"]
    reaches the awaited record call of the credential manager before
    [json.loads]; when the call raises, the line that is no JSON ends the
    stream with [message_start] and an [error] event, where the stream
    without the line ends as usual. *)
Lemma record_call_failure_ends_the_stream :
  ignored_line (loads_of []) "data: {oops" = true
  /\ run_with_manager failing_manager [] ["data: {oops"]
     = ([message_start "claude-sonnet-4-5" "msg_1" 0;
         error_event (fun _ => "") ValueError], Some ValueError)
  /\ map kind_of (fst (run_with_manager failing_manager [] []))
     = [KMessageStart; KMessageDelta; KMessageStop]
  /\ snd (run_with_manager failing_manager [] []) = None.
Proof. repeat split; vm_compute; reflexivity. Qed.

Lemma ignored_line_emits_nothing_witness :
  run_with_manager quiet_manager scenario2_chunks
    ([": keep-alive"] ++ "data: {oops" :: map data_line scenario2_chunks)
  = run_with_manager quiet_manager scenario2_chunks
      ([": keep-alive"] ++ map data_line scenario2_chunks)
  /\ valid_stream
       (map kind_of
          (fst (run_with_manager quiet_manager scenario2_chunks
                  ([": keep-alive"] ++ "data: {oops"
                   :: map data_line scenario2_chunks))))
  /\ exists more,
       fst (run_with_manager quiet_manager scenario2_chunks
              ("data: {oops" :: map data_line scenario2_chunks))
       = [message_start "claude-sonnet-4-5" "msg_1" 5;
          content_block_start 0 [("type", JStr "text"); ("text", JStr "")];
          content_block_delta 0
            [("type", JStr "text_delta"); ("text", JStr "Hi")]]
         ++ more.
Proof.
  destruct (ignored_line_emits_nothing
              (loads_of scenario2_chunks) json_text (fun _ => "")
              (fun _ => None) (fun _ => "") (fun _ => "0")
              "claude-sonnet-4-5" "msg_1" 0 (Some quiet_manager)
              (Some "cred-1") true false
              [": keep-alive"] (map data_line scenario2_chunks)
              "data: {oops" eq_refl (fun _ => eq_refl))
    as (Hsame & Hvalid & Hnext).
  split; [exact Hsame|]. split; [apply Hvalid; reflexivity|].
  refine (Hnext (data_line (chunk (prompt_tokens 5) [text_part "Hi"] []))
            (chunk (prompt_tokens 5) [text_part "Hi"] [])
            [data_line (chunk [] [text_part " there"] finish_stop)]
            _ _ _ eq_refl eq_refl).
  repeat split; reflexivity.
Defined.

End IgnoredLineFacts.

Module ThinkingOffFacts.
Import Streaming Spec Notions StreamEndFacts.

(** *** code that keeps a property of the frame and says what it returns *)

Lemma giving_bind {A B} (K : Frame -> Prop) (m : M A) (f : A -> M B)
    (Q : A -> Prop) (Q' : B -> Prop) :
  keeps_giving K m Q -> (forall a, Q a -> keeps_giving K (f a) Q') ->
  keeps_giving K (bind m f) Q'.
Proof.
  intros Hm Hf fr HK. unfold bind. destruct (Hm fr HK) as [H1 H2].
  destruct (m fr) as [[a|e] fr1]; cbn [fst snd] in *; [|now split].
  now apply Hf.
Qed.

Lemma giving_keeps {A} (K : Frame -> Prop) (m : M A) :
  keeps K m -> keeps_giving K m (fun _ => True).
Proof.
  intros H fr HK. split; [now apply H|]. now destruct (fst (m fr)).
Qed.

Lemma giving_ret {A} (K : Frame -> Prop) (a : A) (Q : A -> Prop) :
  Q a -> keeps_giving K (ret a) Q.
Proof. intros H fr HK. now split. Qed.

Lemma giving_gets {A} (K : Frame -> Prop) (f : Frame -> A) (Q : A -> Prop) :
  (forall fr, K fr -> Q (f fr)) -> keeps_giving K (gets f) Q.
Proof. intros H fr HK. split; [exact HK | now apply H]. Qed.

Lemma keeps_giving_keeps {A} (K : Frame -> Prop) (m : M A) (Q : A -> Prop) :
  keeps_giving K m Q -> keeps K m.
Proof. intros H fr HK. now apply H. Qed.

Lemma no_thinking_app (xs ys : list event) :
  no_thinking xs -> no_thinking ys -> no_thinking (xs ++ ys).
Proof. intros Hx Hy. apply Forall_app. now split. Qed.

Lemma no_thinking_nil : no_thinking [].
Proof. constructor. Qed.

Lemma no_thinking_one (evt : event) :
  thinking_event evt = false -> no_thinking [evt].
Proof. intros H. now constructor. Qed.

Create HintDb thinking.

#[local] Hint Resolve no_thinking_app no_thinking_one no_thinking_nil : thinking.

Section Translator.

Variable json_loads : string -> option json.
Variable json_dumps : json -> string.
Variable py_repr : json -> string.
Variable int_of_str : string -> option Z.
Variable exn_str : exn -> string.
Variable uuid4_hex : Z -> string.
Variable model_arg : string.
Variable message_id_arg : string.
Variable initial_input_tokens : Z.
Variable credential_manager : option CredentialManager.
Variable credential_name : option string.
Variable thinking_to_text : bool.

Let K := without_thinking.

Ltac frame_step :=
  let fr := fresh "fr" in
  let Hb := fresh "Hb" in
  let Hp := fresh "Hp" in
  let Hr := fresh "Hr" in
  let Hy := fresh "Hy" in
  intros fr (Hb & Hp & Hr & Hy); StreamingFacts.open_frame fr;
  unfold K, without_thinking, block_is in *; cbn in *;
  repeat split; auto with thinking.

Lemma off_with_state (f : _StreamingState -> _StreamingState) :
  (forall s, _current_block_type (f s) = _current_block_type s) ->
  keeps K (modify (with_state f)).
Proof.
  intros Hf. apply keeps_modify. intros fr (Hb & Hp & Hr & Hy).
  unfold K, without_thinking, block_is in *.
  destruct fr; cbn in *. rewrite Hf. now repeat split.
Qed.

Lemma off_enqueue (evt : event) :
  thinking_event evt = false -> keeps K (enqueue evt).
Proof. intros H. apply keeps_modify. frame_step. Qed.

Lemma off_ready_append (evt : event) :
  thinking_event evt = false -> keeps K (ready_append evt).
Proof. intros H. apply keeps_modify. frame_step. Qed.

Lemma off_emit (evt : event) :
  thinking_event evt = false -> keeps K (emit evt).
Proof.
  intros H. unfold emit. apply keeps_bind; [apply keeps_gets|]. intros [|];
    [now apply off_ready_append | now apply off_enqueue].
Qed.

Lemma off_yield_or_enqueue (evt : event) :
  thinking_event evt = false -> keeps K (yield_or_enqueue evt).
Proof.
  intros H. unfold yield_or_enqueue. apply keeps_bind; [apply keeps_gets|].
  intros [|]; [|now apply off_enqueue].
  apply keeps_modify. frame_step.
Qed.

Lemma off_close_block_if_open :
  keeps_giving K close_block_if_open
    (fun stop_evt =>
       match stop_evt with
       | Some evt => thinking_event evt = false
       | None => True
       end).
Proof.
  unfold close_block_if_open.
  eapply giving_bind; [apply giving_keeps, keeps_gets|]. intros s _.
  destruct (_current_block_type s); [|now apply giving_ret].
  eapply giving_bind.
  - apply giving_keeps, keeps_modify. frame_step.
  - intros _ _. now apply giving_ret.
Qed.

Lemma off_close_and_emit : keeps K close_and_emit.
Proof.
  unfold close_and_emit.
  eapply keeps_giving_keeps, giving_bind; [apply off_close_block_if_open|].
  intros [evt|] H; apply giving_keeps; [now apply off_emit | apply keeps_ret].
Qed.

Lemma off_next_index : keeps K _next_index.
Proof.
  unfold _next_index. apply keeps_bind; [|intros _; apply keeps_gets].
  now apply off_with_state.
Qed.

Lemma off_open_text_block :
  keeps_giving K open_text_block (fun evt => thinking_event evt = false).
Proof.
  unfold open_text_block.
  eapply giving_bind; [apply giving_keeps, off_next_index|]. intros idx _.
  eapply giving_bind.
  - apply giving_keeps, keeps_modify. frame_step.
  - intros _ _. now apply giving_ret.
Qed.

Lemma off_send_message_start (tokens : Z) :
  keeps K (send_message_start model_arg message_id_arg tokens).
Proof.
  unfold send_message_start. apply keeps_bind; [apply keeps_gets|].
  intros [|]; [apply keeps_ret|].
  apply keeps_bind; [apply keeps_modify; frame_step|]. intros _.
  apply keeps_bind; [now apply off_ready_append|]. intros _.
  unfold flush_pending_ready. apply keeps_modify.
  intros fr (Hb & Hp & Hr & Hy). StreamingFacts.open_frame fr.
  unfold K, without_thinking, block_is in *.
  destruct pend; cbn in *; repeat split; auto with thinking.
Qed.

Lemma off_capture_usage (response candidate : dict) :
  keeps K (capture_usage int_of_str response candidate).
Proof.
  unfold capture_usage. cbv zeta.
  apply keeps_bind.
  - destruct (dict_get "promptTokenCount" _); [|apply keeps_ret].
    apply keeps_bind; [apply keeps_lift|]. intros n. now apply off_with_state.
  - intros _.
    destruct (dict_get "candidatesTokenCount" _); [|apply keeps_ret].
    apply keeps_bind; [apply keeps_lift|]. intros n. now apply off_with_state.
Qed.

Ltac off_walk :=
  repeat
    match goal with
    | |- keeps _ (ret _) => apply keeps_ret
    | |- keeps _ (gets _) => apply keeps_gets
    | |- keeps _ (lift _) => apply keeps_lift
    | |- keeps _ (emit _) => apply off_emit; reflexivity
    | |- keeps _ (yield_or_enqueue _) =>
        apply off_yield_or_enqueue; reflexivity
    | |- keeps _ close_and_emit => apply off_close_and_emit
    | |- keeps _ _next_index => apply off_next_index
    | |- keeps _ (modify (with_state _)) =>
        apply off_with_state; reflexivity
    | |- keeps _ (modify _) => apply keeps_modify; solve [frame_step]
    | |- keeps _ (bind _ _) => apply keeps_bind; [|intros ?]
    | |- keeps _ (if ?c then _ else _) => destruct c
    | |- keeps _ (match ?x with _ => _ end) => destruct x
    end.

Lemma off_open_and_emit :
  keeps K (bind open_text_block (fun evt => emit evt)).
Proof.
  eapply keeps_giving_keeps, giving_bind; [apply off_open_text_block|].
  intros evt H. now apply giving_keeps, off_emit.
Qed.

Lemma off_process_part (part : json) :
  keeps K
    (process_part json_dumps py_repr uuid4_hex false thinking_to_text part).
Proof.
  unfold process_part. destruct part; try apply keeps_ret.
  cbv zeta. cbn [negb].
  eapply keeps_giving_keeps, giving_bind.
  { apply (giving_gets K (fun fr => fr) K). now intros fr H. }
  intros fr0 (Hb & _). rewrite Hb, andb_false_r. cbn [andb].
  apply giving_keeps.
  apply keeps_bind; [apply keeps_ret|]. intros _.
  destruct (dict_get "thought" _) as [[| [|] | | | | |]|].
  all: try (cbv beta iota; off_walk; fail).
  all: destruct (dict_has "text" d);
    [ match goal with
      | |- keeps _ (if ?c then _ else _) => destruct c
      end; [apply keeps_ret|];
      apply keeps_bind; [apply keeps_gets|]; intros is_text;
      apply keeps_bind;
        [ destruct (negb is_text); [|apply keeps_ret];
          apply keeps_bind; [apply off_close_and_emit|]; intros _;
          apply off_open_and_emit |];
      intros _; off_walk
    | off_walk ].
Qed.

Lemma off_process_chunk (data : json) :
  keeps K
    (process_chunk json_dumps py_repr int_of_str uuid4_hex model_arg
       message_id_arg false thinking_to_text data).
Proof.
  unfold process_chunk. cbv zeta.
  apply keeps_bind; [apply keeps_lift|]. intros response0.
  apply keeps_bind; [apply keeps_lift|]. intros candidates.
  apply keeps_bind; [apply keeps_lift|]. intros candidate0.
  apply keeps_bind; [apply keeps_lift|]. intros content0.
  apply keeps_bind; [apply keeps_lift|]. intros parts0.
  apply keeps_bind.
  { destruct (py_or response0 (JDict [])); try apply keeps_ret.
    destruct (py_or candidate0 (JDict [])); try apply keeps_ret.
    apply off_capture_usage. }
  intros _. apply keeps_bind; [apply keeps_gets|]. intros fr0.
  apply keeps_bind.
  { destruct (_ && _); [apply off_send_message_start | apply keeps_ret]. }
  intros _. apply keeps_bind; [apply keeps_lift|]. intros items.
  apply keeps_bind; [|intros _; apply keeps_lift].
  apply keeps_for_each. apply off_process_part.
Qed.

Lemma off_with_ready_nil (fr : Frame) : K fr -> K (with_ready [] fr).
Proof. revert fr. frame_step. Qed.

Lemma off_yield_ready (fr : Frame) : K fr -> K (yield_ready fr).
Proof. revert fr. frame_step. Qed.

Lemma off_read_lines (lines : list string) (rec : bool) (fr : Frame) :
  K fr ->
  K (snd (fst (read_lines json_loads json_dumps py_repr int_of_str uuid4_hex
                 model_arg message_id_arg credential_manager credential_name
                 false thinking_to_text lines rec fr))).
Proof.
  revert rec fr. induction lines as [|line lines IH]; intros rec fr HK.
  - exact HK.
  - cbn [read_lines]. cbv zeta. apply off_with_ready_nil in HK.
    destruct ((line =? "") || negb (String.prefix "data: " line));
      [now apply IH|].
    destruct (strip (drop 6 line) =? "[DONE]"); [exact HK|].
    destruct (record_success _ _ rec) as [rec1|e0]; [|exact HK].
    destruct (json_loads (strip (drop 6 line))) as [data|]; [|now apply IH].
    pose proof (off_process_chunk data _ HK) as Hchunk.
    destruct (process_chunk _ _ _ _ _ _ _ _ data (with_ready [] fr))
      as [[finish|e] fr1]; cbn [snd] in Hchunk; [|exact Hchunk].
    apply off_yield_ready in Hchunk.
    destruct (truthy finish); [|now apply IH].
    cbn [fst snd]. revert Hchunk. generalize (yield_ready fr1).
    frame_step.
Qed.

Lemma off_epilogue :
  keeps K (epilogue model_arg message_id_arg initial_input_tokens).
Proof.
  unfold epilogue. cbv zeta.
  apply keeps_bind; [apply keeps_gets|]. intros buffer.
  apply keeps_bind.
  { destruct (negb (buffer =? "")); [|apply keeps_ret].
    eapply keeps_giving_keeps, giving_bind; [apply off_close_block_if_open|].
    intros stop_evt Hstop. apply giving_keeps.
    apply keeps_bind.
    { destruct stop_evt; [now apply off_yield_or_enqueue | apply keeps_ret]. }
    intros _.
    eapply keeps_giving_keeps, giving_bind; [apply off_open_text_block|].
    intros evt H. apply giving_keeps.
    apply keeps_bind; [now apply off_yield_or_enqueue|]. intros _.
    off_walk. }
  intros _.
  eapply keeps_giving_keeps, giving_bind; [apply off_close_block_if_open|].
  intros stop_evt Hstop. apply giving_keeps.
  apply keeps_bind.
  { destruct stop_evt; [now apply off_yield_or_enqueue | apply keeps_ret]. }
  intros _.
  apply keeps_bind; [apply keeps_gets|]. intros was_sent.
  apply keeps_bind.
  { destruct (negb was_sent); [|apply keeps_ret].
    apply keeps_bind; [apply keeps_modify, off_with_ready_nil|]. intros _.
    apply keeps_bind; [apply off_send_message_start|]. intros _.
    apply keeps_modify, off_yield_ready. }
  intros _. apply keeps_bind; [apply keeps_gets|]. intros s.
  apply keeps_modify. frame_step.
  apply no_thinking_app; [assumption|]. now repeat constructor.
Qed.

Lemma off_on_exception (e : exn) (fr : Frame) :
  K fr ->
  no_thinking
    (on_exception exn_str model_arg message_id_arg initial_input_tokens e fr).
Proof.
  intros (_ & _ & _ & Hy). unfold on_exception.
  apply no_thinking_app; [exact Hy|].
  destruct (message_start_sent fr); repeat constructor.
Qed.

(** With thinking off ([client_thinking_enabled] false), no event of the
    stream belongs to a thinking block, whatever upstream sends and
    whether the stream ends or fails: no block of type [thinking] is
    started, and there is no [thinking_delta] and no [signature_delta]. *)
Theorem no_thinking_events_with_thinking_off (lines : list string) :
  no_thinking
    (fst (antigravity_sse_to_anthropic_sse json_loads json_dumps py_repr
            int_of_str exn_str uuid4_hex model_arg message_id_arg
            initial_input_tokens credential_manager credential_name false
            thinking_to_text lines)).
Proof.
  unfold antigravity_sse_to_anthropic_sse.
  assert (Hinit : K (init_frame model_arg message_id_arg)).
  { repeat split; constructor. }
  pose proof (off_read_lines lines false _ Hinit) as Hread.
  destruct (fst (read_lines _ _ _ _ _ _ _ _ _ _ _ lines false _))
    as [[u|e] fr]; cbn [snd] in Hread.
  - pose proof (off_epilogue fr Hread) as Hend.
    destruct (epilogue _ _ _ fr) as [[u'|e] fr']; cbn [fst snd] in *.
    + apply Hend.
    + now apply off_on_exception.
  - now apply off_on_exception.
Qed.

End Translator.

(** Scenario 3 with thinking on has events of a thinking block; read
    with thinking off it is the answer alone, and with [thinking_to_text]
    the thought is put before the answer as text. *)
Example thinking_on_and_off :
  existsb thinking_event (fst (run_example scenario3_chunks [])) = true
  /\ map kind_of (fst (run_without_thinking false))
     = [KMessageStart; KStart 0; KDelta 0; KStop 0; KMessageDelta;
        KMessageStop]
  /\ nth_error (fst (run_without_thinking true)) 2
     = Some (content_block_delta 0
               [("type", JStr "text_delta");
                ("text",
                 JStr (wrap_thinking "pondering"
                         (Converter.newline ++ Converter.newline)))]).
Proof. repeat split; reflexivity. Qed.

End ThinkingOffFacts.
